(** * sync_gists: reconciliation of local scripts with GitHub gists

    A shallow embedding of [dev/sync_gists.py] and the properties of its
    reconciliation logic.

    Layout:
    - [Py]: the few Python string built-ins the script relies on;
    - [GitHub]: a model of the remote gist service (the external
      collaborator reached through [requests]);
    - the world the script runs in, and a state-and-exception monad;
    - the functions of the script, in source order ([sync_file] and
      [for_each] are the body and the [for] of [sync_files_to_gists],
      [prompt_loop] the [while] of [interactive_sync], [merged_gists] the
      [try] of [main]);
    - stand-ins and sample worlds for the worked instances;
    - the vocabulary of the properties, and the properties: first those
      of the reconciliation (precedence of the local mapping, diff mode,
      failures, the prompt, two runs in a row), then further properties
      of the single functions and of whole runs (what a run may touch,
      which requests it sends, when it ends).

    Conventions.  A Python [str] is a [string]; a character is a code point
    below 256.  A [Path] is its normalised text.  Every regular file is
    readable text.  Whether a file is executable is taken as given
    ([os.access]), as are [PurePath.match] and [difflib.unified_diff].  The two control files [.gists.toml] and [.gistignore]
    are kept apart from the candidate files.  A parsed [.gists.toml] has
    the three parts the script writes; it carries its [metadata] table
    (the script writes one in every document it produces and indexes it
    without a default), while [version] and [files] may be missing, as the
    script reads both with a default.  Command-line parsing and the choice
    of the candidate files are outside the embedding: [main] starts from
    the parsed arguments and the list of candidates. *)

From stdpp Require Import gmap strings list fin_maps pretty.
From Stdlib Require Import ZArith Ascii.

Open Scope string_scope.
Open Scope Z_scope.
Open Scope list_scope.

(** ** Python strings *)

Module Py.

Definition ord (c : ascii) : N := N_of_ascii c.

(** Line boundaries of [str.splitlines] among the code points below 256. *)
Definition is_linebreak (c : ascii) : bool :=
  let n := ord c in
  ((10 <=? n) && (n <=? 13) || (28 <=? n) && (n <=? 30) || (n =? 133))%N.

(** [str.isspace] for one character. *)
Definition isspace (c : ascii) : bool :=
  let n := ord c in
  ((9 <=? n) && (n <=? 13) || (28 <=? n) && (n <=? 32)
   || (n =? 133) || (n =? 160))%N.

Definition CR : ascii := ascii_of_N 13.
Definition LF : ascii := ascii_of_N 10.

Definition starts_with_LF (s : string) : bool :=
  match s with
  | String c _ => bool_decide (c = LF)
  | EmptyString => false
  end.

(** [s.splitlines(keepends)].  The lines of the tail are computed first;
    an ordinary character joins the first of them, a line boundary opens
    a new line, and the carriage return of a CR LF pair joins the line
    that its line feed opened. *)
Fixpoint splitlines (keepends : bool) (s : string) : list string :=
  match s with
  | EmptyString => []
  | String c rest =>
      let lines := splitlines keepends rest in
      if is_linebreak c then
        if bool_decide (c = CR) && starts_with_LF rest then
          match lines with
          | l :: tl => (if keepends then String c l else l) :: tl
          | [] => [if keepends then String c "" else ""]
          end
        else (if keepends then String c "" else "") :: lines
      else
        match lines with
        | l :: tl => String c l :: tl
        | [] => [String c ""]
        end
  end.

(** [''.join(parts)]. *)
Definition join (parts : list string) : string := String.concat "" parts.

Fixpoint lstrip (s : string) : string :=
  match s with
  | String c rest => if isspace c then lstrip rest else s
  | EmptyString => ""
  end.

Fixpoint rstrip (s : string) : string :=
  match s with
  | String c rest =>
      match rstrip rest with
      | EmptyString => if isspace c then "" else String c ""
      | kept => String c kept
      end
  | EmptyString => ""
  end.

(** [s.strip()]. *)
Definition strip (s : string) : string := rstrip (lstrip s).

(** Truth value of a string: non-empty. *)
Definition truthy (s : string) : bool :=
  match s with EmptyString => false | String _ _ => true end.

(** [c.lower()] for one character: A-Z and the Latin-1 capitals. *)
Definition lower (c : ascii) : ascii :=
  let n := ord c in
  if ((65 <=? n) && (n <=? 90)
      || (192 <=? n) && (n <=? 222) && negb (n =? 215))%N
  then ascii_of_N (n + 32) else c.

(** [textwrap.indent(text, prefix)]: the prefix goes before every line
    that is not blank. *)
Definition indent (text prefix : string) : string :=
  join (map (fun line => if truthy (strip line) then prefix +:+ line else line)
            (splitlines true text)).

(** [s.removeprefix]-style test used to route URLs: the rest of [s]
    after [p] when [s] starts with [p]. *)
Fixpoint after_prefix (p s : string) : option string :=
  match p, s with
  | EmptyString, _ => Some s
  | String a p', String b s' =>
      if bool_decide (a = b) then after_prefix p' s' else None
  | String _ _, EmptyString => None
  end.

(** [s.lower()]. *)
Fixpoint lower_str (s : string) : string :=
  match s with
  | EmptyString => ""
  | String c rest => String (lower c) (lower_str rest)
  end.

(** [s.startswith(prefix)]. *)
Definition startswith (s prefix : string) : bool :=
  if after_prefix prefix s is Some _ then true else false.

(** [f.readline()] of a file opened as text: the text up to the first
    line ending, which is read as a line feed whether it was written as
    LF, CR or CR LF. *)
Fixpoint readline (s : string) : string :=
  match s with
  | EmptyString => ""
  | String c rest =>
      if bool_decide (c = LF) || bool_decide (c = CR) then String LF ""
      else String c (readline rest)
  end.

End Py.


(** ** The remote gist service

    The script reaches GitHub through [requests]; this module is the model
    of that collaborator.  It stores gists newest first, answers the four
    calls the script makes, and can be told to fail: [faults] holds, for
    each coming request, the failure to inject ([None]: serve normally). *)

Module GitHub.

(** A gist as the API returns it.  A gist always has a file, so that
    [next(iter(gist['files']))] is defined. *)
Record gist := {
  g_id : string;
  g_html_url : string;
  g_description : string;
  g_public : bool;
  g_first : string * string;
  g_more : list (string * string)
}.

(** The JSON document sent by [sync_to_gist]. *)
Record gist_data := {
  d_description : string;
  d_public : bool;
  d_file_name : string;
  d_content : string
}.

Inductive request :=
  | GET (url : string)
  | PATCH (url : string) (json : gist_data)
  | POST (url : string) (json : gist_data).

Inductive json :=
  | JList (gs : list gist)
  | JGist (g : gist).

Record response := {
  r_url : string;
  status_code : Z;
  reason : string;
  body : option json
}.

Inductive fault :=
  | Unreachable (msg : string)
  | Status (code : Z) (why : string).

Record state := {
  gists : list gist;
  per_page : nat;
  next_id : N;
  faults : list (option fault)
}.

Definition API : string := "https://api.github.com/gists".

Definition g_files (g : gist) : list (string * string) := g_first g :: g_more g.

(** Content of the file called [name] in a gist. *)
Definition file_content (name : string) (g : gist) : option string :=
  snd <$> List.find (fun f => bool_decide (fst f = name)) (g_files g).

Definition find (i : string) (gs : list gist) : option gist :=
  List.find (fun g => bool_decide (g_id g = i)) gs.

Fixpoint set_in (name content : string) (fs : list (string * string))
  : list (string * string) :=
  match fs with
  | [] => [(name, content)]
  | f :: rest =>
      if bool_decide (fst f = name) then (name, content) :: rest
      else f :: set_in name content rest
  end.

(** Writing one file of a gist: replaced where it exists, added last
    otherwise. *)
Definition set_file (name content : string) (g : gist) : gist :=
  if bool_decide (fst (g_first g) = name) then
    {| g_id := g_id g; g_html_url := g_html_url g;
       g_description := g_description g; g_public := g_public g;
       g_first := (name, content); g_more := g_more g |}
  else
    {| g_id := g_id g; g_html_url := g_html_url g;
       g_description := g_description g; g_public := g_public g;
       g_first := g_first g; g_more := set_in name content (g_more g) |}.

Definition describe (d : string) (g : gist) : gist :=
  {| g_id := g_id g; g_html_url := g_html_url g; g_description := d;
     g_public := g_public g; g_first := g_first g; g_more := g_more g |}.

(** What an update does to the addressed gist. *)
Definition patched (d : gist_data) (g : gist) : gist :=
  set_file (d_file_name d) (d_content d) (describe (d_description d) g).

Fixpoint replace (i : string) (g' : gist) (gs : list gist) : list gist :=
  match gs with
  | [] => []
  | g :: rest =>
      if bool_decide (g_id g = i) then g' :: rest else g :: replace i g' rest
  end.

Definition fresh_id (n : N) : string := "g" +:+ pretty n.

Definition created (d : gist_data) (n : N) : gist :=
  {| g_id := fresh_id n;
     g_html_url := "https://gist.github.com/" +:+ fresh_id n;
     g_description := d_description d;
     g_public := d_public d;
     g_first := (d_file_name d, d_content d);
     g_more := [] |}.

Definition with_gists (gs : list gist) (s : state) : state :=
  {| gists := gs; per_page := per_page s; next_id := next_id s; faults := faults s |}.

Definition answer (u : string) (code : Z) (why : string) (b : option json)
  : response :=
  {| r_url := u; status_code := code; reason := why; body := b |}.

Definition not_found (u : string) : response := answer u 404 "Not Found" None.

(** The service without injected failures. *)
Definition serve (r : request) (s : state) : response * state :=
  match r with
  | GET u =>
      match Py.after_prefix API u with
      | Some EmptyString => (answer u 200 "OK" (Some (JList (take (per_page s) (gists s)))), s)
      | Some (String "/" i) =>
          match find i (gists s) with
          | Some g => (answer u 200 "OK" (Some (JGist g)), s)
          | None => (not_found u, s)
          end
      | _ => (not_found u, s)
      end
  | PATCH u d =>
      match Py.after_prefix API u with
      | Some (String "/" i) =>
          match find i (gists s) with
          | Some g =>
              (answer u 200 "OK" (Some (JGist (patched d g))),
               with_gists (replace i (patched d g) (gists s)) s)
          | None => (not_found u, s)
          end
      | _ => (not_found u, s)
      end
  | POST u d =>
      match Py.after_prefix API u with
      | Some EmptyString =>
          (answer u 201 "Created" (Some (JGist (created d (next_id s)))),
           {| gists := created d (next_id s) :: gists s; per_page := per_page s;
              next_id := N.succ (next_id s); faults := faults s |})
      | _ => (not_found u, s)
      end
  end.

Definition url_of (r : request) : string :=
  match r with GET u | PATCH u _ | POST u _ => u end.

Definition with_faults (fs : list (option fault)) (s : state) : state :=
  {| gists := gists s; per_page := per_page s; next_id := next_id s; faults := fs |}.

(** One exchange: either no response at all (the text is the transport
    error), or a response. *)
Definition exchange (r : request) (s : state) : (string + response) * state :=
  match faults s with
  | Some (Unreachable msg) :: fs => (inl msg, with_faults fs s)
  | Some (Status code why) :: fs =>
      (inr (answer (url_of r) code why None), with_faults fs s)
  | None :: fs =>
      let '(resp, s') := serve r (with_faults fs s) in (inr resp, s')
  | [] => let '(resp, s') := serve r s in (inr resp, s')
  end.

End GitHub.

(** ** The world of one run *)

Abbreviation Path := string (only parsing).

(** [Path.name]: the text after the last slash. *)
Fixpoint name_from (acc p : string) : string :=
  match p with
  | EmptyString => acc
  | String c rest =>
      if bool_decide (c = "/"%char) then name_from "" rest
      else name_from (acc +:+ String c "") rest
  end.

Definition Path_name (p : Path) : string := name_from "" p.

(** The text from the last dot of [s] on, when [s] has a dot. *)
Fixpoint from_last_dot (s : string) : option string :=
  match s with
  | EmptyString => None
  | String c rest =>
      match from_last_dot rest with
      | Some t => Some t
      | None => if bool_decide (c = "."%char) then Some s else None
      end
  end.

(** [Path.suffix]: with [i] the place of the last dot of the name, the
    name from [i] on when [0 < i < len(name) - 1], and [''] otherwise. *)
Definition Path_suffix (p : Path) : string :=
  match Path_name p with
  | EmptyString => ""
  | String _ rest =>
      match from_last_dot rest with
      | Some (String dot (String c t)) => String dot (String c t)
      | _ => ""
      end
  end.

(** One row of the [files] table of [.gists.toml]. *)
Record entry := { gist_id : string; url : string }.

(** A parsed [.gists.toml]. *)
Record document := {
  doc_version : option Z;
  doc_last_sync : option string;
  doc_files : option (gmap string entry)
}.

Inductive event :=
  | Print (text : string)
  | Http (r : GitHub.request).

Record world := {
  disk : gmap string string;       (* regular files: path to text *)
  gists_toml : option document;    (* .gists.toml, when it exists *)
  gistignore : option string;      (* .gistignore, when it exists *)
  github : GitHub.state;
  GITHUB_TOKEN : option string;    (* the environment variable *)
  stdin : string;                  (* keys the operator is going to press *)
  utcnow : string;                 (* the clock, in ISO format *)
  trace : list event               (* what the run printed and sent, oldest first *)
}.

Definition with_trace (t : list event) (w : world) : world :=
  {| disk := disk w; gists_toml := gists_toml w; gistignore := gistignore w;
     github := github w; GITHUB_TOKEN := GITHUB_TOKEN w; stdin := stdin w;
     utcnow := utcnow w; trace := t |}.

Definition with_github (s : GitHub.state) (w : world) : world :=
  {| disk := disk w; gists_toml := gists_toml w; gistignore := gistignore w;
     github := s; GITHUB_TOKEN := GITHUB_TOKEN w; stdin := stdin w;
     utcnow := utcnow w; trace := trace w |}.

Definition with_gists_toml (d : document) (w : world) : world :=
  {| disk := disk w; gists_toml := Some d; gistignore := gistignore w;
     github := github w; GITHUB_TOKEN := GITHUB_TOKEN w; stdin := stdin w;
     utcnow := utcnow w; trace := trace w |}.

Definition with_gistignore (text : string) (w : world) : world :=
  {| disk := disk w; gists_toml := gists_toml w; gistignore := Some text;
     github := github w; GITHUB_TOKEN := GITHUB_TOKEN w; stdin := stdin w;
     utcnow := utcnow w; trace := trace w |}.

Definition with_stdin (keys : string) (w : world) : world :=
  {| disk := disk w; gists_toml := gists_toml w; gistignore := gistignore w;
     github := github w; GITHUB_TOKEN := GITHUB_TOKEN w; stdin := keys;
     utcnow := utcnow w; trace := trace w |}.

(** ** Exceptions and the monad of the script *)

Inductive exit_arg :=
  | ExitCode (n : Z)
  | ExitMessage (text : string).

(** The exit status of the process for [sys.exit(arg)]. *)
Definition exit_status (a : exit_arg) : Z :=
  match a with ExitCode n => n | ExitMessage _ => 1 end.

Inductive exn :=
  | HTTPError (status : Z) (msg : string)   (* requests.exceptions.HTTPError *)
  | RequestException (msg : string)         (* any other requests exception *)
  | OSError (msg : string)
  | TypeError (msg : string)
  | SystemExit (arg : exit_arg).

(** [isinstance(e, requests.exceptions.RequestException)]. *)
Definition is_RequestException (e : exn) : bool :=
  match e with HTTPError _ _ | RequestException _ => true | _ => false end.

(** [str(e)]. *)
Definition exn_str (e : exn) : string :=
  match e with
  | HTTPError _ msg | RequestException msg | OSError msg | TypeError msg => msg
  | SystemExit (ExitCode n) => pretty n
  | SystemExit (ExitMessage text) => text
  end.

(** How a computation ends: with a value, with an exception, or never
    (the prompt loop once the operator's keys have run out). *)
Inductive result (A : Type) :=
  | Ok (a : A)
  | Raise (e : exn)
  | Hang.

Arguments Ok {A} a.
Arguments Raise {A} e.
Arguments Hang {A}.

Definition M (A : Type) : Type := world -> result A * world.

Definition ret {A} (a : A) : M A := fun w => (Ok a, w).

Definition bind {A B} (m : M A) (k : A -> M B) : M B :=
  fun w =>
    match m w with
    | (Ok a, w') => k a w'
    | (Raise e, w') => (Raise e, w')
    | (Hang, w') => (Hang, w')
    end.

Definition raise {A} (e : exn) : M A := fun w => (Raise e, w).

(** [try: m  except ...: handler]; the handler answers [None] for the
    exceptions its clauses do not match. *)
Definition try {A} (m : M A) (handler : exn -> option (M A)) : M A :=
  fun w =>
    match m w with
    | (Raise e, w') =>
        match handler e with
        | Some h => h w'
        | None => (Raise e, w')
        end
    | other => other
    end.

Notation "x <- m ;; k" := (bind m (fun x => k))
  (at level 100, m at next level, right associativity).
Notation "m ;; k" := (bind m (fun _ => k))
  (at level 100, right associativity).

Definition emit (e : event) : M unit :=
  fun w => (Ok tt, with_trace (trace w ++ [e]) w).

Definition NL : string := String Py.LF "".

(** [print(text)] and [print(text, end='')]. *)
Definition print (text : string) : M unit := emit (Print (text +:+ NL)).
Definition print_end (text : string) : M unit := emit (Print text).

Definition is_file (p : Path) : M bool :=
  fun w => (Ok (bool_decide (is_Some (disk w !! p))), w).

Definition read_text (p : Path) : M string :=
  fun w =>
    match disk w !! p with
    | Some text => (Ok text, w)
    | None => (Raise (OSError ("No such file: " +:+ p)), w)
    end.

(** [requests.get], [requests.patch], [requests.post]. *)
Definition requests_send (r : GitHub.request) : M GitHub.response :=
  emit (Http r) ;;
  fun w =>
    match GitHub.exchange r (github w) with
    | (inl msg, s) => (Raise (RequestException msg), with_github s w)
    | (inr resp, s) => (Ok resp, with_github s w)
    end.

Definition requests_get (u : string) := requests_send (GitHub.GET u).
Definition requests_patch (u : string) (d : GitHub.gist_data) := requests_send (GitHub.PATCH u d).
Definition requests_post (u : string) (d : GitHub.gist_data) := requests_send (GitHub.POST u d).

(** [response.raise_for_status()]. *)
Definition raise_for_status (r : GitHub.response) : M unit :=
  let code := GitHub.status_code r in
  if (400 <=? code) && (code <? 500) then
    raise (HTTPError code (pretty code +:+ " Client Error: " +:+ GitHub.reason r
                           +:+ " for url: " +:+ GitHub.r_url r))
  else if (500 <=? code) && (code <? 600) then
    raise (HTTPError code (pretty code +:+ " Server Error: " +:+ GitHub.reason r
                           +:+ " for url: " +:+ GitHub.r_url r))
  else ret tt.

(** [response.json()], read as one gist and as a list of gists. *)
Definition json_gist (r : GitHub.response) : M GitHub.gist :=
  match GitHub.body r with
  | Some (GitHub.JGist g) => ret g
  | Some (GitHub.JList _) => raise (TypeError "list indices must be integers")
  | None => raise (RequestException "Expecting value")
  end.

Definition json_gists (r : GitHub.response) : M (list GitHub.gist) :=
  match GitHub.body r with
  | Some (GitHub.JList gs) => ret gs
  | Some (GitHub.JGist _) => raise (TypeError "string indices must be integers")
  | None => raise (RequestException "Expecting value")
  end.

(** ** The script *)

Definition GIST_API_URL : string := GitHub.API.
Definition CONFIG_VERSION : Z := 1.

Section Script.

(** The two library functions the script calls that are taken as given:
    [PurePath.match] and [difflib.unified_diff] (with [lineterm='']). *)
Variable path_match : Path -> string -> bool.
Variable unified_diff :
  list string -> list string -> string -> string -> list string.

(** [os.access(path, os.X_OK)], taken as given as well. *)
Variable access_X_OK : Path -> bool.

Definition get_excluded_patterns : M (gset string) :=
  fun w =>
    match gistignore w with
    | None => (Ok ∅, w)
    | Some text =>
        (Ok (list_to_set
               (map Py.strip
                    (List.filter (fun pattern => Py.truthy (Py.strip pattern))
                                 (Py.splitlines false text)))), w)
    end.

Definition get_existing_gists : M (gmap string string) :=
  response <- requests_get GIST_API_URL ;;
  raise_for_status response ;;
  gists <- json_gists response ;;
  ret (fold_left
         (fun (d : gmap string string) gist =>
            if negb (GitHub.g_public gist)
            then <[fst (GitHub.g_first gist) := GitHub.g_id gist]> d
            else d)
         gists ∅).

Definition should_sync_file (file_path : Path) (excluded_patterns : gset string)
  : bool :=
  negb (existsb (fun pattern => path_match file_path pattern)
                (elements excluded_patterns)).

(** Truth value of an optional gist id: [None] and [''] are false. *)
Definition truthy_id (gist_id : option string) : option string :=
  match gist_id with
  | Some i => if Py.truthy i then Some i else None
  | None => None
  end.

Definition save_gist_mapping (file_path : Path) (gist_id gist_url : string)
  : M unit :=
  fun w =>
    let data :=
      match gists_toml w with
      | Some d => d
      | None => {| doc_version := Some CONFIG_VERSION;
                   doc_last_sync := None;
                   doc_files := Some ∅ |}
      end in
    let last_sync := Some (utcnow w) in
    let files :=
      <[Path_name file_path := {| gist_id := gist_id; url := gist_url |}]>
        (default ∅ (doc_files data)) in
    let new_data :=
      {| doc_version := Some (default CONFIG_VERSION (doc_version data));
         doc_last_sync := last_sync;
         doc_files := Some files |} in
    (Ok tt, with_gists_toml new_data w).

Definition sys_exit {A} (code : Z) : M A := raise (SystemExit (ExitCode code)).

Definition sync_to_gist (file_path : Path) (gist_id : option string)
           (dry_run : bool) : M unit :=
  let file_name := Path_name file_path in
  content <- read_text file_path ;;
  if dry_run then
    print ((if truthy_id gist_id is Some _ then "Would update" else "Would create")
           +:+ " gist for " +:+ file_path)
  else
    print_end ((if truthy_id gist_id is Some _ then "Updating" else "Creating")
               +:+ " gist for " +:+ file_path +:+ "... ") ;;
    let gist_data :=
      {| GitHub.d_description := "Auto-synced gist for " +:+ file_name;
         GitHub.d_public := false;
         GitHub.d_file_name := file_name;
         GitHub.d_content := content |} in
    response <-
      match truthy_id gist_id with
      | Some i => requests_patch (GIST_API_URL +:+ "/" +:+ i) gist_data
      | None => requests_post GIST_API_URL gist_data
      end ;;
    try (raise_for_status response ;;
         result <- json_gist response ;;
         print "done" ;;
         print ("  URL: " +:+ GitHub.g_html_url result) ;;
         if negb dry_run
         then save_gist_mapping file_path (GitHub.g_id result) (GitHub.g_html_url result)
         else ret tt)
        (fun e =>
           match e with
           | HTTPError status _ =>
               Some (print "failed" ;;
                     if status =? 403 then
                       print "Error: GitHub token lacks required permissions." ;;
                       print (NL +:+ "For fine-grained tokens:") ;;
                       print "1. Go to: GitHub Settings -> Developer Settings -> Fine-grained tokens" ;;
                       print "2. Ensure 'Gists: Read and write' is enabled under Account permissions" ;;
                       print (NL +:+ "For classic tokens:") ;;
                       print "1. Go to: GitHub Settings -> Developer Settings -> Tokens (classic)" ;;
                       print "2. Ensure the 'gist' scope is enabled" ;;
                       sys_exit 1
                     else raise e)
           | _ => None
           end).

Definition add_to_gistignore (pattern : string) : M unit :=
  fun w =>
    (Ok tt, with_gistignore (default "" (gistignore w) +:+ pattern +:+ NL) w).

(** The prompt loop of [interactive_sync], over the keys still to come.
    [get_single_key] takes the next key; when none is left it returns
    [''], no branch matches and the loop never ends. *)
Fixpoint prompt_loop (file_path : Path) (dry_run : bool) (keys : string)
  : M bool :=
  print (NL +:+ "File: " +:+ file_path) ;;
  print_end "[u]pload as gist, [x]clude (add to .gistignore), [s]kip (ask again next time), [q]uit? " ;;
  match keys with
  | EmptyString => fun w => (Hang, w)
  | String ch rest =>
      (fun w => (Ok tt, with_stdin rest w)) ;;
      let choice := String (Py.lower ch) "" in
      print choice ;;
      if bool_decide (choice = "q") then ret false
      else if bool_decide (choice = "s") then
        print "Skipped. Will ask again next time." ;; ret true
      else if bool_decide (choice = "x") then
        add_to_gistignore (Path_name file_path) ;;
        print ("Added " +:+ Path_name file_path +:+ " to .gistignore") ;;
        ret true
      else if bool_decide (choice = "u") then
        sync_to_gist file_path None dry_run ;; ret true
      else prompt_loop file_path dry_run rest
  end.

Definition interactive_sync (file_path : Path) (dry_run : bool) : M bool :=
  fun w => prompt_loop file_path dry_run (stdin w) w.

Definition get_gist_content (gist_id : string) : M string :=
  response <- requests_get (GIST_API_URL +:+ "/" +:+ gist_id) ;;
  raise_for_status response ;;
  gist <- json_gist response ;;
  ret (snd (GitHub.g_first gist)).

Definition show_diff (file_path : Path) (gist_id : string) : M bool :=
  text <- read_text file_path ;;
  let local_content := Py.splitlines true text in
  fetched <-
    try (response <- requests_get (GIST_API_URL +:+ "/" +:+ gist_id) ;;
         raise_for_status response ;;
         gist <- json_gist response ;;
         let gist_file := GitHub.g_first gist in
         let remote_content := Py.splitlines true (snd gist_file) in
         save_gist_mapping file_path (GitHub.g_id gist) (GitHub.g_html_url gist) ;;
         ret (Some remote_content))
        (fun e =>
           if is_RequestException e
           then Some (print ("Error fetching gist content: " +:+ exn_str e) ;;
                      ret None)
           else None) ;;
  match fetched with
  | None => ret true
  | Some remote_content =>
      if bool_decide (local_content = remote_content) then
        print (file_path +:+ ": No changes") ;; ret false
      else
        let diff := unified_diff remote_content local_content
                                 (file_path +:+ " (gist)")
                                 (file_path +:+ " (local)") in
        let diff_text := Py.join diff in
        if Py.truthy diff_text then
          print (NL +:+ "Diff for " +:+ file_path +:+ ":") ;;
          print (Py.indent diff_text "  ") ;;
          ret true
        else ret false
  end.

(** What the body of the [for] loop hands back: go on, or [break]. *)
Inductive signal := Next | Break.

(** The body of the loop of [sync_files_to_gists]. *)
Definition sync_file (existing_gists : gmap string string)
           (excluded_patterns : gset string)
           (create_new dry_run interactive show_diffs : bool)
           (file_path : Path) : M signal :=
  isf <- is_file file_path ;;
  if negb isf then
    print ("Warning: " +:+ file_path +:+ " is not a file, skipping") ;;
    ret Next
  else
    let gist_id := existing_gists !! Path_name file_path in
    match truthy_id gist_id with
    | Some i =>
        if show_diffs then
          has_changes <- show_diff file_path i ;;
          if negb has_changes then ret Next
          else sync_to_gist file_path gist_id dry_run ;; ret Next
        else sync_to_gist file_path gist_id dry_run ;; ret Next
    | None =>
        if create_new then
          if should_sync_file file_path excluded_patterns then
            if interactive then
              go_on <- interactive_sync file_path dry_run ;;
              if negb go_on then print (NL +:+ "Quitting...") ;; ret Break
              else ret Next
            else sync_to_gist file_path None dry_run ;; ret Next
          else ret Next
        else
          print ("Skipping " +:+ file_path +:+ " (no existing gist)") ;;
          ret Next
    end.

Fixpoint for_each (body : Path -> M signal) (files : list Path) : M signal :=
  match files with
  | [] => ret Next
  | file_path :: rest =>
      s <- body file_path ;;
      match s with
      | Next => for_each body rest
      | Break => ret Break
      end
  end.

Definition sync_files_to_gists (files : list Path)
           (existing_gists : gmap string string)
           (create_new dry_run interactive show_diffs : bool) : M unit :=
  excluded_patterns <- (if create_new then get_excluded_patterns else ret ∅) ;;
  for_each (sync_file existing_gists excluded_patterns
                      create_new dry_run interactive show_diffs) files ;;
  ret tt.

Definition is_script (path : Path) : M bool :=
  if bool_decide (Py.lower_str (Path_suffix path) ∈ [".py"; ".sh"; ".rb"])
  then ret true
  else if access_X_OK path then ret true
  else
    try (text <- read_text path ;;
         let first_line := Py.strip (Py.readline text) in
         ret (Py.startswith first_line "#!/usr/bin/env"
              || Py.startswith first_line "#!"))
        (fun e => if e is OSError _ then Some (ret false) else None).

Definition load_gist_mappings : M (gmap string string) :=
  fun w =>
    match gists_toml w with
    | Some data =>
        ((if bool_decide (default 1 (doc_version data) = CONFIG_VERSION)
          then ret tt
          else print ("Warning: Config file version mismatch. Expected "
                      +:+ pretty CONFIG_VERSION +:+ ", got "
                      +:+ pretty (default 1 (doc_version data)))) ;;
         ret (gist_id <$> default ∅ (doc_files data))) w
    | None => (Ok ∅, w)
    end.

(** The parsed command line; [a_files] is the list of candidates that
    [main] settles on (the [--files] given, or the scripts of the folder). *)
Record args := {
  a_files : list Path;
  a_dry_run : bool;
  a_create_new : bool;
  a_interactive : bool;
  a_diff : bool
}.

(** The merged map of known gists that [main] builds before the loop. *)
Definition merged_gists (tracked_gists : gmap string string)
  : M (gmap string string) :=
  try (api_gists <- get_existing_gists ;;
       ret (tracked_gists ∪ api_gists))
      (fun e =>
         if is_RequestException e
         then Some (print "Warning: Could not fetch gists from GitHub API, using local tracking only" ;;
                    ret tracked_gists)
         else None).

Definition main (a : args) : M unit :=
  github_token <- (fun w => (Ok (GITHUB_TOKEN w), w)) ;;
  if truthy_id github_token is None then
    raise (SystemExit (ExitMessage "Error: GITHUB_TOKEN environment variable not set"))
  else
    tracked_gists <- load_gist_mappings ;;
    existing_gists <- merged_gists tracked_gists ;;
    sync_files_to_gists (a_files a) existing_gists (a_create_new a)
                        (a_dry_run a) (a_interactive a) (a_diff a) ;;
    if negb (a_dry_run a) then print "Sync complete." else ret tt.

End Script.

(** ** Stand-ins for the two library functions, and sample worlds

    The properties below hold for every [path_match] and [unified_diff].
    The worked examples need some instance: a glob matcher on the file
    name ([*], [?] and literal characters), and a diff that lists the
    removed and the added lines under the two headers. *)

Module Sample.

Fixpoint fnmatch (pat s : string) : bool :=
  match pat with
  | EmptyString => negb (Py.truthy s)
  | String "*" pat' =>
      (fix star (t : string) : bool :=
         fnmatch pat' t
         || match t with String _ t' => star t' | EmptyString => false end) s
  | String "?" pat' =>
      match s with String _ s' => fnmatch pat' s' | EmptyString => false end
  | String c pat' =>
      match s with
      | String d s' => bool_decide (c = d) && fnmatch pat' s'
      | EmptyString => false
      end
  end.

Definition path_match (p : Path) (pattern : string) : bool :=
  fnmatch pattern (Path_name p).

Definition unified_diff (a b : list string) (fromfile tofile : string)
  : list string :=
  if bool_decide (a = b) then []
  else ["--- " +:+ fromfile; "+++ " +:+ tofile]
         ++ map (String.append "-") a ++ map (String.append "+") b.

Definition no_gists : GitHub.state :=
  {| GitHub.gists := []; GitHub.per_page := 30; GitHub.next_id := 1;
     GitHub.faults := [] |}.

Definition blank : world :=
  {| disk := ∅; gists_toml := None; gistignore := None; github := no_gists;
     GITHUB_TOKEN := Some "t"; stdin := ""; utcnow := "2024-01-01T00:00:00+00:00";
     trace := [] |}.

Definition with_disk (files : list (string * string)) (w : world) : world :=
  {| disk := list_to_map files; gists_toml := gists_toml w;
     gistignore := gistignore w; github := github w;
     GITHUB_TOKEN := GITHUB_TOKEN w; stdin := stdin w; utcnow := utcnow w;
     trace := trace w |}.

Definition tracking (rows : list (string * entry)) : document :=
  {| doc_version := Some 1; doc_last_sync := Some "2023-12-31T08:00:00+00:00";
     doc_files := Some (list_to_map rows) |}.

Definition with_tracking (rows : list (string * entry)) (w : world) : world :=
  with_gists_toml (tracking rows) w.

(** Two tracked scripts. *)
Definition two_tracked : world :=
  with_tracking [("a.py", {| gist_id := "X"; url := "u" |});
                 ("b.sh", {| gist_id := "Y"; url := "v" |})]
    (with_disk [("a.py", "print(1)"); ("b.sh", "echo")] blank).

Definition gist_X (file text : string) : GitHub.gist :=
  {| GitHub.g_id := "X"; GitHub.g_html_url := "https://gist.github.com/X";
     GitHub.g_description := "Auto-synced gist for " +:+ file;
     GitHub.g_public := false;
     GitHub.g_first := (file, text); GitHub.g_more := [] |}.

Definition with_service (gs : list GitHub.gist)
           (faults : list (option GitHub.fault)) (w : world) : world :=
  with_github {| GitHub.gists := gs; GitHub.per_page := 30;
                 GitHub.next_id := 1; GitHub.faults := faults |} w.

(** [a.py] is tracked as gist [X]; the gist holds the given text. *)
Definition tracked_a (remote : string) : world :=
  with_service [gist_X "a.py" remote] []
    (with_tracking [("a.py", {| gist_id := "X"; url := "u" |})]
       (with_disk [("a.py", "print(1)")] blank)).

(** [a.py] is tracked as gist [X], which the service does not have. *)
Definition tracked_a_gone : world :=
  with_tracking [("a.py", {| gist_id := "X"; url := "u" |})]
    (with_disk [("a.py", "print(1)")] blank).

(** [b.sh] is there, untracked, and listed in [.gistignore]. *)
Definition ignored_b : world :=
  with_gistignore ("b.sh" +:+ NL) (with_disk [("b.sh", "echo")] blank).

(** Three untracked scripts; the operator will press [u], then [q]. *)
Definition three_new : world :=
  with_stdin "uq"
    (with_disk [("a.py", "A"); ("b.py", "B"); ("c.py", "C")] blank).

(** A run that creates gists for the files given. *)
Definition create_all (files : list Path) : args :=
  {| a_files := files; a_dry_run := false; a_create_new := true;
     a_interactive := false; a_diff := false |}.

(** One new script. *)
Definition one_new : world := with_disk [("a.py", "A")] blank.

(** Two new scripts of the same name in two folders. *)
Definition same_name : world :=
  with_disk [("a/x.py", "A"); ("b/x.py", "B")] blank.

End Sample.

(** * The vocabulary of the properties *)

(** The rows of the [files] table of the mapping file, when there is one. *)
Definition tracked_rows (w : world) : gmap string entry :=
  default ∅ (gists_toml w ≫= doc_files).

(** The request [sync_to_gist] sends for a file with the given text: an
    update of the gist when an id is known, a creation otherwise. *)
Definition sync_request (file_path : Path) (gist_id : option string)
           (content : string) : GitHub.request :=
  let gist_data :=
    {| GitHub.d_description := "Auto-synced gist for " +:+ Path_name file_path;
       GitHub.d_public := false;
       GitHub.d_file_name := Path_name file_path;
       GitHub.d_content := content |} in
  match truthy_id gist_id with
  | Some i => GitHub.PATCH (GIST_API_URL +:+ "/" +:+ i) gist_data
  | None => GitHub.POST GIST_API_URL gist_data
  end.

(** What [print(text)] leaves in the trace. *)
Definition line (text : string) : event := Print (text +:+ NL).

(** The line [sync_to_gist] prints before it sends the request. *)
Definition sync_banner (file_path : Path) (gist_id : option string) : event :=
  Print ((if truthy_id gist_id is Some _ then "Updating" else "Creating")
         +:+ " gist for " +:+ file_path +:+ "... ").

(** The world once [sync_to_gist] has sent its request and the service
    has moved to [s]. *)
Definition sent (file_path : Path) (gist_id : option string) (content : string)
           (s : GitHub.state) (w : world) : world :=
  with_github s
    (with_trace (trace w ++ [sync_banner file_path gist_id]
                         ++ [Http (sync_request file_path gist_id content)]) w).

(** The lines printed for a refused token. *)
Definition remediation : list event :=
  [Print ("Error: GitHub token lacks required permissions." +:+ NL);
   Print (NL +:+ "For fine-grained tokens:" +:+ NL);
   Print ("1. Go to: GitHub Settings -> Developer Settings -> Fine-grained tokens" +:+ NL);
   Print ("2. Ensure 'Gists: Read and write' is enabled under Account permissions" +:+ NL);
   Print (NL +:+ "For classic tokens:" +:+ NL);
   Print ("1. Go to: GitHub Settings -> Developer Settings -> Tokens (classic)" +:+ NL);
   Print ("2. Ensure the 'gist' scope is enabled" +:+ NL)].

(** [raise_for_status] raises exactly for the codes from 400 to 599. *)
Definition is_error_status (code : Z) : bool := (400 <=? code) && (code <? 600).

(** The [try] statement of [sync_to_gist]: what happens once the response
    is there. *)
Definition settle (file_path : Path) (response : GitHub.response) : M unit :=
  try (raise_for_status response ;;
       result <- json_gist response ;;
       print "done" ;;
       print ("  URL: " +:+ GitHub.g_html_url result) ;;
       save_gist_mapping file_path (GitHub.g_id result) (GitHub.g_html_url result))
      (fun e =>
         match e with
         | HTTPError status _ =>
             Some (print "failed" ;;
                   if status =? 403 then
                     print "Error: GitHub token lacks required permissions." ;;
                     print (NL +:+ "For fine-grained tokens:") ;;
                     print "1. Go to: GitHub Settings -> Developer Settings -> Fine-grained tokens" ;;
                     print "2. Ensure 'Gists: Read and write' is enabled under Account permissions" ;;
                     print (NL +:+ "For classic tokens:") ;;
                     print "1. Go to: GitHub Settings -> Developer Settings -> Tokens (classic)" ;;
                     print "2. Ensure the 'gist' scope is enabled" ;;
                     sys_exit 1
                   else raise e)
         | _ => None
         end).

(** The address of one gist. *)
Definition gist_url (i : string) : string := GIST_API_URL +:+ "/" +:+ i.

(** The world after [save_gist_mapping]. *)
Definition saved (file_path : Path) (i u : string) (w : world) : world :=
  snd (save_gist_mapping file_path i u w).

(** The world after [show_diff] has fetched gist [g] and saved its
    mapping: the service is in state [s], and the request is in the trace. *)
Definition fetched (file_path : Path) (i : string) (g : GitHub.gist)
           (s : GitHub.state) (w : world) : world :=
  saved file_path (GitHub.g_id g) (GitHub.g_html_url g)
        (with_github s (with_trace (trace w ++ [Http (GitHub.GET (gist_url i))]) w)).

(** The ignore patterns the loop works with: those of [.gistignore] under
    [--create-new], none otherwise. *)
Definition patterns_of (create_new : bool) (w : world) : gset string :=
  if create_new then
    match gistignore w with
    | None => ∅
    | Some text =>
        list_to_set
          (map Py.strip
               (List.filter (fun pattern => Py.truthy (Py.strip pattern))
                            (Py.splitlines false text)))
    end
  else ∅.

(** The prompt of [interactive_sync]. *)
Definition prompt (file_path : Path) : list event :=
  [line (NL +:+ "File: " +:+ file_path);
   Print "[u]pload as gist, [x]clude (add to .gistignore), [s]kip (ask again next time), [q]uit? "].

(** The world once the operator has answered the prompt with [choice]
    and [keys] are left to come. *)
Definition answered (file_path : Path) (choice keys : string) (w : world) : world :=
  with_stdin keys (with_trace (trace w ++ prompt file_path ++ [line choice]) w).

(** A property [I] of the world is kept by a computation when it holds
    after the computation whenever it held before, however the
    computation ends. *)
Definition keeps (I : world -> Prop) {A : Type} (m : M A) : Prop :=
  forall w : world, I w -> I (snd (m w)).

(** What a request may write: the files whose names satisfy [ok]. *)
Definition writes_only (ok : string -> Prop) (r : GitHub.request) : Prop :=
  match r with
  | GitHub.GET _ => True
  | GitHub.PATCH _ d | GitHub.POST _ d => ok (GitHub.d_file_name d)
  end.

(** The ids the service will hand out are not in use. *)
Definition unused_ids (s : GitHub.state) : Prop :=
  forall (g : GitHub.gist) (n : N),
    In g (GitHub.gists s) -> (GitHub.next_id s <= n)%N ->
    GitHub.g_id g <> GitHub.fresh_id n.

(** The file is in step with its gist: the mapping file sends its name to
    the gist [i] of the service that holds, under that name, the text of the
    file. *)
Definition in_sync (p : Path) (i : string) (w : world) : Prop :=
  exists (url : string) (g : GitHub.gist) (text : string),
    tracked_rows w !! Path_name p = Some {| gist_id := i; url := url |}
    /\ i <> ""
    /\ GitHub.find i (GitHub.gists (github w)) = Some g
    /\ GitHub.file_content (Path_name p) g = Some text
    /\ disk w !! p = Some text.

(** The two together: what a run keeps for [p] while it deals with files
    of other names. *)
Definition stays_in_sync (p : Path) (i : string) (w : world) : Prop :=
  unused_ids (github w) /\ in_sync p i w.

(** The events by which a second run shows that it had nothing to change
    for [p]: the line that says so, or an update whose text is the text
    that the gist addressed holds already ([gs] are the gists of the
    service when the run comes to the file). *)
Definition is_noop_event (p : Path) (gs : list GitHub.gist) (e : event) : bool :=
  match e with
  | Print text => bool_decide (text = (p +:+ ": No changes") +:+ NL)
  | Http (GitHub.PATCH u d) =>
      match Py.after_prefix (GIST_API_URL +:+ "/") u with
      | Some i =>
          bool_decide (GitHub.find i gs ≫= GitHub.file_content (GitHub.d_file_name d)
                       = Some (GitHub.d_content d))
      | None => false
      end
  | Http _ => false
  end.

(** The step of the loop from [w] to [w'] reported no changes for [p] or
    made an update that changes nothing. *)
Definition changes_nothing (p : Path) (w w' : world) : bool :=
  existsb (is_noop_event p (GitHub.gists (github w)))
          (drop (length (trace w)) (trace w')).

(** What the prompt makes of a key: the key in lower case. *)
Definition choice_of (ch : ascii) : string := String (Py.lower ch) "".

(** The keys the prompt acts on. *)
Definition is_choice (ch : ascii) : bool :=
  bool_decide (choice_of ch ∈ ["q"; "s"; "x"; "u"]).

Fixpoint no_choice (keys : string) : bool :=
  match keys with
  | EmptyString => true
  | String ch rest => negb (is_choice ch) && no_choice rest
  end.

(** What the prompt prints for keys it does not act on: itself and the
    key, once for each. *)
Fixpoint asked (file_path : Path) (keys : string) : list event :=
  match keys with
  | EmptyString => []
  | String ch rest =>
      prompt file_path ++ [line (choice_of ch)] ++ asked file_path rest
  end.


(** The events that write to the service, and those that create a gist. *)
Definition is_write (e : event) : bool :=
  match e with
  | Http (GitHub.PATCH _ _) | Http (GitHub.POST _ _) => true
  | _ => false
  end.

Definition is_creation (e : event) : bool :=
  match e with Http (GitHub.POST _ _) => true | _ => false end.

(** The document [sync_to_gist] sends for one of [files], whose texts
    are [texts]: secret, described by the base name of the file, and
    holding under that name the text of the file. *)
Definition carries (files : list Path) (texts : gmap string string)
           (d : GitHub.gist_data) : Prop :=
  GitHub.d_public d = false
  /\ exists q : Path,
      q ∈ files
      /\ GitHub.d_file_name d = Path_name q
      /\ GitHub.d_description d = "Auto-synced gist for " +:+ Path_name q
      /\ texts !! q = Some (GitHub.d_content d).

(** The events of a run over the candidates [files]: lines printed, the
    listing, the fetch of a gist, the update of a gist and the creation
    of one, each for a candidate and with its text. *)
Definition expected (files : list Path) (texts : gmap string string)
           (e : event) : Prop :=
  match e with
  | Print _ => True
  | Http (GitHub.GET u) =>
      u = GIST_API_URL \/ exists i : string, i <> "" /\ u = gist_url i
  | Http (GitHub.PATCH u d) =>
      (exists i : string, i <> "" /\ u = gist_url i) /\ carries files texts d
  | Http (GitHub.POST u d) => u = GIST_API_URL /\ carries files texts d
  end.

(** The events of the loop over [files] with the map [m] of known gists
    and the options given: a gist is fetched, in diff mode, and updated,
    outside a dry run, at the id the map has for the base name of a
    candidate; a gist is created, under [--create-new] and outside a dry
    run, for a candidate the map has no id for. *)
Definition follows_map (files : list Path) (m : gmap string string)
           (create_new dry_run show_diffs : bool) (e : event) : Prop :=
  match e with
  | Print _ => True
  | Http (GitHub.GET u) =>
      show_diffs = true
      /\ exists (q : Path) (i : string),
          q ∈ files /\ m !! Path_name q = Some i /\ i <> "" /\ u = gist_url i
  | Http (GitHub.PATCH u d) =>
      dry_run = false
      /\ exists (q : Path) (i : string),
          q ∈ files /\ m !! Path_name q = Some i /\ i <> "" /\ u = gist_url i
          /\ GitHub.d_file_name d = Path_name q
  | Http (GitHub.POST u d) =>
      dry_run = false /\ create_new = true
      /\ exists q : Path,
          q ∈ files /\ truthy_id (m !! Path_name q) = None
          /\ u = GIST_API_URL /\ GitHub.d_file_name d = Path_name q
  end.

Section Vocabulary.

Variable path_match : Path -> string -> bool.
Variable unified_diff :
  list string -> list string -> string -> string -> list string.

(** The body of the loop of a run whose merged map is [m] and whose loop
    started in the world [ws]. *)
Definition loop_body (a : args) (m : gmap string string) (ws : world)
  : Path -> M signal :=
  sync_file path_match unified_diff m (patterns_of (a_create_new a) ws)
            (a_create_new a) (a_dry_run a) (a_interactive a) (a_diff a).

(** The run of [main] from [w0] merges the maps into [m], starts its loop
    in [ws] and, the files [pre] done, comes to the file [p] in the
    world [w]. *)
Definition comes_to (a : args) (w0 : world) (pre : list Path) (p : Path)
           (rest : list Path) (m : gmap string string) (ws w : world) : Prop :=
  exists (tracked : gmap string string) (wl : world),
    is_Some (truthy_id (GITHUB_TOKEN w0))
    /\ load_gist_mappings w0 = (Ok tracked, wl)
    /\ merged_gists tracked wl = (Ok m, ws)
    /\ a_files a = pre ++ p :: rest
    /\ for_each (loop_body a m ws) pre ws = (Ok Next, w).

(** The run of [main] from [w0] synced the file [p] and ended in [w1]:
    it came to [p], the step of [p] ended as a call of [sync_to_gist]
    that went well ends, and the loop went on to its end. *)
Definition synced_by_run (a : args) (w0 w1 : world) (pre : list Path) (p : Path)
           (rest : list Path) : Prop :=
  exists (m : gmap string string) (ws w wx wa we : world)
         (gist_id : option string) (sg : signal),
    comes_to a w0 pre p rest m ws w
    /\ loop_body a m ws p w = (Ok Next, wa)
    /\ sync_to_gist p gist_id false wx = (Ok tt, wa)
    /\ for_each (loop_body a m ws) rest wa = (Ok sg, we)
    /\ w1 = with_trace (trace we ++ [line "Sync complete."]) we.

End Vocabulary.

(** * Properties *)

(** ** Strings *)

Example splitlines_keepends :
  Py.splitlines true ("a" +:+ String Py.CR (String Py.LF "b") +:+ String Py.LF "")
  = ["a" +:+ String Py.CR (String Py.LF ""); "b" +:+ String Py.LF ""].
Proof. reflexivity. Qed.

Example splitlines_plain :
  Py.splitlines false (String Py.LF ("x" +:+ String Py.CR (String Py.CR "y")))
  = [""; "x"; ""; "y"].
Proof. reflexivity. Qed.

Example strip_pattern : Py.strip ("  *.tmp " +:+ String Py.CR "") = "*.tmp".
Proof. reflexivity. Qed.

Example name_of_nested_path : Path_name "a/b/x.py" = "x.py".
Proof. reflexivity. Qed.

Lemma append_cons (c : ascii) (s t : string) :
  String c s +:+ t = String c (s +:+ t).
Proof. reflexivity. Qed.

Lemma append_empty_l (s : string) : "" +:+ s = s.
Proof. reflexivity. Qed.

Lemma append_empty_r (s : string) : s +:+ "" = s.
Proof.
  induction s as [|c s IH]; [reflexivity|].
  now rewrite append_cons, IH.
Qed.

Lemma join_cons (l : string) (tl : list string) :
  Py.join (l :: tl) = l +:+ Py.join tl.
Proof.
  unfold Py.join. destruct tl as [|l2 tl]; cbn [String.concat].
  - symmetry. apply append_empty_r.
  - reflexivity.
Qed.

(** Joining the lines that [splitlines] kept whole gives the text back. *)
Lemma join_splitlines (s : string) : Py.join (Py.splitlines true s) = s.
Proof.
  induction s as [|c rest IH]; [reflexivity|].
  cbn [Py.splitlines].
  destruct (Py.splitlines true rest) as [|l tl] eqn:E.
  - cbn in IH. subst rest.
    destruct (Py.is_linebreak c); [|reflexivity].
    destruct (bool_decide (c = Py.CR) && Py.starts_with_LF ""); reflexivity.
  - rewrite join_cons in IH.
    destruct (Py.is_linebreak c).
    + destruct (bool_decide (c = Py.CR) && Py.starts_with_LF rest).
      * now rewrite join_cons, append_cons, IH.
      * now rewrite !join_cons, append_cons, append_empty_l, IH.
    + now rewrite join_cons, append_cons, IH.
Qed.

(** Hence comparing two texts line for line is comparing the texts. *)
Lemma splitlines_inj (a b : string) :
  Py.splitlines true a = Py.splitlines true b -> a = b.
Proof.
  intros H. rewrite <- (join_splitlines a), <- (join_splitlines b).
  now rewrite H.
Qed.

Lemma after_prefix_app (p s : string) : Py.after_prefix p (p +:+ s) = Some s.
Proof.
  induction p as [|a p IH]; [now destruct s|].
  rewrite append_cons. cbn [Py.after_prefix].
  rewrite bool_decide_eq_true_2 by reflexivity. exact IH.
Qed.

(** ** The mapping file *)

(** C9. Persisting the mapping of one file rewrites [.gists.toml] and
    nothing else; in the new document the row of that file holds the given
    id and URL, every other row is the one of the old document, the version
    is the one the old document was read with (a version written in the old
    document is written back as it is), and the last-sync time is the
    current time. *)
Theorem save_gist_mapping_frame (file_path : Path) (i u : string) (w : world) :
  exists d' : document,
    save_gist_mapping file_path i u w = (Ok tt, with_gists_toml d' w)
    /\ default ∅ (doc_files d') !! Path_name file_path
       = Some {| gist_id := i; url := u |}
    /\ (forall other : string,
          other <> Path_name file_path ->
          default ∅ (doc_files d') !! other = tracked_rows w !! other)
    /\ (forall d : document,
          gists_toml w = Some d ->
          default CONFIG_VERSION (doc_version d')
          = default CONFIG_VERSION (doc_version d)
          /\ (forall v : Z, doc_version d = Some v -> doc_version d' = Some v))
    /\ doc_last_sync d' = Some (utcnow w).
Proof.
  unfold save_gist_mapping, tracked_rows.
  eexists. split; [reflexivity|]. cbn [doc_files doc_version doc_last_sync].
  split; [apply (lookup_insert_eq (M := gmap string))|].
  split.
  - intros other Hne.
    change (default ∅ (Some ?m)) with m.
    rewrite lookup_insert_ne by congruence.
    destruct (gists_toml w) as [d|]; reflexivity.
  - split; [|reflexivity].
    intros d ->. split.
    + now destruct (doc_version d).
    + now intros v ->.
Qed.

Lemma save_gist_mapping_frame_witness :
  exists d' : document,
    gists_toml (snd (save_gist_mapping "a.py" "X2" "u2" Sample.two_tracked)) = Some d'
    /\ default ∅ (doc_files d') !! "a.py" = Some {| gist_id := "X2"; url := "u2" |}
    /\ default ∅ (doc_files d') !! "b.sh" = Some {| gist_id := "Y"; url := "v" |}
    /\ doc_version d' = Some 1.
Proof.
  destruct (save_gist_mapping_frame "a.py" "X2" "u2" Sample.two_tracked)
    as (d' & E & Hrow & Hother & Hversion & _).
  exists d'. rewrite E. split; [reflexivity|]. split; [exact Hrow|].
  split.
  - rewrite (Hother "b.sh") by discriminate. reflexivity.
  - apply (Hversion (Sample.tracking
                       [("a.py", {| gist_id := "X"; url := "u" |});
                        ("b.sh", {| gist_id := "Y"; url := "v" |})])
                    eq_refl).
    reflexivity.
Defined.

(** ** Running the script *)

Lemma raise_for_status_ok (r : GitHub.response) (w : world) :
  is_error_status (GitHub.status_code r) = false ->
  raise_for_status r w = (Ok tt, w).
Proof.
  unfold is_error_status, raise_for_status. intros H.
  destruct (400 <=? GitHub.status_code r) eqn:E1; cbn [andb] in *.
  - rewrite H.
    destruct (GitHub.status_code r <? 500) eqn:E2; [lia|].
    destruct (500 <=? GitHub.status_code r) eqn:E3; reflexivity.
  - destruct (500 <=? GitHub.status_code r) eqn:E3; [lia|reflexivity].
Qed.

Lemma raise_for_status_error (r : GitHub.response) (w : world) :
  is_error_status (GitHub.status_code r) = true ->
  exists msg : string,
    raise_for_status r w = (Raise (HTTPError (GitHub.status_code r) msg), w).
Proof.
  unfold is_error_status, raise_for_status. intros H.
  apply andb_true_iff in H as [H1 H2]. rewrite H1. cbn [andb].
  destruct (GitHub.status_code r <? 500) eqn:E2; [eexists; reflexivity|].
  destruct (500 <=? GitHub.status_code r) eqn:E3; [|lia].
  rewrite H2. eexists; reflexivity.
Qed.

(** [sync_to_gist] outside dry-run mode: the banner, the request, and then
    the handling of what came back. *)
Lemma sync_to_gist_sends (file_path : Path) (gist_id : option string)
      (content : string) (w : world) :
  disk w !! file_path = Some content ->
  sync_to_gist file_path gist_id false w
  = match GitHub.exchange (sync_request file_path gist_id content) (github w) with
    | (inl msg, s) =>
        (Raise (RequestException msg), sent file_path gist_id content s w)
    | (inr response, s) =>
        settle file_path response (sent file_path gist_id content s w)
    end.
Proof.
  intros Hdisk.
  unfold sync_to_gist, sent, sync_banner, sync_request, settle.
  unfold bind at 1. unfold read_text at 1. rewrite Hdisk.
  cbn [negb].
  destruct (truthy_id gist_id) as [i|];
    unfold bind at 1, print_end at 1, emit at 1;
    unfold bind at 1; unfold requests_patch, requests_post, requests_send;
    unfold bind at 1, emit at 1; cbn [trace github with_trace];
    match goal with
    | |- context [GitHub.exchange ?r ?s] => destruct (GitHub.exchange r s) as [[msg|response] s']
    end;
    rewrite <- ?app_assoc; reflexivity.
Qed.

(** A response with an error status: [failed] is printed; for 403 the
    remediation follows and the process exits with status 1; any other
    error is raised again. *)
Lemma settle_error (file_path : Path) (response : GitHub.response) (w : world) :
  is_error_status (GitHub.status_code response) = true ->
  exists msg : string,
    settle file_path response w
    = if GitHub.status_code response =? 403
      then (Raise (SystemExit (ExitCode 1)),
            with_trace (trace w ++ [Print ("failed" +:+ NL)] ++ remediation) w)
      else (Raise (HTTPError (GitHub.status_code response) msg),
            with_trace (trace w ++ [Print ("failed" +:+ NL)]) w).
Proof.
  intros H. destruct (raise_for_status_error response w H) as [msg E].
  exists msg. unfold settle, try. unfold bind at 1. rewrite E.
  destruct (GitHub.status_code response =? 403).
  - cbn. rewrite <- !app_assoc. reflexivity.
  - reflexivity.
Qed.

(** A response that carries the gist: both lines are printed and the
    mapping is saved under the id and URL of the response. *)
Lemma settle_success (file_path : Path) (response : GitHub.response)
      (g : GitHub.gist) (w : world) :
  is_error_status (GitHub.status_code response) = false ->
  GitHub.body response = Some (GitHub.JGist g) ->
  settle file_path response w
  = save_gist_mapping file_path (GitHub.g_id g) (GitHub.g_html_url g)
      (with_trace (trace w ++ [Print ("done" +:+ NL)]
                           ++ [Print ("  URL: " +:+ GitHub.g_html_url g +:+ NL)]) w).
Proof.
  intros H Hbody. unfold settle, try. unfold bind at 1.
  rewrite (raise_for_status_ok _ _ H).
  unfold bind at 1. unfold json_gist. rewrite Hbody.
  cbn. rewrite <- !app_assoc. reflexivity.
Qed.

Lemma save_gist_mapping_saved (file_path : Path) (i u : string) (w : world) :
  save_gist_mapping file_path i u w = (Ok tt, saved file_path i u w).
Proof. reflexivity. Qed.

Lemma saved_row (file_path : Path) (i u : string) (w : world) :
  tracked_rows (saved file_path i u w) !! Path_name file_path
  = Some {| gist_id := i; url := u |}.
Proof. apply (lookup_insert_eq (M := gmap string)). Qed.

(** The outcome of [settle] extends the trace. *)
Lemma settle_trace (file_path : Path) (response : GitHub.response) (w : world) :
  exists more : list event,
    trace (snd (settle file_path response w)) = trace w ++ more.
Proof.
  destruct (is_error_status (GitHub.status_code response)) eqn:E.
  - destruct (settle_error file_path response w E) as [msg ->].
    destruct (GitHub.status_code response =? 403); eexists; reflexivity.
  - destruct (GitHub.body response) as [[gs|g]|] eqn:Hbody.
    + exists []. unfold settle, try. unfold bind at 1.
      rewrite (raise_for_status_ok _ _ E). unfold bind at 1, json_gist.
      rewrite Hbody. cbn. now rewrite app_nil_r.
    + rewrite (settle_success _ _ g _ E Hbody). cbn.
      eexists; reflexivity.
    + exists []. unfold settle, try. unfold bind at 1.
      rewrite (raise_for_status_ok _ _ E). unfold bind at 1, json_gist.
      rewrite Hbody. cbn. now rewrite app_nil_r.
Qed.

(** Outside dry-run mode, [sync_to_gist] sends its request, however the
    exchange ends. *)
Lemma sync_to_gist_request_sent (file_path : Path) (gist_id : option string)
      (content : string) (w : world) :
  disk w !! file_path = Some content ->
  exists more : list event,
    trace (snd (sync_to_gist file_path gist_id false w))
    = trace w ++ [sync_banner file_path gist_id]
              ++ [Http (sync_request file_path gist_id content)] ++ more.
Proof.
  intros Hdisk. rewrite (sync_to_gist_sends _ _ _ _ Hdisk).
  destruct (GitHub.exchange _ _) as [[msg|response] s].
  - exists []. reflexivity.
  - destruct (settle_trace file_path response (sent file_path gist_id content s w))
      as [more ->].
    exists more. cbn. now rewrite <- ?app_assoc.
Qed.

(** In a dry run [sync_to_gist] only says what it would do. *)
Lemma sync_to_gist_dry_run (file_path : Path) (gist_id : option string)
      (content : string) (w : world) :
  disk w !! file_path = Some content ->
  sync_to_gist file_path gist_id true w
  = (Ok tt,
     with_trace
       (trace w ++
        [line ((if truthy_id gist_id is Some _ then "Would update" else "Would create")
               +:+ " gist for " +:+ file_path)]) w).
Proof.
  intros Hdisk. unfold sync_to_gist, bind, read_text. now rewrite Hdisk.
Qed.

(** The operator presses [q] (or [Q]): [interactive_sync] answers [False]. *)
Lemma interactive_sync_quit (file_path : Path) (dry_run : bool)
      (ch : ascii) (keys : string) (w : world) :
  stdin w = String ch keys ->
  Py.lower ch = "q"%char ->
  interactive_sync file_path dry_run w
  = (Ok false, answered file_path "q" keys w).
Proof.
  intros Hkeys Hq. unfold interactive_sync. rewrite Hkeys.
  cbn [prompt_loop]. rewrite Hq.
  rewrite bool_decide_eq_true_2 by reflexivity.
  cbn. now rewrite <- !app_assoc.
Qed.

(** The operator presses [u] (or [U]): the file is uploaded as a new gist. *)
Lemma interactive_sync_upload (file_path : Path) (dry_run : bool)
      (ch : ascii) (keys : string) (w : world) :
  stdin w = String ch keys ->
  Py.lower ch = "u"%char ->
  interactive_sync file_path dry_run w
  = (sync_to_gist file_path None dry_run ;; ret true)
      (answered file_path "u" keys w).
Proof.
  intros Hkeys Hu. unfold interactive_sync. rewrite Hkeys.
  cbn [prompt_loop]. rewrite Hu.
  rewrite bool_decide_eq_false_2 by discriminate.
  rewrite bool_decide_eq_false_2 by discriminate.
  rewrite bool_decide_eq_false_2 by discriminate.
  rewrite bool_decide_eq_true_2 by reflexivity.
  unfold answered, prompt, line.
  unfold bind at 1, print at 1, emit at 1.
  unfold bind at 1, print_end at 1, emit at 1.
  unfold bind at 1. unfold bind at 1, print at 1, emit at 1.
  cbn [trace with_trace with_stdin]. rewrite <- !app_assoc. reflexivity.
Qed.

Lemma truthy_id_Some (i : string) : i <> "" -> truthy_id (Some i) = Some i.
Proof. now destruct i. Qed.

Lemma truthy_id_inv (o : option string) (i : string) :
  truthy_id o = Some i -> o = Some i /\ i <> "".
Proof.
  destruct o as [j|]; [|discriminate]. cbn.
  destruct j; [discriminate|]. intros [= <-]. split; [reflexivity|discriminate].
Qed.

(** The loop goes through a prefix that ends normally and carries on with
    the rest from the world the prefix left. *)
Lemma for_each_app (body : Path -> M signal) (pre rest : list Path) (w0 w : world) :
  for_each body pre w0 = (Ok Next, w) ->
  for_each body (pre ++ rest) w0 = for_each body rest w.
Proof.
  revert w0. induction pre as [|p pre IH]; intros w0 H.
  - cbn in H. injection H as <-. reflexivity.
  - cbn [for_each app] in *. unfold bind in *.
    destruct (body p w0) as [[[|]| |] w1]; try discriminate.
    now apply IH.
Qed.

(** An exception in the body ends the loop: the files that follow are
    not looked at. *)
Lemma for_each_raise (body : Path -> M signal) (p : Path) (rest : list Path)
      (e : exn) (w w' : world) :
  body p w = (Raise e, w') ->
  for_each body (p :: rest) w = (Raise e, w').
Proof. intros H. cbn [for_each]. unfold bind. now rewrite H. Qed.

Lemma for_each_break (body : Path -> M signal) (p : Path) (rest : list Path)
      (w w' : world) :
  body p w = (Ok Break, w') ->
  for_each body (p :: rest) w = (Ok Break, w').
Proof. intros H. cbn [for_each]. unfold bind. now rewrite H. Qed.

Lemma snd_bind_ret {A B} (m : M A) (b : B) (w : world) :
  snd ((m ;; ret b) w) = snd (m w).
Proof. unfold bind. now destruct (m w) as [[a|e|] w']. Qed.

Section Properties.

Variable path_match : Path -> string -> bool.
Variable unified_diff :
  list string -> list string -> string -> string -> list string.

(** A file that is there and has a known gist: the loop body is the
    update, after the comparison in diff mode. *)
Lemma sync_file_known (existing_gists : gmap string string)
      (excluded : gset string)
      (create_new dry_run interactive show_diffs : bool)
      (p : Path) (i : string) (w : world) :
  is_Some (disk w !! p) ->
  truthy_id (existing_gists !! Path_name p) = Some i ->
  sync_file path_match unified_diff existing_gists excluded
            create_new dry_run interactive show_diffs p w
  = (if show_diffs then
       has_changes <- show_diff unified_diff p i ;;
       if negb has_changes then ret Next
       else sync_to_gist p (Some i) dry_run ;; ret Next
     else sync_to_gist p (Some i) dry_run ;; ret Next) w.
Proof.
  intros Hfile Hid. unfold sync_file.
  unfold bind at 1. unfold is_file.
  rewrite bool_decide_eq_true_2 by assumption. cbn [negb].
  rewrite Hid. destruct (truthy_id_inv _ _ Hid) as [-> _]. reflexivity.
Qed.

Lemma sync_file_update (existing_gists : gmap string string)
      (excluded : gset string) (create_new dry_run interactive : bool)
      (p : Path) (i : string) (w : world) :
  is_Some (disk w !! p) ->
  existing_gists !! Path_name p = Some i ->
  i <> "" ->
  sync_file path_match unified_diff existing_gists excluded
            create_new dry_run interactive false p w
  = (sync_to_gist p (Some i) dry_run ;; ret Next) w.
Proof.
  intros Hfile Hid Hne.
  apply (sync_file_known _ _ _ _ _ false); [assumption|].
  now rewrite Hid, truthy_id_Some.
Qed.

Lemma lookup_merged (tracked api : gmap string string) (name : string) :
  (tracked ∪ api) !! name
  = match tracked !! name with
    | Some i => Some i
    | None => api !! name
    end.
Proof.
  rewrite lookup_union.
  destruct (tracked !! name), (api !! name); reflexivity.
Qed.

(** The merged map is the local mapping over some listing (the empty one
    when the listing could not be fetched). *)
Lemma merged_gists_cases (tracked m : gmap string string) (w w2 : world) :
  merged_gists tracked w = (Ok m, w2) ->
  exists api : gmap string string, m = tracked ∪ api.
Proof.
  unfold merged_gists, try. unfold bind at 1.
  destruct (get_existing_gists w) as [[api|e|] w1].
  - cbn. intros [= <- <-]. now exists api.
  - destruct (is_RequestException e); [|discriminate].
    cbn. intros [= <- <-]. exists ∅. now rewrite (right_id_L ∅ (∪)).
  - discriminate.
Qed.

Lemma merged_gists_wins (tracked m : gmap string string) (w w2 : world)
      (name i : string) :
  merged_gists tracked w = (Ok m, w2) ->
  tracked !! name = Some i -> m !! name = Some i.
Proof.
  intros Hm Hi. destruct (merged_gists_cases _ _ _ _ Hm) as [api ->].
  now rewrite lookup_merged, Hi.
Qed.

(** [main], once the token is there and the two maps are merged, is the
    loop over the files with the merged map, and the closing line. *)
Lemma main_runs_loop (a : args) (w0 w w2 : world) (tracked m : gmap string string) :
  is_Some (truthy_id (GITHUB_TOKEN w0)) ->
  load_gist_mappings w0 = (Ok tracked, w) ->
  merged_gists tracked w = (Ok m, w2) ->
  main path_match unified_diff a w0
  = (sync_files_to_gists path_match unified_diff (a_files a) m
       (a_create_new a) (a_dry_run a) (a_interactive a) (a_diff a) ;;
     if negb (a_dry_run a) then print "Sync complete." else ret tt) w2.
Proof.
  intros [t Ht] Hload Hm. unfold main.
  unfold bind at 1. rewrite Ht.
  unfold bind at 1. rewrite Hload.
  unfold bind at 1. now rewrite Hm.
Qed.

(** C1. The merged map of known gists is the union of the API listing
    and the local mapping in which the local mapping wins (and the local
    mapping alone when the listing cannot be fetched); [main] builds it
    once, before the loop, and every file is looked up in it.  So a file
    whose name the local mapping sends to the id [i] is an update of
    gist [i], whatever the listing says: outside diff mode the loop body is
    [sync_to_gist] with that id, and outside dry-run mode the request it
    sends is the [PATCH] of gist [i] with the text of the file. *)
Theorem merged_gists_local_first (tracked : gmap string string) (w : world) :
  (forall (api : gmap string string) (w1 : world),
      get_existing_gists w = (Ok api, w1) ->
      merged_gists tracked w = (Ok (tracked ∪ api), w1))
  /\ (forall (e : exn) (w1 : world),
        get_existing_gists w = (Raise e, w1) ->
        is_RequestException e = true ->
        merged_gists tracked w
        = (Ok tracked,
           with_trace
             (trace w1 ++ [line "Warning: Could not fetch gists from GitHub API, using local tracking only"])
             w1))
  /\ (forall (api : gmap string string) (name : string),
        (tracked ∪ api) !! name
        = match tracked !! name with
          | Some i => Some i
          | None => api !! name
          end)
  /\ (forall (m : gmap string string) (w2 : world),
        merged_gists tracked w = (Ok m, w2) ->
        (forall (name i : string),
            tracked !! name = Some i -> m !! name = Some i)
        /\ (forall (a : args) (w0 : world),
               is_Some (truthy_id (GITHUB_TOKEN w0)) ->
               load_gist_mappings w0 = (Ok tracked, w) ->
               main path_match unified_diff a w0
               = (sync_files_to_gists path_match unified_diff (a_files a) m
                    (a_create_new a) (a_dry_run a) (a_interactive a) (a_diff a) ;;
                  if negb (a_dry_run a) then print "Sync complete." else ret tt) w2)
        /\ (forall (p : Path) (i : string) (excluded : gset string)
                   (create_new dry_run interactive : bool) (w3 : world),
               tracked !! Path_name p = Some i ->
               i <> "" ->
               is_Some (disk w3 !! p) ->
               sync_file path_match unified_diff m excluded
                         create_new dry_run interactive false p w3
               = (sync_to_gist p (Some i) dry_run ;; ret Next) w3)
        /\ (forall (p : Path) (i text : string) (excluded : gset string)
                   (create_new interactive : bool) (w3 : world),
               tracked !! Path_name p = Some i ->
               i <> "" ->
               disk w3 !! p = Some text ->
               exists more : list event,
                 trace (snd (sync_file path_match unified_diff m excluded
                                       create_new false interactive false p w3))
                 = trace w3
                   ++ [Print ("Updating gist for " +:+ p +:+ "... ");
                       Http (GitHub.PATCH
                               (gist_url i)
                               {| GitHub.d_description :=
                                    "Auto-synced gist for " +:+ Path_name p;
                                  GitHub.d_public := false;
                                  GitHub.d_file_name := Path_name p;
                                  GitHub.d_content := text |})]
                   ++ more)).
Proof.
  split; [|split; [|split; [apply lookup_merged|]]].
  - intros api w1 E. unfold merged_gists, try. unfold bind at 1. now rewrite E.
  - intros e w1 E He. unfold merged_gists, try. unfold bind at 1.
    now rewrite E, He.
  - intros m w2 Hm. split; [|split; [|split]].
    + intros name i. now apply merged_gists_wins with (w := w) (w2 := w2).
    + intros a w0 Htoken Hload. now apply main_runs_loop with (w := w) (tracked := tracked).
    + intros p i excluded create_new dry_run interactive w3 Hi Hne Hfile.
      apply sync_file_update; [assumption| |assumption].
      now apply merged_gists_wins with (tracked := tracked) (w := w) (w2 := w2).
    + intros p i text excluded create_new interactive w3 Hi Hne Hdisk.
      rewrite (sync_file_update _ _ _ _ _ _ i);
        [|now exists text
         |now apply merged_gists_wins with (tracked := tracked) (w := w) (w2 := w2)
         |assumption].
      rewrite snd_bind_ret.
      destruct (sync_to_gist_request_sent p (Some i) text w3 Hdisk) as [more Hsent].
      exists more. rewrite Hsent.
      unfold sync_banner, sync_request. now rewrite (truthy_id_Some _ Hne).
Qed.

(** C3. A path whose name neither the listing nor the local mapping
    knows, without [--create-new]: the loop body only prints one line
    and goes on; nothing is sent and nothing else changes.  For a file
    the line says that it is skipped for want of a gist. *)
Theorem unknown_file_is_skipped (api tracked : gmap string string)
        (excluded : gset string) (dry_run interactive show_diffs : bool)
        (p : Path) (w : world) :
  api !! Path_name p = None ->
  tracked !! Path_name p = None ->
  (tracked ∪ api) !! Path_name p = None
  /\ (forall existing_gists : gmap string string,
        existing_gists = tracked ∪ api \/ existing_gists = tracked ->
        sync_file path_match unified_diff existing_gists excluded
                  false dry_run interactive show_diffs p w
        = (Ok Next,
           with_trace
             (trace w ++
              [line (if bool_decide (is_Some (disk w !! p))
                     then "Skipping " +:+ p +:+ " (no existing gist)"
                     else "Warning: " +:+ p +:+ " is not a file, skipping")])
             w)).
Proof.
  intros Hapi Htracked.
  assert (Hunion : (tracked ∪ api) !! Path_name p = None).
  { apply lookup_union_None. now split. }
  split; [exact Hunion|].
  intros existing_gists Hex.
  assert (Hnone : existing_gists !! Path_name p = None)
    by (destruct Hex as [-> | ->]; assumption).
  unfold sync_file. unfold bind at 1. unfold is_file.
  destruct (bool_decide (is_Some (disk w !! p))); cbn [negb].
  - rewrite Hnone. reflexivity.
  - reflexivity.
Qed.

(** C4 (as the code has it). With [--create-new], a file that has no
    known gist and matches an ignore pattern is passed over in silence:
    nothing is printed, nothing is sent, the world is left as it was.
    And the ignore patterns play no part for a file that has a known
    gist: the loop body does the same whatever the patterns are. *)
Theorem ignored_file_is_passed_over (existing_gists : gmap string string)
        (excluded : gset string) (dry_run interactive show_diffs : bool)
        (p : Path) (w : world) :
  is_Some (disk w !! p) ->
  (truthy_id (existing_gists !! Path_name p) = None ->
   (exists pattern : string,
       pattern ∈ excluded /\ path_match p pattern = true) ->
   sync_file path_match unified_diff existing_gists excluded
             true dry_run interactive show_diffs p w
   = (Ok Next, w))
  /\ (is_Some (truthy_id (existing_gists !! Path_name p)) ->
      forall (create_new : bool) (others : gset string),
        sync_file path_match unified_diff existing_gists excluded
                  create_new dry_run interactive show_diffs p w
        = sync_file path_match unified_diff existing_gists others
                    create_new dry_run interactive show_diffs p w).
Proof.
  intros Hfile. split.
  - intros Hnone (pattern & Hin & Hmatch).
    unfold sync_file. unfold bind at 1. unfold is_file.
    rewrite bool_decide_eq_true_2 by assumption. cbn [negb].
    rewrite Hnone.
    assert (Hskip : should_sync_file path_match p excluded = false).
    { unfold should_sync_file. apply negb_false_iff, existsb_exists.
      exists pattern. split; [|exact Hmatch].
      apply list_elem_of_In, elem_of_elements, Hin. }
    now rewrite Hskip.
  - intros [i Hi] create_new others.
    now rewrite !(sync_file_known _ _ _ _ _ _ _ i).
Qed.

(** [show_diff] when the gist comes back: its mapping is saved, and
    then the two texts are compared. *)
Lemma show_diff_fetched (p : Path) (i text : string) (w : world)
      (response : GitHub.response) (s : GitHub.state) (g : GitHub.gist) :
  disk w !! p = Some text ->
  GitHub.exchange (GitHub.GET (gist_url i)) (github w) = (inr response, s) ->
  is_error_status (GitHub.status_code response) = false ->
  GitHub.body response = Some (GitHub.JGist g) ->
  show_diff unified_diff p i w
  = (let local_content := Py.splitlines true text in
     let remote_content := Py.splitlines true (snd (GitHub.g_first g)) in
     if bool_decide (local_content = remote_content) then
       print (p +:+ ": No changes") ;; ret false
     else
       let diff_text :=
         Py.join (unified_diff remote_content local_content
                               (p +:+ " (gist)") (p +:+ " (local)")) in
       if Py.truthy diff_text then
         print (NL +:+ "Diff for " +:+ p +:+ ":") ;;
         print (Py.indent diff_text "  ") ;;
         ret true
       else ret false) (fetched p i g s w).
Proof.
  intros Hdisk Hex Hstatus Hbody.
  unfold show_diff. unfold bind at 1. unfold read_text at 1. rewrite Hdisk.
  unfold bind at 1. unfold try.
  unfold bind at 1. unfold requests_get, requests_send.
  unfold bind at 1. unfold emit at 1. cbn [github with_trace].
  fold (gist_url i). rewrite Hex.
  unfold bind at 1. rewrite (raise_for_status_ok _ _ Hstatus).
  unfold bind at 1. unfold json_gist at 1. rewrite Hbody. unfold ret at 1.
  unfold bind at 1. rewrite save_gist_mapping_saved.
  reflexivity.
Qed.

(** [show_diff] when the gist cannot be fetched: the error is printed
    and the answer is [True]. *)
Lemma show_diff_failed (p : Path) (i text : string) (w : world)
      (s : GitHub.state) :
  disk w !! p = Some text ->
  (exists msg : string,
      GitHub.exchange (GitHub.GET (gist_url i)) (github w) = (inl msg, s))
  \/ (exists response : GitHub.response,
         GitHub.exchange (GitHub.GET (gist_url i)) (github w) = (inr response, s)
         /\ is_error_status (GitHub.status_code response) = true) ->
  exists e : exn,
    is_RequestException e = true
    /\ show_diff unified_diff p i w
       = (Ok true,
          with_github s
            (with_trace (trace w ++ [Http (GitHub.GET (gist_url i))]
                                 ++ [line ("Error fetching gist content: " +:+ exn_str e)])
                        w)).
Proof.
  intros Hdisk Hfail.
  unfold show_diff. unfold bind at 1. unfold read_text at 1. rewrite Hdisk.
  unfold bind at 1. unfold try.
  unfold bind at 1. unfold requests_get, requests_send.
  unfold bind at 1. unfold emit at 1. cbn [github with_trace].
  fold (gist_url i).
  destruct Hfail as [[msg Hex] | (response & Hex & Hstatus)]; rewrite Hex.
  - exists (RequestException msg). split; [reflexivity|].
    cbn. rewrite <- app_assoc. reflexivity.
  - destruct (raise_for_status_error
                response
                (with_github s
                   (with_trace (trace w ++ [Http (GitHub.GET (gist_url i))]) w))
                Hstatus) as [msg E].
    exists (HTTPError (GitHub.status_code response) msg). split; [reflexivity|].
    unfold bind at 1. rewrite E.
    cbn. rewrite <- app_assoc. reflexivity.
Qed.

(** C2. A file with a known gist, in diff mode, whose text is, line for
    line, the text fetched from the gist: the loop body fetches the gist,
    prints that there are no changes and goes on.  No update is sent. *)
Theorem unchanged_file_is_not_updated
        (existing_gists : gmap string string) (excluded : gset string)
        (create_new dry_run interactive : bool)
        (p : Path) (i text : string) (w : world)
        (response : GitHub.response) (s : GitHub.state) (g : GitHub.gist) :
  disk w !! p = Some text ->
  existing_gists !! Path_name p = Some i ->
  i <> "" ->
  GitHub.exchange (GitHub.GET (gist_url i)) (github w) = (inr response, s) ->
  is_error_status (GitHub.status_code response) = false ->
  GitHub.body response = Some (GitHub.JGist g) ->
  Py.splitlines true text = Py.splitlines true (snd (GitHub.g_first g)) ->
  exists w' : world,
    sync_file path_match unified_diff existing_gists excluded
              create_new dry_run interactive true p w
    = (Ok Next, w')
    /\ trace w' = trace w ++ [Http (GitHub.GET (gist_url i));
                              line (p +:+ ": No changes")]
    /\ github w' = s.
Proof.
  intros Hdisk Hid Hne Hex Hstatus Hbody Hsame.
  rewrite (sync_file_known _ _ _ _ _ _ _ i)
    by (rewrite ?Hid, ?truthy_id_Some; eauto).
  unfold bind at 1.
  rewrite (show_diff_fetched _ _ _ _ _ _ _ Hdisk Hex Hstatus Hbody).
  cbv zeta. rewrite bool_decide_eq_true_2 by assumption.
  eexists. split; [reflexivity|].
  split; [|reflexivity]. cbn. now rewrite <- app_assoc.
Qed.

(** C7. A file with a known gist whose text differs from the text
    fetched from the gist: [show_diff] prints the unified diff from the
    gist to the local file and answers [True], and the mapping of the
    file is saved with the id and URL that came back.  [show_diff] does
    not look at the dry-run flag; in a dry run the loop body then only
    says what it would do, and the saved mapping stays. *)
Theorem changed_file_shows_diff
        (p : Path) (i text : string) (w : world)
        (response : GitHub.response) (s : GitHub.state) (g : GitHub.gist) :
  (forall (a b : list string) (fromfile tofile : string),
      a <> b -> Py.join (unified_diff a b fromfile tofile) <> "") ->
  disk w !! p = Some text ->
  GitHub.exchange (GitHub.GET (gist_url i)) (github w) = (inr response, s) ->
  is_error_status (GitHub.status_code response) = false ->
  GitHub.body response = Some (GitHub.JGist g) ->
  Py.splitlines true text <> Py.splitlines true (snd (GitHub.g_first g)) ->
  exists w1 : world,
    show_diff unified_diff p i w = (Ok true, w1)
    /\ trace w1
       = trace w ++
         [Http (GitHub.GET (gist_url i));
          line (NL +:+ "Diff for " +:+ p +:+ ":");
          line (Py.indent
                  (Py.join (unified_diff
                              (Py.splitlines true (snd (GitHub.g_first g)))
                              (Py.splitlines true text)
                              (p +:+ " (gist)") (p +:+ " (local)")))
                  "  ")]
    /\ tracked_rows w1 !! Path_name p
       = Some {| gist_id := GitHub.g_id g; url := GitHub.g_html_url g |}
    /\ (forall (existing_gists : gmap string string) (excluded : gset string)
               (create_new dry_run interactive : bool),
           existing_gists !! Path_name p = Some i ->
           i <> "" ->
           sync_file path_match unified_diff existing_gists excluded
                     create_new dry_run interactive true p w
           = (sync_to_gist p (Some i) dry_run ;; ret Next) w1)
    /\ (forall (existing_gists : gmap string string) (excluded : gset string)
               (create_new interactive : bool),
           existing_gists !! Path_name p = Some i ->
           i <> "" ->
           exists w2 : world,
             sync_file path_match unified_diff existing_gists excluded
                       create_new true interactive true p w
             = (Ok Next, w2)
             /\ tracked_rows w2 !! Path_name p
                = Some {| gist_id := GitHub.g_id g; url := GitHub.g_html_url g |}).
Proof.
  intros Hdiff Hdisk Hex Hstatus Hbody Hchanged.
  pose proof (show_diff_fetched _ _ _ _ _ _ _ Hdisk Hex Hstatus Hbody) as Hshow.
  cbv zeta in Hshow.
  rewrite bool_decide_eq_false_2 in Hshow by assumption.
  assert (Htruthy :
            Py.truthy
              (Py.join (unified_diff
                          (Py.splitlines true (snd (GitHub.g_first g)))
                          (Py.splitlines true text)
                          (p +:+ " (gist)") (p +:+ " (local)"))) = true).
  { specialize (Hdiff (Py.splitlines true (snd (GitHub.g_first g)))
                      (Py.splitlines true text)
                      (p +:+ " (gist)") (p +:+ " (local)")).
    destruct (Py.join _); [|reflexivity].
    exfalso. apply Hdiff; congruence. }
  rewrite Htruthy in Hshow.
  set (w1 := with_trace
               (trace (fetched p i g s w)
                ++ [line (NL +:+ "Diff for " +:+ p +:+ ":")]
                ++ [line (Py.indent
                            (Py.join (unified_diff
                                        (Py.splitlines true (snd (GitHub.g_first g)))
                                        (Py.splitlines true text)
                                        (p +:+ " (gist)") (p +:+ " (local)")))
                            "  ")])
               (fetched p i g s w)).
  assert (Hshow1 : show_diff unified_diff p i w = (Ok true, w1)).
  { rewrite Hshow. unfold w1. cbn. now rewrite <- !app_assoc. }
  clear Hshow.
  exists w1. split; [exact Hshow1|].
  split; [unfold w1; cbn; now rewrite <- !app_assoc|].
  split; [exact (saved_row p (GitHub.g_id g) (GitHub.g_html_url g) _)|].
  split.
  - intros existing_gists excluded create_new dry_run interactive Hid Hne.
    rewrite (sync_file_known _ _ _ _ _ _ _ i)
      by (rewrite ?Hid, ?truthy_id_Some; eauto).
    unfold bind at 1. now rewrite Hshow1.
  - intros existing_gists excluded create_new interactive Hid Hne.
    rewrite (sync_file_known _ _ _ _ _ _ _ i)
      by (rewrite ?Hid, ?truthy_id_Some; eauto).
    unfold bind at 1. rewrite Hshow1. cbn [negb].
    unfold bind at 1.
    rewrite (sync_to_gist_dry_run p (Some i) text w1 Hdisk).
    eexists. split; [reflexivity|].
    exact (saved_row p (GitHub.g_id g) (GitHub.g_html_url g) _).
Qed.

(** C10. A file with a known gist, in diff mode, when the gist cannot
    be fetched (no response, or a response with an error status): the
    error is printed, and the loop body carries on with the update of the
    file from there; outside dry-run mode the update request is sent. *)
Theorem fetch_failure_still_updates
        (existing_gists : gmap string string) (excluded : gset string)
        (create_new interactive : bool)
        (p : Path) (i text : string) (w : world) (s : GitHub.state) :
  disk w !! p = Some text ->
  existing_gists !! Path_name p = Some i ->
  i <> "" ->
  (exists msg : string,
      GitHub.exchange (GitHub.GET (gist_url i)) (github w) = (inl msg, s))
  \/ (exists response : GitHub.response,
         GitHub.exchange (GitHub.GET (gist_url i)) (github w) = (inr response, s)
         /\ is_error_status (GitHub.status_code response) = true) ->
  exists (e : exn) (w1 : world),
    is_RequestException e = true
    /\ w1 = with_github s
              (with_trace (trace w ++ [Http (GitHub.GET (gist_url i))]
                                   ++ [line ("Error fetching gist content: " +:+ exn_str e)])
                          w)
    /\ (forall dry_run : bool,
           sync_file path_match unified_diff existing_gists excluded
                     create_new dry_run interactive true p w
           = (sync_to_gist p (Some i) dry_run ;; ret Next) w1)
    /\ (exists more : list event,
           trace (snd (sync_file path_match unified_diff existing_gists excluded
                                 create_new false interactive true p w))
           = trace w1 ++ [sync_banner p (Some i)]
                      ++ [Http (sync_request p (Some i) text)] ++ more).
Proof.
  intros Hdisk Hid Hne Hfail.
  destruct (show_diff_failed p i text w s Hdisk Hfail) as (e & He & Hshow).
  exists e. eexists. split; [exact He|]. split; [reflexivity|].
  assert (Hbody : forall dry_run : bool,
             sync_file path_match unified_diff existing_gists excluded
                       create_new dry_run interactive true p w
             = (sync_to_gist p (Some i) dry_run ;; ret Next)
                 (with_github s
                    (with_trace (trace w ++ [Http (GitHub.GET (gist_url i))]
                                         ++ [line ("Error fetching gist content: " +:+ exn_str e)])
                                w))).
  { intros dry_run.
    rewrite (sync_file_known _ _ _ _ _ _ _ i)
      by (rewrite ?Hid, ?truthy_id_Some; eauto).
    unfold bind at 1. now rewrite Hshow. }
  split; [exact Hbody|].
  rewrite Hbody.
  match goal with
  | |- context [(sync_to_gist p (Some i) false ;; ret Next) ?w1] =>
      destruct (sync_to_gist_request_sent p (Some i) text w1 Hdisk) as [more Hsent];
      exists more; unfold bind;
      destruct (sync_to_gist p (Some i) false w1) as [[[]|e'|] w2];
      exact Hsent
  end.
Qed.

(** [sync_files_to_gists] is the loop over the files, run with the
    ignore patterns read at its start. *)
Lemma sync_files_to_gists_loop (files : list Path)
      (existing_gists : gmap string string)
      (create_new dry_run interactive show_diffs : bool) (w : world) :
  sync_files_to_gists path_match unified_diff files existing_gists
                      create_new dry_run interactive show_diffs w
  = (for_each (sync_file path_match unified_diff existing_gists
                         (patterns_of create_new w)
                         create_new dry_run interactive show_diffs) files ;;
     ret tt) w.
Proof.
  unfold sync_files_to_gists, patterns_of, get_excluded_patterns.
  unfold bind at 1.
  destruct create_new; [destruct (gistignore w)|]; reflexivity.
Qed.

(** C5. A create or update call that is answered with an error status.
    [sync_to_gist] prints [failed]; for status 403 it prints the
    remediation and ends the process with exit status 1, for any other
    status it raises the HTTP error again.  No mapping is saved.  Neither
    the loop nor [main] handles either exception: when the loop body of
    a run comes to that call, the run ends there with that exception;
    the files that follow are not processed. *)
Theorem failed_sync_ends_the_run
        (p : Path) (gist_id : option string) (text : string) (w : world)
        (response : GitHub.response) (s : GitHub.state) :
  disk w !! p = Some text ->
  GitHub.exchange (sync_request p gist_id text) (github w) = (inr response, s) ->
  is_error_status (GitHub.status_code response) = true ->
  exists (e : exn) (w' : world),
    sync_to_gist p gist_id false w = (Raise e, w')
    /\ (GitHub.status_code response = 403 ->
        e = SystemExit (ExitCode 1)
        /\ exit_status (ExitCode 1) = 1
        /\ trace w' = trace (sent p gist_id text s w)
                      ++ [line "failed"] ++ remediation)
    /\ (GitHub.status_code response <> 403 ->
        (exists msg : string, e = HTTPError (GitHub.status_code response) msg)
        /\ trace w' = trace (sent p gist_id text s w) ++ [line "failed"])
    /\ github w' = s
    /\ gists_toml w' = gists_toml w
    /\ (forall (a : args) (w0 wl ws wb : world)
               (tracked m : gmap string string) (pre rest : list Path),
           is_Some (truthy_id (GITHUB_TOKEN w0)) ->
           load_gist_mappings w0 = (Ok tracked, wl) ->
           merged_gists tracked wl = (Ok m, ws) ->
           a_files a = pre ++ p :: rest ->
           a_dry_run a = false ->
           let body :=
             sync_file path_match unified_diff m
                       (patterns_of (a_create_new a) ws)
                       (a_create_new a) false (a_interactive a) (a_diff a) in
           for_each body pre ws = (Ok Next, wb) ->
           body p wb = (sync_to_gist p gist_id false ;; ret Next) w ->
           main path_match unified_diff a w0 = (Raise e, w')).
Proof.
  intros Hdisk Hex Herr.
  pose proof (sync_to_gist_sends p gist_id text w Hdisk) as Hsync.
  rewrite Hex in Hsync.
  destruct (settle_error p response (sent p gist_id text s w) Herr) as [msg Hsettle].
  rewrite Hsettle in Hsync. clear Hsettle.
  assert (Hrun : forall (e : exn) (w' : world),
             sync_to_gist p gist_id false w = (Raise e, w') ->
             forall (a : args) (w0 wl ws wb : world)
                    (tracked m : gmap string string) (pre rest : list Path),
               is_Some (truthy_id (GITHUB_TOKEN w0)) ->
               load_gist_mappings w0 = (Ok tracked, wl) ->
               merged_gists tracked wl = (Ok m, ws) ->
               a_files a = pre ++ p :: rest ->
               a_dry_run a = false ->
               let body :=
                 sync_file path_match unified_diff m
                           (patterns_of (a_create_new a) ws)
                           (a_create_new a) false (a_interactive a) (a_diff a) in
               for_each body pre ws = (Ok Next, wb) ->
               body p wb = (sync_to_gist p gist_id false ;; ret Next) w ->
               main path_match unified_diff a w0 = (Raise e, w')).
  { intros e w' He a w0 wl ws wb tracked m pre rest Htoken Hload Hmerge
           Hfiles Hdry body Hpre Hbody.
    rewrite (main_runs_loop a w0 wl ws tracked m Htoken Hload Hmerge).
    unfold bind at 1. rewrite sync_files_to_gists_loop.
    rewrite Hfiles, Hdry. fold body.
    unfold bind at 1. rewrite (for_each_app body pre (p :: rest) ws wb Hpre).
    rewrite (for_each_raise body p rest e wb w'); [reflexivity|].
    rewrite Hbody. unfold bind. now rewrite He. }
  destruct (GitHub.status_code response =? 403) eqn:E403.
  - apply Z.eqb_eq in E403.
    eexists. eexists. split; [exact Hsync|].
    split; [intros _; repeat split|].
    split; [intros Hne; contradiction|].
    split; [reflexivity|]. split; [reflexivity|].
    now apply Hrun.
  - apply Z.eqb_neq in E403.
    eexists. eexists. split; [exact Hsync|].
    split; [intros H403; contradiction|].
    split; [intros _; split; [now exists msg|reflexivity]|].
    split; [reflexivity|]. split; [reflexivity|].
    now apply Hrun.
Qed.

(** A file that is there, has no known gist and is not ignored, under
    [--create-new --interactive]: the loop body asks the operator. *)
Lemma sync_file_asks (existing_gists : gmap string string)
      (excluded : gset string) (dry_run show_diffs : bool)
      (p : Path) (w : world) :
  is_Some (disk w !! p) ->
  truthy_id (existing_gists !! Path_name p) = None ->
  should_sync_file path_match p excluded = true ->
  sync_file path_match unified_diff existing_gists excluded
            true dry_run true show_diffs p w
  = (go_on <- interactive_sync p dry_run ;;
     if negb go_on then print (NL +:+ "Quitting...") ;; ret Break
     else ret Next) w.
Proof.
  intros Hfile Hnone Hsync. unfold sync_file.
  unfold bind at 1. unfold is_file.
  rewrite bool_decide_eq_true_2 by assumption. cbn [negb].
  now rewrite Hnone, Hsync.
Qed.

(** The loop when the operator quits at [p]. *)
Lemma for_each_quit (existing_gists : gmap string string)
      (excluded : gset string) (dry_run show_diffs : bool)
      (pre rest : list Path) (p : Path) (w0 w : world)
      (ch : ascii) (keys : string) :
  let body :=
    sync_file path_match unified_diff existing_gists excluded
              true dry_run true show_diffs in
  for_each body pre w0 = (Ok Next, w) ->
  is_Some (disk w !! p) ->
  truthy_id (existing_gists !! Path_name p) = None ->
  should_sync_file path_match p excluded = true ->
  stdin w = String ch keys ->
  Py.lower ch = "q"%char ->
  for_each body (pre ++ p :: rest) w0
  = (Ok Break,
     with_stdin keys
       (with_trace (trace w ++ prompt p
                            ++ [line "q"; line (NL +:+ "Quitting...")]) w)).
Proof.
  intros body Hpre Hfile Hnone Hsync Hkeys Hq.
  rewrite (for_each_app body pre (p :: rest) w0 w Hpre).
  apply for_each_break. unfold body.
  rewrite (sync_file_asks _ _ _ _ _ _ Hfile Hnone Hsync).
  unfold bind at 1. rewrite (interactive_sync_quit _ _ _ _ _ Hkeys Hq).
  cbn. now rewrite <- !app_assoc.
Qed.

(** C6. Under [--create-new --interactive], when the operator answers
    [q] for a file, the loop ends there: whatever files follow, the run
    of the loop ends in the world that the files before left, with the
    prompt, the answer and the farewell added to the trace and the key
    taken from the input; the service, the mapping file and the ignore
    file are as the earlier files left them.  In particular, for three
    files without a gist, when the operator uploads the first and quits
    at the second, one request is sent in all, the creation of a gist
    for the first file. *)
Theorem quit_stops_the_loop :
  (forall (existing_gists : gmap string string) (excluded : gset string)
          (dry_run show_diffs : bool) (pre rest : list Path) (p : Path)
          (w0 w : world) (ch : ascii) (keys : string),
      let body :=
        sync_file path_match unified_diff existing_gists excluded
                  true dry_run true show_diffs in
      for_each body pre w0 = (Ok Next, w) ->
      is_Some (disk w !! p) ->
      truthy_id (existing_gists !! Path_name p) = None ->
      should_sync_file path_match p excluded = true ->
      stdin w = String ch keys ->
      Py.lower ch = "q"%char ->
      for_each body (pre ++ p :: rest) w0
      = (Ok Break,
         with_stdin keys
           (with_trace (trace w ++ prompt p
                                ++ [line "q"; line (NL +:+ "Quitting...")]) w)))
  /\ (forall (existing_gists : gmap string string) (show_diffs : bool)
             (f1 f2 f3 : Path) (text1 : string) (w : world)
             (c1 c2 : ascii) (keys : string)
             (response : GitHub.response) (s : GitHub.state) (g : GitHub.gist),
         disk w !! f1 = Some text1 ->
         is_Some (disk w !! f2) ->
         truthy_id (existing_gists !! Path_name f1) = None ->
         truthy_id (existing_gists !! Path_name f2) = None ->
         should_sync_file path_match f1 (patterns_of true w) = true ->
         should_sync_file path_match f2 (patterns_of true w) = true ->
         stdin w = String c1 (String c2 keys) ->
         Py.lower c1 = "u"%char ->
         Py.lower c2 = "q"%char ->
         let create :=
           GitHub.POST GIST_API_URL
             {| GitHub.d_description := "Auto-synced gist for " +:+ Path_name f1;
                GitHub.d_public := false;
                GitHub.d_file_name := Path_name f1;
                GitHub.d_content := text1 |} in
         GitHub.exchange create (github w) = (inr response, s) ->
         is_error_status (GitHub.status_code response) = false ->
         GitHub.body response = Some (GitHub.JGist g) ->
         exists w' : world,
           sync_files_to_gists path_match unified_diff [f1; f2; f3]
                               existing_gists true false true show_diffs w
           = (Ok tt, w')
           /\ trace w'
              = trace w ++ prompt f1
                ++ [line "u"; Print ("Creating gist for " +:+ f1 +:+ "... ");
                    Http create;
                    line "done"; line ("  URL: " +:+ GitHub.g_html_url g)]
                ++ prompt f2
                ++ [line "q"; line (NL +:+ "Quitting...")]
           /\ github w' = s
           /\ stdin w' = keys).
Proof.
  split.
  - intros existing_gists excluded dry_run show_diffs pre rest p w0 w ch keys.
    apply for_each_quit.
  - intros existing_gists show_diffs f1 f2 f3 text1 w c1 c2 keys response s g
           Hdisk1 Hfile2 Hnone1 Hnone2 Hsync1 Hsync2 Hkeys Hu Hq
           create Hex Hstatus Hbody.
    rewrite sync_files_to_gists_loop.
    set (body := sync_file path_match unified_diff existing_gists
                           (patterns_of true w) true false true show_diffs).
    set (w1 := saved f1 (GitHub.g_id g) (GitHub.g_html_url g)
                     (with_trace
                        (trace (sent f1 None text1 s (answered f1 "u" (String c2 keys) w))
                         ++ [Print ("done" +:+ NL)]
                         ++ [Print ("  URL: " +:+ GitHub.g_html_url g +:+ NL)])
                        (sent f1 None text1 s (answered f1 "u" (String c2 keys) w)))).
    assert (Hfirst : body f1 w = (Ok Next, w1)).
    { unfold body.
      rewrite (sync_file_asks _ _ _ _ _ _ (ex_intro _ text1 Hdisk1) Hnone1 Hsync1).
      unfold bind at 1.
      rewrite (interactive_sync_upload _ _ _ _ _ Hkeys Hu).
      unfold bind at 1.
      rewrite (sync_to_gist_sends f1 None text1
                                  (answered f1 "u" (String c2 keys) w) Hdisk1).
      change (sync_request f1 None text1) with create.
      change (github (answered f1 "u" (String c2 keys) w)) with (github w).
      rewrite Hex.
      rewrite (settle_success _ _ g _ Hstatus Hbody).
      reflexivity. }
    assert (Hsecond : for_each body ([f1] ++ f2 :: [f3]) w
                      = (Ok Break,
                         with_stdin keys
                           (with_trace (trace w1 ++ prompt f2
                                                 ++ [line "q"; line (NL +:+ "Quitting...")])
                                       w1))).
    { apply for_each_quit with (ch := c2).
      - cbn [for_each]. unfold bind. fold body. now rewrite Hfirst.
      - exact Hfile2.
      - exact Hnone2.
      - exact Hsync2.
      - reflexivity.
      - exact Hq. }
    cbn [app] in Hsecond. unfold bind at 1. rewrite Hsecond.
    eexists. split; [reflexivity|].
    split; [|split; reflexivity].
    cbn. rewrite <- !app_assoc. reflexivity.
Qed.

End Properties.

(** ** Invariants of a run *)

Section Keeps.

Variable I : world -> Prop.

Lemma keeps_ret {A} (a : A) : keeps I (ret a).
Proof. now intros w H. Qed.

Lemma keeps_raise {A} (e : exn) : keeps I (raise (A := A) e).
Proof. now intros w H. Qed.

Lemma keeps_bind {A B} (m : M A) (k : A -> M B) :
  keeps I m -> (forall a : A, keeps I (k a)) -> keeps I (bind m k).
Proof.
  intros Hm Hk w H. unfold bind. specialize (Hm w H).
  destruct (m w) as [[a|e|] w']; cbn in *; [now apply Hk|assumption..].
Qed.

Lemma keeps_try {A} (m : M A) (handler : exn -> option (M A)) :
  keeps I m ->
  (forall (e : exn) (h : M A), handler e = Some h -> keeps I h) ->
  keeps I (try m handler).
Proof.
  intros Hm Hh w H. unfold try. specialize (Hm w H).
  destruct (m w) as [[a|e|] w']; cbn in *; try assumption.
  destruct (handler e) as [h|] eqn:E; [now apply (Hh e h E)|assumption].
Qed.

Lemma keeps_pure {A} (f : world -> result A) : keeps I (fun w => (f w, w)).
Proof. now intros w H. Qed.

End Keeps.

Section Invariant.

Variable path_match : Path -> string -> bool.
Variable unified_diff :
  list string -> list string -> string -> string -> list string.

(** The property, and the file names whose gists and rows may change
    without harm to it. *)
Variable I : world -> Prop.
Variable ok : string -> Prop.

Hypothesis I_trace : forall (t : list event) (w : world), I w -> I (with_trace t w).
Hypothesis I_stdin : forall (keys : string) (w : world), I w -> I (with_stdin keys w).
Hypothesis I_gistignore :
  forall (text : string) (w : world), I w -> I (with_gistignore text w).
Hypothesis I_saved :
  forall (q : Path) (i u : string) (w : world),
    ok (Path_name q) -> I w -> I (saved q i u w).
Hypothesis I_exchange :
  forall (r : GitHub.request) (w : world),
    writes_only ok r -> I w ->
    I (with_github (snd (GitHub.exchange r (github w))) w).

Lemma keeps_emit (e : event) : keeps I (emit e).
Proof. intros w H. now apply I_trace. Qed.

Lemma keeps_print (text : string) : keeps I (print text).
Proof. apply keeps_emit. Qed.

Lemma keeps_print_end (text : string) : keeps I (print_end text).
Proof. apply keeps_emit. Qed.

Lemma keeps_requests_send (r : GitHub.request) :
  writes_only ok r -> keeps I (requests_send r).
Proof.
  intros Hr. unfold requests_send. apply keeps_bind; [apply keeps_emit|].
  intros _ w H. pose proof (I_exchange r w Hr H) as H'.
  destruct (GitHub.exchange r (github w)) as [[msg|response] s]; exact H'.
Qed.

Lemma keeps_raise_for_status (r : GitHub.response) : keeps I (raise_for_status r).
Proof.
  unfold raise_for_status.
  destruct (_ && _); [apply keeps_raise|].
  destruct (_ && _); [apply keeps_raise|apply keeps_ret].
Qed.

Lemma keeps_json_gist (r : GitHub.response) : keeps I (json_gist r).
Proof.
  unfold json_gist.
  destruct (GitHub.body r) as [[gs|g]|];
    [apply keeps_raise|apply keeps_ret|apply keeps_raise].
Qed.

Lemma keeps_json_gists (r : GitHub.response) : keeps I (json_gists r).
Proof.
  unfold json_gists.
  destruct (GitHub.body r) as [[gs|g]|];
    [apply keeps_ret|apply keeps_raise|apply keeps_raise].
Qed.

Lemma keeps_save_gist_mapping (q : Path) (i u : string) :
  ok (Path_name q) -> keeps I (save_gist_mapping q i u).
Proof. intros Hq w H. now apply (I_saved q i u w). Qed.

Lemma keeps_read_text (q : Path) : keeps I (read_text q).
Proof. intros w H. unfold read_text. now destruct (disk w !! q). Qed.

Lemma keeps_sync_to_gist (q : Path) (gist_id : option string) (dry_run : bool) :
  ok (Path_name q) -> keeps I (sync_to_gist q gist_id dry_run).
Proof.
  intros Hq. unfold sync_to_gist.
  apply keeps_bind; [apply keeps_read_text|]. intros content.
  destruct dry_run; [apply keeps_print|].
  apply keeps_bind; [apply keeps_print_end|]. intros _.
  apply keeps_bind.
  { destruct (truthy_id gist_id); now apply keeps_requests_send. }
  intros response. apply keeps_try.
  - apply keeps_bind; [apply keeps_raise_for_status|]. intros _.
    apply keeps_bind; [apply keeps_json_gist|]. intros result.
    apply keeps_bind; [apply keeps_print|]. intros _.
    apply keeps_bind; [apply keeps_print|]. intros _.
    now apply keeps_save_gist_mapping.
  - intros e h. destruct e; try discriminate. intros [= <-].
    apply keeps_bind; [apply keeps_print|]. intros _.
    destruct (status =? 403); [|apply keeps_raise].
    repeat (apply keeps_bind; [apply keeps_print|]; intros _).
    apply keeps_raise.
Qed.

Lemma keeps_add_to_gistignore (pattern : string) :
  keeps I (add_to_gistignore pattern).
Proof. intros w H. now apply I_gistignore. Qed.

Lemma keeps_prompt_loop (q : Path) (dry_run : bool) (keys : string) :
  ok (Path_name q) -> keeps I (prompt_loop q dry_run keys).
Proof.
  intros Hq. induction keys as [|ch keys IH]; cbn [prompt_loop].
  - apply keeps_bind; [apply keeps_print|]. intros _.
    apply keeps_bind; [apply keeps_print_end|]. intros _.
    now intros w H.
  - apply keeps_bind; [apply keeps_print|]. intros _.
    apply keeps_bind; [apply keeps_print_end|]. intros _.
    apply keeps_bind; [intros w H; now apply I_stdin|]. intros _.
    apply keeps_bind; [apply keeps_print|]. intros _.
    destruct (bool_decide _); [apply keeps_ret|].
    destruct (bool_decide _).
    { apply keeps_bind; [apply keeps_print|]. intros _. apply keeps_ret. }
    destruct (bool_decide _).
    { apply keeps_bind; [apply keeps_add_to_gistignore|]. intros _.
      apply keeps_bind; [apply keeps_print|]. intros _. apply keeps_ret. }
    destruct (bool_decide _); [|exact IH].
    apply keeps_bind; [now apply keeps_sync_to_gist|]. intros _. apply keeps_ret.
Qed.

Lemma keeps_interactive_sync (q : Path) (dry_run : bool) :
  ok (Path_name q) -> keeps I (interactive_sync q dry_run).
Proof.
  intros Hq w H. unfold interactive_sync. now apply keeps_prompt_loop.
Qed.

Lemma keeps_show_diff (q : Path) (i : string) :
  ok (Path_name q) -> keeps I (show_diff unified_diff q i).
Proof.
  intros Hq. unfold show_diff.
  apply keeps_bind; [apply keeps_read_text|]. intros text.
  apply keeps_bind.
  - apply keeps_try.
    + apply keeps_bind; [now apply keeps_requests_send|]. intros response.
      apply keeps_bind; [apply keeps_raise_for_status|]. intros _.
      apply keeps_bind; [apply keeps_json_gist|]. intros gist.
      apply keeps_bind; [now apply keeps_save_gist_mapping|]. intros _.
      apply keeps_ret.
    + intros e h. destruct (is_RequestException e); [|discriminate].
      intros [= <-].
      apply keeps_bind; [apply keeps_print|]. intros _. apply keeps_ret.
  - intros [remote_content|]; [|apply keeps_ret].
    destruct (bool_decide _).
    { apply keeps_bind; [apply keeps_print|]. intros _. apply keeps_ret. }
    destruct (Py.truthy _); [|apply keeps_ret].
    apply keeps_bind; [apply keeps_print|]. intros _.
    apply keeps_bind; [apply keeps_print|]. intros _. apply keeps_ret.
Qed.

Lemma keeps_sync_file (existing_gists : gmap string string)
      (excluded : gset string)
      (create_new dry_run interactive show_diffs : bool) (q : Path) :
  ok (Path_name q) ->
  keeps I (sync_file path_match unified_diff existing_gists excluded
                     create_new dry_run interactive show_diffs q).
Proof.
  intros Hq. unfold sync_file.
  apply keeps_bind; [apply keeps_pure|]. intros isf.
  destruct (negb isf).
  { apply keeps_bind; [apply keeps_print|]. intros _. apply keeps_ret. }
  destruct (truthy_id _) as [i|].
  - destruct show_diffs.
    + apply keeps_bind; [now apply keeps_show_diff|]. intros has_changes.
      destruct (negb has_changes); [apply keeps_ret|].
      apply keeps_bind; [now apply keeps_sync_to_gist|]. intros _. apply keeps_ret.
    + apply keeps_bind; [now apply keeps_sync_to_gist|]. intros _. apply keeps_ret.
  - destruct create_new.
    + destruct (should_sync_file _ _ _); [|apply keeps_ret].
      destruct interactive.
      * apply keeps_bind; [now apply keeps_interactive_sync|]. intros go_on.
        destruct (negb go_on); [|apply keeps_ret].
        apply keeps_bind; [apply keeps_print|]. intros _. apply keeps_ret.
      * apply keeps_bind; [now apply keeps_sync_to_gist|]. intros _. apply keeps_ret.
    + apply keeps_bind; [apply keeps_print|]. intros _. apply keeps_ret.
Qed.

Lemma keeps_for_each (body : Path -> M signal) (files : list Path) :
  (forall q : Path, q ∈ files -> keeps I (body q)) ->
  keeps I (for_each body files).
Proof.
  induction files as [|q files IH]; intros Hbody; cbn [for_each].
  - apply keeps_ret.
  - apply keeps_bind; [apply Hbody; left|].
    intros [|]; [|apply keeps_ret].
    apply IH. intros q' Hq'. apply Hbody. now right.
Qed.

Lemma keeps_get_existing_gists : keeps I get_existing_gists.
Proof.
  unfold get_existing_gists.
  apply keeps_bind; [now apply keeps_requests_send|]. intros response.
  apply keeps_bind; [apply keeps_raise_for_status|]. intros _.
  apply keeps_bind; [apply keeps_json_gists|]. intros gists.
  apply keeps_ret.
Qed.

Lemma keeps_merged_gists (tracked : gmap string string) :
  keeps I (merged_gists tracked).
Proof.
  unfold merged_gists. apply keeps_try.
  - apply keeps_bind; [apply keeps_get_existing_gists|]. intros api.
    apply keeps_ret.
  - intros e h. destruct (is_RequestException e); [|discriminate].
    intros [= <-].
    apply keeps_bind; [apply keeps_print|]. intros _. apply keeps_ret.
Qed.

Lemma keeps_load_gist_mappings : keeps I load_gist_mappings.
Proof.
  intros w H. unfold load_gist_mappings.
  destruct (gists_toml w) as [data|]; [|exact H].
  revert w H. apply keeps_bind; [|intros _; apply keeps_ret].
  destruct (bool_decide _); [apply keeps_ret|apply keeps_print].
Qed.

End Invariant.

(** ** The service *)

Lemma find_Some (i : string) (gs : list GitHub.gist) (g : GitHub.gist) :
  GitHub.find i gs = Some g -> In g gs /\ GitHub.g_id g = i.
Proof.
  unfold GitHub.find. intros H. apply find_some in H as [Hin Hid].
  split; [exact Hin|]. now apply bool_decide_eq_true_1 in Hid.
Qed.

Lemma find_replace_same (i : string) (g g' : GitHub.gist) (gs : list GitHub.gist) :
  GitHub.find i gs = Some g ->
  GitHub.g_id g' = i ->
  GitHub.find i (GitHub.replace i g' gs) = Some g'.
Proof.
  intros Hfind Hid. induction gs as [|g0 gs IH]; [discriminate|].
  cbn in *. destruct (bool_decide (GitHub.g_id g0 = i)) eqn:E; cbn.
  - now rewrite (bool_decide_eq_true_2 _ Hid).
  - rewrite E. now apply IH.
Qed.

Lemma find_replace_other (i j : string) (g' : GitHub.gist) (gs : list GitHub.gist) :
  j <> i ->
  GitHub.g_id g' = i ->
  GitHub.find j (GitHub.replace i g' gs) = GitHub.find j gs.
Proof.
  intros Hne Hid. induction gs as [|g0 gs IH]; [reflexivity|].
  cbn. destruct (bool_decide (GitHub.g_id g0 = i)) eqn:E; cbn.
  - apply bool_decide_eq_true_1 in E.
    rewrite !bool_decide_eq_false_2 by congruence. reflexivity.
  - destruct (bool_decide (GitHub.g_id g0 = j)); [reflexivity|exact IH].
Qed.

Lemma replace_ids (i : string) (g' : GitHub.gist) (gs : list GitHub.gist) :
  GitHub.g_id g' = i ->
  map GitHub.g_id (GitHub.replace i g' gs) = map GitHub.g_id gs.
Proof.
  intros Hid. induction gs as [|g0 gs IH]; [reflexivity|].
  cbn. destruct (bool_decide (GitHub.g_id g0 = i)) eqn:E; cbn.
  - apply bool_decide_eq_true_1 in E. congruence.
  - now rewrite IH.
Qed.

Lemma patched_id (d : GitHub.gist_data) (g : GitHub.gist) :
  GitHub.g_id (GitHub.patched d g) = GitHub.g_id g.
Proof.
  unfold GitHub.patched, GitHub.set_file.
  now destruct (bool_decide _).
Qed.

Lemma find_set_in_same (name content : string) (fs : list (string * string)) :
  List.find (fun f => bool_decide (fst f = name)) (GitHub.set_in name content fs)
  = Some (name, content).
Proof.
  induction fs as [|f fs IH]; cbn.
  - now rewrite bool_decide_eq_true_2 by reflexivity.
  - destruct (bool_decide (fst f = name)) eqn:E; cbn.
    + now rewrite bool_decide_eq_true_2 by reflexivity.
    + now rewrite E.
Qed.

Lemma find_set_in_other (n name content : string) (fs : list (string * string)) :
  n <> name ->
  List.find (fun f => bool_decide (fst f = n)) (GitHub.set_in name content fs)
  = List.find (fun f => bool_decide (fst f = n)) fs.
Proof.
  intros Hne. induction fs as [|f fs IH]; cbn.
  - now rewrite bool_decide_eq_false_2 by congruence.
  - destruct (bool_decide (fst f = name)) eqn:E; cbn.
    + apply bool_decide_eq_true_1 in E.
      now rewrite !bool_decide_eq_false_2 by congruence.
    + destruct (bool_decide (fst f = n)); [reflexivity|exact IH].
Qed.

(** After an update the gist holds the text sent, under the name sent. *)
Lemma file_content_patched_same (d : GitHub.gist_data) (g : GitHub.gist) :
  GitHub.file_content (GitHub.d_file_name d) (GitHub.patched d g)
  = Some (GitHub.d_content d).
Proof.
  unfold GitHub.file_content, GitHub.patched, GitHub.set_file, GitHub.g_files.
  cbn. destruct (bool_decide (fst (GitHub.g_first g) = GitHub.d_file_name d)) eqn:E; cbn.
  - now rewrite bool_decide_eq_true_2 by reflexivity.
  - rewrite E. now rewrite find_set_in_same.
Qed.

(** An update leaves the files with other names as they were. *)
Lemma file_content_patched_other (n : string) (d : GitHub.gist_data) (g : GitHub.gist) :
  n <> GitHub.d_file_name d ->
  GitHub.file_content n (GitHub.patched d g) = GitHub.file_content n g.
Proof.
  intros Hne.
  unfold GitHub.file_content, GitHub.patched, GitHub.set_file, GitHub.g_files.
  cbn. destruct (bool_decide (fst (GitHub.g_first g) = GitHub.d_file_name d)) eqn:E; cbn.
  - apply bool_decide_eq_true_1 in E.
    now rewrite !bool_decide_eq_false_2 by congruence.
  - destruct (bool_decide (fst (GitHub.g_first g) = n)); [reflexivity|].
    now rewrite find_set_in_other.
Qed.

(** What one exchange does to the gists stored: nothing, or the update of
    one gist, or the creation of one. *)
Lemma exchange_gists (r : GitHub.request) (s : GitHub.state) :
  let s' := snd (GitHub.exchange r s) in
  (GitHub.gists s' = GitHub.gists s /\ GitHub.next_id s' = GitHub.next_id s)
  \/ (exists (u i : string) (d : GitHub.gist_data) (g : GitHub.gist),
         r = GitHub.PATCH u d
         /\ GitHub.find i (GitHub.gists s) = Some g
         /\ GitHub.gists s' = GitHub.replace i (GitHub.patched d g) (GitHub.gists s)
         /\ GitHub.next_id s' = GitHub.next_id s)
  \/ (exists (u : string) (d : GitHub.gist_data),
         r = GitHub.POST u d
         /\ GitHub.gists s' = GitHub.created d (GitHub.next_id s) :: GitHub.gists s
         /\ GitHub.next_id s' = N.succ (GitHub.next_id s)).
Proof.
  assert (Hserve : forall s0 : GitHub.state,
             let s' := snd (GitHub.serve r s0) in
             (GitHub.gists s' = GitHub.gists s0 /\ GitHub.next_id s' = GitHub.next_id s0)
             \/ (exists (u i : string) (d : GitHub.gist_data) (g : GitHub.gist),
                    r = GitHub.PATCH u d
                    /\ GitHub.find i (GitHub.gists s0) = Some g
                    /\ GitHub.gists s' = GitHub.replace i (GitHub.patched d g) (GitHub.gists s0)
                    /\ GitHub.next_id s' = GitHub.next_id s0)
             \/ (exists (u : string) (d : GitHub.gist_data),
                    r = GitHub.POST u d
                    /\ GitHub.gists s' = GitHub.created d (GitHub.next_id s0) :: GitHub.gists s0
                    /\ GitHub.next_id s' = N.succ (GitHub.next_id s0))).
  { intros s0. destruct r as [u|u d|u d]; cbn [GitHub.serve].
    - left. destruct (Py.after_prefix GitHub.API u) as [[|c i]|]; [now cbn|..|now cbn].
      destruct c as [[] [] [] [] [] [] [] []]; try now cbn.
      now destruct (GitHub.find i (GitHub.gists s0)).
    - destruct (Py.after_prefix GitHub.API u) as [[|c i]|]; [now left|..|now left].
      destruct c as [[] [] [] [] [] [] [] []]; try now left.
      destruct (GitHub.find i (GitHub.gists s0)) as [g|] eqn:Hfind; [|now left].
      right. left. exists u, i, d, g. now cbn.
    - destruct (Py.after_prefix GitHub.API u) as [[|c i]|]; [|now left..].
      right. right. exists u, d. now cbn. }
  unfold GitHub.exchange.
  destruct (GitHub.faults s) as [|[[msg|code why]|] fs].
  - specialize (Hserve s). destruct (GitHub.serve r s) as [resp s1]. exact Hserve.
  - now left.
  - now left.
  - specialize (Hserve (GitHub.with_faults fs s)).
    destruct (GitHub.serve r (GitHub.with_faults fs s)) as [resp s1]. exact Hserve.
Qed.

(** ** Two runs in a row *)

Lemma fresh_id_inj (n m : N) : GitHub.fresh_id n = GitHub.fresh_id m -> n = m.
Proof.
  unfold GitHub.fresh_id. rewrite !append_cons, !append_empty_l.
  intros [= H]. now apply pretty_N_inj.
Qed.

Lemma unused_ids_exchange (r : GitHub.request) (s : GitHub.state) :
  unused_ids s -> unused_ids (snd (GitHub.exchange r s)).
Proof.
  intros Hs g n Hin Hn.
  destruct (exchange_gists r s)
    as [[Hg Hnext] | [(u & i & d & g0 & _ & Hfind & Hg & Hnext) | (u & d & _ & Hg & Hnext)]];
    cbv zeta in *; rewrite Hg in Hin; rewrite Hnext in Hn.
  - now apply Hs.
  - apply find_Some in Hfind as [_ Hid].
    assert (Hids : In (GitHub.g_id g) (map GitHub.g_id (GitHub.gists s))).
    { rewrite <- (replace_ids i (GitHub.patched d g0)) by now rewrite patched_id.
      now apply in_map. }
    apply in_map_iff in Hids as (g1 & Hid1 & Hin1).
    rewrite <- Hid1. now apply Hs.
  - destruct Hin as [<- | Hin].
    + cbn. intros H. apply fresh_id_inj in H. lia.
    + apply Hs; [exact Hin|lia].
Qed.

Lemma saved_other_row (q : Path) (i u other : string) (w : world) :
  other <> Path_name q ->
  tracked_rows (saved q i u w) !! other = tracked_rows w !! other.
Proof.
  intros Hne. unfold saved, save_gist_mapping, tracked_rows.
  cbn [snd gists_toml with_gists_toml mbind option_bind doc_files].
  change (default ∅ (Some ?m)) with m.
  rewrite lookup_insert_ne by congruence.
  destruct (gists_toml w) as [d|]; reflexivity.
Qed.

(** Requests that do not write the name of [p] leave [p] in step. *)
Lemma in_sync_exchange (p : Path) (j : string) (r : GitHub.request) (w : world) :
  writes_only (fun name => name <> Path_name p) r ->
  unused_ids (github w) ->
  in_sync p j w ->
  in_sync p j (with_github (snd (GitHub.exchange r (github w))) w).
Proof.
  intros Hr Hfresh (row & g & text & Hrow & Hne & Hfind & Hcontent & Hdisk).
  destruct (exchange_gists r (github w))
    as [[Hg _] | [(u & i & d & g0 & -> & Hfind0 & Hg & _) | (u & d & -> & Hg & _)]];
    cbv zeta in *.
  - exists row, g, text. cbn [github with_github]. rewrite Hg.
    split; [exact Hrow|]. split; [exact Hne|]. split; [exact Hfind|].
    split; [exact Hcontent|exact Hdisk].
  - destruct (decide (j = i)) as [Hi|Hi].
    + subst i. rewrite Hfind in Hfind0. injection Hfind0 as <-.
      exists row, (GitHub.patched d g), text. cbn [github with_github]. rewrite Hg.
      split; [exact Hrow|]. split; [exact Hne|]. split; [|split; [|exact Hdisk]].
      * apply (find_replace_same _ g); [exact Hfind|].
        rewrite patched_id. now apply find_Some in Hfind.
      * rewrite file_content_patched_other; [exact Hcontent|].
        cbn in Hr. congruence.
    + exists row, g, text. cbn [github with_github]. rewrite Hg.
      split; [exact Hrow|]. split; [exact Hne|]. split; [|split; [exact Hcontent|exact Hdisk]].
      rewrite find_replace_other; [exact Hfind|exact Hi|].
      rewrite patched_id. now apply find_Some in Hfind0.
  - exists row, g, text. cbn [github with_github]. rewrite Hg.
    split; [exact Hrow|]. split; [exact Hne|]. split; [|split; [exact Hcontent|exact Hdisk]].
    cbn. rewrite bool_decide_eq_false_2; [exact Hfind|].
    apply find_Some in Hfind as [Hin Hid]. rewrite <- Hid.
    intros Heq. apply (Hfresh g (GitHub.next_id (github w)) Hin); [lia|].
    now rewrite <- Heq.
Qed.

Lemma gist_url_route (i : string) :
  Py.after_prefix GitHub.API (gist_url i) = Some (String "/" i).
Proof. apply (after_prefix_app GitHub.API ("/" +:+ i)). Qed.

Lemma serve_get (i : string) (s : GitHub.state) :
  GitHub.serve (GitHub.GET (gist_url i)) s
  = match GitHub.find i (GitHub.gists s) with
    | Some g => (GitHub.answer (gist_url i) 200 "OK" (Some (GitHub.JGist g)), s)
    | None => (GitHub.not_found (gist_url i), s)
    end.
Proof. cbn [GitHub.serve]. now rewrite gist_url_route. Qed.

Lemma serve_patch (i : string) (d : GitHub.gist_data) (s : GitHub.state) :
  GitHub.serve (GitHub.PATCH (gist_url i) d) s
  = match GitHub.find i (GitHub.gists s) with
    | Some g =>
        (GitHub.answer (gist_url i) 200 "OK" (Some (GitHub.JGist (GitHub.patched d g))),
         GitHub.with_gists (GitHub.replace i (GitHub.patched d g) (GitHub.gists s)) s)
    | None => (GitHub.not_found (gist_url i), s)
    end.
Proof. cbn [GitHub.serve]. now rewrite gist_url_route. Qed.

(** A request and its answer, when the answer carries one gist. *)
Lemma exchange_answer (r : GitHub.request) (s s' : GitHub.state)
      (response : GitHub.response) (g : GitHub.gist) :
  GitHub.exchange r s = (inr response, s') ->
  GitHub.body response = Some (GitHub.JGist g) ->
  exists s0 : GitHub.state,
    GitHub.gists s0 = GitHub.gists s
    /\ GitHub.next_id s0 = GitHub.next_id s
    /\ GitHub.serve r s0 = (response, s').
Proof.
  unfold GitHub.exchange. intros H Hbody.
  destruct (GitHub.faults s) as [|[[msg|code why]|] fs].
  - exists s. destruct (GitHub.serve r s) as [resp s1].
    injection H as <- <-. now repeat split.
  - discriminate.
  - injection H as <- <-. discriminate.
  - exists (GitHub.with_faults fs s).
    destruct (GitHub.serve r (GitHub.with_faults fs s)) as [resp s1].
    injection H as <- <-. now repeat split.
Qed.

(** A gist fetched by id is never answered with a list. *)
Lemma exchange_get_no_list (i : string) (s s' : GitHub.state)
      (response : GitHub.response) (gs : list GitHub.gist) :
  GitHub.exchange (GitHub.GET (gist_url i)) s = (inr response, s') ->
  GitHub.body response <> Some (GitHub.JList gs).
Proof.
  unfold GitHub.exchange. intros H.
  destruct (GitHub.faults s) as [|[[msg|code why]|] fs];
    rewrite ?serve_get in H; cbn [GitHub.with_faults GitHub.gists] in H.
  - destruct (GitHub.find i (GitHub.gists s)); injection H as <- <-; discriminate.
  - discriminate.
  - injection H as <- <-. discriminate.
  - destruct (GitHub.find i (GitHub.gists s)); injection H as <- <-; discriminate.
Qed.

(** [settle] ends well only for a response that carries the gist. *)
Lemma settle_ok (file_path : Path) (response : GitHub.response) (w w' : world) :
  settle file_path response w = (Ok tt, w') ->
  exists g : GitHub.gist,
    GitHub.body response = Some (GitHub.JGist g)
    /\ w' = saved file_path (GitHub.g_id g) (GitHub.g_html_url g)
                  (with_trace (trace w ++ [Print ("done" +:+ NL)]
                                       ++ [Print ("  URL: " +:+ GitHub.g_html_url g +:+ NL)]) w).
Proof.
  intros H.
  destruct (is_error_status (GitHub.status_code response)) eqn:E.
  - destruct (settle_error file_path response w E) as [msg Hs].
    rewrite Hs in H. destruct (GitHub.status_code response =? 403); discriminate.
  - destruct (GitHub.body response) as [[gs|g]|] eqn:Hbody.
    + unfold settle, try in H. unfold bind at 1 in H.
      rewrite (raise_for_status_ok _ _ E) in H. unfold bind at 1, json_gist in H.
      rewrite Hbody in H. discriminate.
    + rewrite (settle_success _ _ g _ E Hbody) in H.
      rewrite save_gist_mapping_saved in H. injection H as <-.
      now exists g.
    + unfold settle, try in H. unfold bind at 1 in H.
      rewrite (raise_for_status_ok _ _ E) in H. unfold bind at 1, json_gist in H.
      rewrite Hbody in H. discriminate.
Qed.

(** A call of [sync_to_gist] that ends well leaves the file in step with
    the gist it wrote. *)
Lemma sync_to_gist_in_sync (p : Path) (gist_id : option string) (w w' : world) :
  sync_to_gist p gist_id false w = (Ok tt, w') ->
  exists i : string, in_sync p i w'.
Proof.
  intros H.
  destruct (disk w !! p) as [text|] eqn:Hdisk.
  2: { unfold sync_to_gist, bind, read_text in H. rewrite Hdisk in H. discriminate. }
  rewrite (sync_to_gist_sends p gist_id text w Hdisk) in H.
  destruct (GitHub.exchange _ _) as [[msg|response] s] eqn:Hex; [discriminate|].
  apply settle_ok in H as (g & Hbody & ->).
  destruct (exchange_answer _ _ _ _ _ Hex Hbody) as (s0 & Hgists & Hnext & Hserve).
  exists (GitHub.g_id g), (GitHub.g_html_url g), g, text.
  split; [apply saved_row|].
  unfold sync_request in Hserve.
  destruct (truthy_id gist_id) as [i|] eqn:Hid.
  - fold (gist_url i) in Hserve. rewrite serve_patch in Hserve.
    destruct (GitHub.find i (GitHub.gists s0)) as [g0|] eqn:Hfind.
    2: { injection Hserve as <- <-. discriminate. }
    injection Hserve as <- <-. cbn in Hbody. injection Hbody as <-.
    apply truthy_id_inv in Hid as [_ Hne].
    pose proof (find_Some _ _ _ Hfind) as [_ Hg0].
    rewrite patched_id, Hg0.
    split; [exact Hne|]. split; [|split; [|exact Hdisk]].
    + cbn. apply (find_replace_same i g0); [exact Hfind|].
      now rewrite patched_id.
    + apply (file_content_patched_same
               {| GitHub.d_description := "Auto-synced gist for " +:+ Path_name p;
                  GitHub.d_public := false;
                  GitHub.d_file_name := Path_name p;
                  GitHub.d_content := text |}).
  - cbn in Hserve. injection Hserve as <- <-. cbn in Hbody. injection Hbody as <-.
    split; [discriminate|]. split; [|split; [|exact Hdisk]].
    + cbn. now rewrite bool_decide_eq_true_2.
    + cbn. now rewrite bool_decide_eq_true_2.
Qed.

Lemma changes_nothing_intro (p : Path) (w w' : world) (more : list event) (e : event) :
  trace w' = trace w ++ more ->
  In e more ->
  is_noop_event p (GitHub.gists (github w)) e = true ->
  changes_nothing p w w' = true.
Proof.
  intros Htrace Hin He. unfold changes_nothing.
  rewrite Htrace, drop_app_length. apply existsb_exists. now exists e.
Qed.

Section Runs.

Variable path_match : Path -> string -> bool.
Variable unified_diff :
  list string -> list string -> string -> string -> list string.

Lemma unused_ids_kept_by_sync_file (existing_gists : gmap string string)
      (excluded : gset string)
      (create_new dry_run interactive show_diffs : bool) (q : Path) :
  keeps (fun w => unused_ids (github w))
        (sync_file path_match unified_diff existing_gists excluded
                   create_new dry_run interactive show_diffs q).
Proof.
  apply (keeps_sync_file path_match unified_diff
                         (fun w => unused_ids (github w)) (fun _ => True));
    try (intros; assumption); [|exact Logic.I].
  intros r w _ H. now apply unused_ids_exchange.
Qed.

Lemma stays_in_sync_exchange (p : Path) (j : string) (r : GitHub.request) (w : world) :
  writes_only (fun name => name <> Path_name p) r ->
  stays_in_sync p j w ->
  stays_in_sync p j (with_github (snd (GitHub.exchange r (github w))) w).
Proof.
  intros Hr [Hfresh Hsync]. split.
  - now apply unused_ids_exchange.
  - now apply in_sync_exchange.
Qed.

Lemma stays_in_sync_saved (p q : Path) (j i u : string) (w : world) :
  Path_name q <> Path_name p ->
  stays_in_sync p j w -> stays_in_sync p j (saved q i u w).
Proof.
  intros Hq [Hfresh (row & g & text & Hrow & Hne & Hfind & Hcontent & Hdisk)].
  split; [exact Hfresh|].
  exists row, g, text.
  split; [rewrite saved_other_row by congruence; exact Hrow|].
  split; [exact Hne|]. split; [exact Hfind|]. split; [exact Hcontent|exact Hdisk].
Qed.

(** While the loop deals with a file of another name, [p] stays in step. *)
Lemma stays_in_sync_kept_by_sync_file (p : Path) (j : string)
      (existing_gists : gmap string string) (excluded : gset string)
      (create_new dry_run interactive show_diffs : bool) (q : Path) :
  Path_name q <> Path_name p ->
  keeps (stays_in_sync p j)
        (sync_file path_match unified_diff existing_gists excluded
                   create_new dry_run interactive show_diffs q).
Proof.
  apply (keeps_sync_file path_match unified_diff
                         (stays_in_sync p j) (fun name => name <> Path_name p));
    try (intros; assumption).
  - intros q' i u w Hq' H. now apply stays_in_sync_saved.
  - intros r w Hr H. now apply stays_in_sync_exchange.
Qed.

Lemma stays_in_sync_kept_by_for_each (p : Path) (j : string)
      (existing_gists : gmap string string) (excluded : gset string)
      (create_new dry_run interactive show_diffs : bool) (files : list Path) :
  Forall (fun q => Path_name q <> Path_name p) files ->
  keeps (stays_in_sync p j)
        (for_each (sync_file path_match unified_diff existing_gists excluded
                             create_new dry_run interactive show_diffs) files).
Proof.
  intros Hfiles. apply keeps_for_each. intros q Hq.
  apply stays_in_sync_kept_by_sync_file.
  rewrite Forall_forall in Hfiles. now apply Hfiles.
Qed.

Lemma stays_in_sync_kept_by_merged_gists (p : Path) (j : string)
      (tracked : gmap string string) :
  keeps (stays_in_sync p j) (merged_gists tracked).
Proof.
  apply (keeps_merged_gists (stays_in_sync p j) (fun name => name <> Path_name p));
    try (intros; assumption).
  intros r w Hr H. now apply stays_in_sync_exchange.
Qed.

Lemma stays_in_sync_kept_by_load (p : Path) (j : string) :
  keeps (stays_in_sync p j) load_gist_mappings.
Proof. apply keeps_load_gist_mappings. intros; assumption. Qed.

(** [show_diff] on a gist whose answer has no body to decode: the error
    is printed and the answer is [True]. *)
Lemma show_diff_no_body (p : Path) (i text : string) (w : world)
      (response : GitHub.response) (s : GitHub.state) :
  disk w !! p = Some text ->
  GitHub.exchange (GitHub.GET (gist_url i)) (github w) = (inr response, s) ->
  is_error_status (GitHub.status_code response) = false ->
  GitHub.body response = None ->
  show_diff unified_diff p i w
  = (Ok true,
     with_github s
       (with_trace (trace w ++ [Http (GitHub.GET (gist_url i))]
                            ++ [line ("Error fetching gist content: " +:+ "Expecting value")])
                   w)).
Proof.
  intros Hdisk Hex Hstatus Hbody.
  unfold show_diff. unfold bind at 1. unfold read_text at 1. rewrite Hdisk.
  unfold bind at 1. unfold try.
  unfold bind at 1. unfold requests_get, requests_send.
  unfold bind at 1. unfold emit at 1. cbn [github with_trace].
  fold (gist_url i). rewrite Hex.
  unfold bind at 1. rewrite (raise_for_status_ok _ _ Hstatus).
  unfold bind at 1. unfold json_gist at 1. rewrite Hbody.
  cbn. rewrite <- app_assoc. reflexivity.
Qed.

(** [show_diff] either says that there are no changes and answers
    [False], or answers [True]; the files and the trace so far stay. *)
Lemma show_diff_outcome (p : Path) (i text : string) (w : world) :
  (forall (a b : list string) (fromfile tofile : string),
      a <> b -> Py.join (unified_diff a b fromfile tofile) <> "") ->
  disk w !! p = Some text ->
  exists (w1 : world) (more : list event),
    trace w1 = trace w ++ more
    /\ disk w1 = disk w
    /\ ((show_diff unified_diff p i w = (Ok false, w1)
         /\ In (line (p +:+ ": No changes")) more)
        \/ show_diff unified_diff p i w = (Ok true, w1)).
Proof.
  intros Hdiff Hdisk.
  destruct (GitHub.exchange (GitHub.GET (gist_url i)) (github w))
    as [[msg|response] s] eqn:Hex.
  { destruct (show_diff_failed unified_diff p i text w s Hdisk) as (e & _ & Hshow).
    - left. now exists msg.
    - eexists. eexists. split; [|split; [|right; exact Hshow]]; reflexivity. }
  destruct (is_error_status (GitHub.status_code response)) eqn:Hstatus.
  { destruct (show_diff_failed unified_diff p i text w s Hdisk) as (e & _ & Hshow).
    - right. now exists response.
    - eexists. eexists. split; [|split; [|right; exact Hshow]]; reflexivity. }
  destruct (GitHub.body response) as [[gs|g]|] eqn:Hbody.
  - exfalso. exact (exchange_get_no_list _ _ _ _ gs Hex Hbody).
  - pose proof (show_diff_fetched unified_diff _ _ _ _ _ _ _ Hdisk Hex Hstatus Hbody)
      as Hshow.
    cbv zeta in Hshow.
    destruct (bool_decide (Py.splitlines true text
                           = Py.splitlines true (snd (GitHub.g_first g)))) eqn:Hsame.
    + eexists. exists ([Http (GitHub.GET (gist_url i))] ++ [line (p +:+ ": No changes")]).
      split; [|split; [|left; split; [exact Hshow|]]].
      * cbn. now rewrite <- app_assoc.
      * reflexivity.
      * right. now left.
    + apply bool_decide_eq_false_1 in Hsame.
      assert (Htruthy :
                Py.truthy
                  (Py.join (unified_diff
                              (Py.splitlines true (snd (GitHub.g_first g)))
                              (Py.splitlines true text)
                              (p +:+ " (gist)") (p +:+ " (local)"))) = true).
      { specialize (Hdiff (Py.splitlines true (snd (GitHub.g_first g)))
                          (Py.splitlines true text)
                          (p +:+ " (gist)") (p +:+ " (local)")).
        destruct (Py.join _); [|reflexivity].
        exfalso. apply Hdiff; congruence. }
      rewrite Htruthy in Hshow.
      eexists. eexists. split; [|split; [|right; exact Hshow]].
      * cbn. rewrite <- !app_assoc. reflexivity.
      * reflexivity.
  - rewrite (show_diff_no_body _ _ _ _ _ _ Hdisk Hex Hstatus Hbody).
    eexists. eexists. split; [|split; [|right; reflexivity]]; reflexivity.
Qed.

(** The update of a file that is in step with its gist changes nothing. *)
Lemma update_of_synced_is_noop (p : Path) (i text : string) (w : world) :
  in_sync p i w ->
  disk w !! p = Some text ->
  is_noop_event p (GitHub.gists (github w)) (Http (sync_request p (Some i) text)) = true.
Proof.
  intros (url & g & text' & _ & Hne & Hfind & Hcontent & Hdisk') Hdisk.
  rewrite Hdisk in Hdisk'. injection Hdisk' as <-.
  unfold sync_request. rewrite (truthy_id_Some _ Hne).
  cbn [is_noop_event].
  change (GIST_API_URL +:+ "/" +:+ i) with ((GIST_API_URL +:+ "/") +:+ i).
  rewrite after_prefix_app. cbn [GitHub.d_file_name GitHub.d_content].
  rewrite Hfind.
  change (bool_decide (GitHub.file_content (Path_name p) g = Some text) = true).
  rewrite Hcontent. now apply bool_decide_eq_true_2.
Qed.

(** The loop body on a file in step with the gist that the merged map
    names: no changes are reported, or the update sent changes nothing. *)
Lemma synced_step_changes_nothing (existing_gists : gmap string string)
      (excluded : gset string) (create_new interactive show_diffs : bool)
      (p : Path) (i : string) (w : world) :
  (forall (a b : list string) (fromfile tofile : string),
      a <> b -> Py.join (unified_diff a b fromfile tofile) <> "") ->
  in_sync p i w ->
  existing_gists !! Path_name p = Some i ->
  changes_nothing
    p w (snd (sync_file path_match unified_diff existing_gists excluded
                        create_new false interactive show_diffs p w)) = true.
Proof.
  intros Hdiff Hsync Hid.
  pose proof Hsync as (url & g & text & _ & Hne & _ & _ & Hdisk).
  rewrite (sync_file_known _ _ _ _ _ _ _ _ _ i)
    by (rewrite ?Hid, ?truthy_id_Some; eauto).
  destruct show_diffs.
  - destruct (show_diff_outcome p i text w Hdiff Hdisk)
      as (w1 & more & Htrace & Hdisk1 & [[Hshow Hin] | Hshow]);
      unfold bind at 1; rewrite Hshow; cbn [negb].
    + apply (changes_nothing_intro p w w1 more (line (p +:+ ": No changes")));
        [exact Htrace|exact Hin|].
      cbn. now rewrite bool_decide_eq_true_2.
    + rewrite snd_bind_ret.
      assert (Hdisk' : disk w1 !! p = Some text) by now rewrite Hdisk1.
      destruct (sync_to_gist_request_sent p (Some i) text w1 Hdisk') as [more' Hsent].
      apply (changes_nothing_intro
               p w _ (more ++ [sync_banner p (Some i)]
                           ++ [Http (sync_request p (Some i) text)] ++ more')
               (Http (sync_request p (Some i) text))).
      * rewrite Hsent, Htrace. now rewrite <- !app_assoc.
      * apply in_or_app. right. right. now left.
      * now apply update_of_synced_is_noop.
  - rewrite snd_bind_ret.
    destruct (sync_to_gist_request_sent p (Some i) text w Hdisk) as [more Hsent].
    apply (changes_nothing_intro
             p w _ ([sync_banner p (Some i)]
                      ++ [Http (sync_request p (Some i) text)] ++ more)
             (Http (sync_request p (Some i) text))).
    + exact Hsent.
    + right. now left.
    + now apply update_of_synced_is_noop.
Qed.

Lemma unused_ids_kept_by_for_each (existing_gists : gmap string string)
      (excluded : gset string)
      (create_new dry_run interactive show_diffs : bool) (files : list Path) :
  keeps (fun w => unused_ids (github w))
        (for_each (sync_file path_match unified_diff existing_gists excluded
                             create_new dry_run interactive show_diffs) files).
Proof.
  apply keeps_for_each. intros q _. apply unused_ids_kept_by_sync_file.
Qed.

Lemma unused_ids_kept_by_merged_gists (tracked : gmap string string) :
  keeps (fun w => unused_ids (github w)) (merged_gists tracked).
Proof.
  apply (keeps_merged_gists (fun w => unused_ids (github w)) (fun _ => True));
    try (intros; assumption).
  intros r w _ H. now apply unused_ids_exchange.
Qed.

Lemma unused_ids_kept_by_load :
  keeps (fun w => unused_ids (github w)) load_gist_mappings.
Proof. apply keeps_load_gist_mappings. intros; assumption. Qed.

(** What [load_gist_mappings] returns: the ids of the rows of the mapping
    file. *)
Lemma load_gist_mappings_lookup (tracked : gmap string string) (w wl : world)
      (name : string) :
  load_gist_mappings w = (Ok tracked, wl) ->
  tracked !! name = gist_id <$> (tracked_rows w !! name).
Proof.
  unfold load_gist_mappings, tracked_rows.
  destruct (gists_toml w) as [data|]; cbn [mbind option_bind].
  - unfold bind. destruct (bool_decide _); cbn;
      intros [= <- _]; apply lookup_fmap.
  - intros [= <- _]. now rewrite !lookup_empty.
Qed.

(** C8 (as the code has it). Two runs in a row, outside dry-run mode,
    the second from the world the first left.  Take a file that the first
    run synced and whose base name no other file of the run has.  When
    the second run comes to that file, its step reports that there are no
    changes, or it sends an update of the gist that the mapping names
    whose text is the text that gist holds already for the file.  (The
    service is taken not to hand out an id twice, and the diff of two
    different texts not to be empty.) *)
Theorem second_run_changes_nothing (a : args) (w0 w1 : world)
        (pre rest : list Path) (p : Path) :
  (forall (x y : list string) (fromfile tofile : string),
      x <> y -> Py.join (unified_diff x y fromfile tofile) <> "") ->
  a_dry_run a = false ->
  Forall (fun q => Path_name q <> Path_name p) (pre ++ rest) ->
  unused_ids (github w0) ->
  synced_by_run path_match unified_diff a w0 w1 pre p rest ->
  main path_match unified_diff a w0 = (Ok tt, w1)
  /\ (forall (m : gmap string string) (ws w : world),
         comes_to path_match unified_diff a w1 pre p rest m ws w ->
         changes_nothing p w (snd (loop_body path_match unified_diff a m ws p w)) = true).
Proof.
  intros Hdiff Hdry Hnames Hfresh
         (m1 & ws1 & w & wx & wa & we & gid & sg
          & (tracked1 & wl1 & Htoken & Hload & Hmerge & Hfiles & Hpre)
          & Hbody & Hsync & Hrest & ->).
  apply Forall_app in Hnames as [Hnames_pre Hnames_rest].
  split.
  - rewrite (main_runs_loop path_match unified_diff a w0 wl1 ws1 tracked1 m1
                            Htoken Hload Hmerge).
    unfold bind at 1. rewrite sync_files_to_gists_loop.
    fold (loop_body path_match unified_diff a m1 ws1). rewrite Hfiles.
    unfold bind at 1.
    rewrite (for_each_app (loop_body path_match unified_diff a m1 ws1) pre (p :: rest) ws1 w Hpre).
    cbn [for_each]. unfold bind at 1. rewrite Hbody, Hrest.
    rewrite Hdry. reflexivity.
  - (* the service after the step of [p] in the first run *)
    assert (Hfresh_w : unused_ids (github w)).
    { pose proof (unused_ids_kept_by_load w0 Hfresh) as H1. rewrite Hload in H1.
      pose proof (unused_ids_kept_by_merged_gists tracked1 wl1 H1) as H2.
      rewrite Hmerge in H2.
      pose proof (unused_ids_kept_by_for_each
                    m1 (patterns_of (a_create_new a) ws1)
                    (a_create_new a) (a_dry_run a) (a_interactive a) (a_diff a)
                    pre ws1 H2) as H3.
      fold (loop_body path_match unified_diff a m1 ws1) in H3. now rewrite Hpre in H3. }
    assert (Hfresh_wa : unused_ids (github wa)).
    { pose proof (unused_ids_kept_by_sync_file
                    m1 (patterns_of (a_create_new a) ws1)
                    (a_create_new a) (a_dry_run a) (a_interactive a) (a_diff a)
                    p w Hfresh_w) as H.
      fold (loop_body path_match unified_diff a m1 ws1) in H. now rewrite Hbody in H. }
    destruct (sync_to_gist_in_sync p gid wx wa Hsync) as [i Hin_sync].
    (* the rest of the first run *)
    assert (Hend : stays_in_sync p i we).
    { pose proof (stays_in_sync_kept_by_for_each
                    p i m1 (patterns_of (a_create_new a) ws1)
                    (a_create_new a) (a_dry_run a) (a_interactive a) (a_diff a)
                    rest Hnames_rest wa (conj Hfresh_wa Hin_sync)) as H.
      fold (loop_body path_match unified_diff a m1 ws1) in H. now rewrite Hrest in H. }
    (* the second run *)
    intros m ws w2 (tracked2 & wl2 & _ & Hload2 & Hmerge2 & _ & Hpre2).
    set (w1 := with_trace (trace we ++ [line "Sync complete."]) we) in *.
    assert (Hstart : stays_in_sync p i w1) by exact Hend.
    assert (Hid : m !! Path_name p = Some i).
    { apply (merged_gists_wins tracked2 m wl2 ws _ _ Hmerge2).
      rewrite (load_gist_mappings_lookup tracked2 w1 wl2 _ Hload2).
      destruct Hstart as [_ (url & g & text & Hrow & _)].
      now rewrite Hrow. }
    assert (Hthere : stays_in_sync p i w2).
    { pose proof (stays_in_sync_kept_by_load p i w1 Hstart) as H1.
      rewrite Hload2 in H1.
      pose proof (stays_in_sync_kept_by_merged_gists p i tracked2 wl2 H1) as H2.
      rewrite Hmerge2 in H2.
      pose proof (stays_in_sync_kept_by_for_each
                    p i m (patterns_of (a_create_new a) ws)
                    (a_create_new a) (a_dry_run a) (a_interactive a) (a_diff a)
                    pre Hnames_pre ws H2) as H3.
      fold (loop_body path_match unified_diff a m ws) in H3. now rewrite Hpre2 in H3. }
    unfold loop_body. rewrite Hdry.
    apply (synced_step_changes_nothing _ _ _ _ _ _ i); [exact Hdiff| |exact Hid].
    exact (proj2 Hthere).
Qed.

End Runs.

(** ** Worked instances *)

Lemma merged_gists_local_first_witness :
  exists (m : gmap string string) (w2 : world),
    merged_gists {["a.py" := "X"]} Sample.tracked_a_gone = (Ok m, w2)
    /\ m !! "a.py" = Some "X"
    /\ sync_file Sample.path_match Sample.unified_diff m ∅
                 false false false false "a.py" w2
       = (sync_to_gist "a.py" (Some "X") false ;; ret Next) w2.
Proof.
  destruct (merged_gists_local_first
              Sample.path_match Sample.unified_diff
              {["a.py" := "X"]} Sample.tracked_a_gone) as (Hlisted & _ & _ & Hmerged).
  eexists. eexists. split.
  - apply Hlisted. reflexivity.
  - match goal with
    | |- ?m !! _ = _ /\ sync_file _ _ _ _ _ _ _ _ _ ?w2 = _ =>
        destruct (Hmerged m w2) as (Hwins & _ & Hupdate & _)
    end.
    + apply Hlisted. reflexivity.
    + split.
      * apply Hwins. reflexivity.
      * apply Hupdate; [reflexivity|discriminate|]. eexists. reflexivity.
Defined.

Lemma unchanged_file_is_not_updated_witness :
  exists w' : world,
    sync_file Sample.path_match Sample.unified_diff {["a.py" := "X"]} ∅
              false false false true "a.py" (Sample.tracked_a "print(1)")
    = (Ok Next, w')
    /\ trace w' = [Http (GitHub.GET (gist_url "X")); line "a.py: No changes"].
Proof.
  destruct (unchanged_file_is_not_updated
              Sample.path_match Sample.unified_diff {["a.py" := "X"]} ∅
              false false false "a.py" "X" "print(1)" (Sample.tracked_a "print(1)")
              (GitHub.answer (gist_url "X") 200 "OK"
                             (Some (GitHub.JGist (Sample.gist_X "a.py" "print(1)"))))
              (github (Sample.tracked_a "print(1)"))
              (Sample.gist_X "a.py" "print(1)"))
    as (w' & Hrun & Htrace & _);
    [reflexivity|reflexivity|discriminate|reflexivity..|].
  exists w'. split; [exact Hrun|exact Htrace].
Defined.

Lemma unknown_file_is_skipped_witness :
  sync_file Sample.path_match Sample.unified_diff ({["a.py" := "X"]} ∪ ∅) ∅
            false false false false "b.sh" Sample.ignored_b
  = (Ok Next,
     with_trace [line "Skipping b.sh (no existing gist)"] Sample.ignored_b).
Proof.
  destruct (unknown_file_is_skipped
              Sample.path_match Sample.unified_diff ∅ {["a.py" := "X"]} ∅
              false false false "b.sh" Sample.ignored_b)
    as [_ Hskip]; [reflexivity..|].
  rewrite (Hskip ({["a.py" := "X"]} ∪ ∅)) by now left.
  reflexivity.
Defined.

(** C4, as the claim has it, fails: a file that has no gist and is
    listed in [.gistignore] is not reported as skipped under
    [--create-new]; the run prints nothing about it. *)
Lemma ignored_file_is_not_reported :
  sync_files_to_gists Sample.path_match Sample.unified_diff ["b.sh"] ∅
                      true false false false Sample.ignored_b
  = (Ok tt, Sample.ignored_b)
  /\ ~ In (line "Skipping b.sh (no existing gist)")
         (trace (snd (sync_files_to_gists
                        Sample.path_match Sample.unified_diff ["b.sh"] ∅
                        true false false false Sample.ignored_b))).
Proof.
  split; [vm_compute; reflexivity|].
  vm_compute. intros [].
Qed.

Lemma ignored_file_is_passed_over_witness :
  sync_file Sample.path_match Sample.unified_diff ∅ {["b.sh"]}
            true false false false "b.sh" Sample.ignored_b
  = (Ok Next, Sample.ignored_b)
  /\ sync_file Sample.path_match Sample.unified_diff {["a.py" := "X"]} {["a.py"]}
               true true false false "a.py" (Sample.tracked_a "print(1)")
     = sync_file Sample.path_match Sample.unified_diff {["a.py" := "X"]} ∅
                 true true false false "a.py" (Sample.tracked_a "print(1)").
Proof.
  split.
  - apply (ignored_file_is_passed_over
             Sample.path_match Sample.unified_diff ∅ {["b.sh"]}
             false false false "b.sh" Sample.ignored_b).
    + eexists. reflexivity.
    + reflexivity.
    + exists "b.sh". split; [now apply elem_of_singleton|reflexivity].
  - apply (ignored_file_is_passed_over
             Sample.path_match Sample.unified_diff {["a.py" := "X"]} {["a.py"]}
             true false false "a.py" (Sample.tracked_a "print(1)")).
    + eexists. reflexivity.
    + eexists. reflexivity.
Defined.

Lemma sample_diff_is_not_empty (a b : list string) (fromfile tofile : string) :
  a <> b -> Py.join (Sample.unified_diff a b fromfile tofile) <> "".
Proof.
  intros Hne. unfold Sample.unified_diff.
  rewrite bool_decide_eq_false_2 by assumption.
  cbn [app]. rewrite join_cons. discriminate.
Qed.

Lemma changed_file_shows_diff_witness :
  exists w1 : world,
    show_diff Sample.unified_diff "a.py" "X" (Sample.tracked_a "print(0)")
    = (Ok true, w1)
    /\ tracked_rows w1 !! "a.py"
       = Some {| gist_id := "X"; url := "https://gist.github.com/X" |}.
Proof.
  destruct (changed_file_shows_diff
              Sample.path_match Sample.unified_diff
              "a.py" "X" "print(1)" (Sample.tracked_a "print(0)")
              (GitHub.answer (gist_url "X") 200 "OK"
                             (Some (GitHub.JGist (Sample.gist_X "a.py" "print(0)"))))
              (github (Sample.tracked_a "print(0)"))
              (Sample.gist_X "a.py" "print(0)"))
    as (w1 & Hshow & _ & Hrow & _);
    [exact sample_diff_is_not_empty|reflexivity..|discriminate|].
  exists w1. split; [exact Hshow|exact Hrow].
Defined.

Lemma fetch_failure_still_updates_witness :
  exists (e : exn) (w1 : world),
    is_RequestException e = true
    /\ sync_file Sample.path_match Sample.unified_diff {["a.py" := "X"]} ∅
                 false false false true "a.py" Sample.tracked_a_gone
       = (sync_to_gist "a.py" (Some "X") false ;; ret Next) w1.
Proof.
  destruct (fetch_failure_still_updates
              Sample.path_match Sample.unified_diff {["a.py" := "X"]} ∅
              false false "a.py" "X" "print(1)" Sample.tracked_a_gone
              (github Sample.tracked_a_gone))
    as (e & w1 & He & _ & Hbody & _);
    [reflexivity|reflexivity|discriminate| |].
  - right. exists (GitHub.not_found (gist_url "X")). split; reflexivity.
  - exists e, w1. split; [exact He|apply Hbody].
Defined.

Lemma failed_sync_ends_the_run_witness :
  exists w' : world,
    sync_to_gist "a.py" (Some "X") false
                 (Sample.with_service [Sample.gist_X "a.py" "print(0)"]
                                      [Some (GitHub.Status 403 "Forbidden")]
                                      Sample.tracked_a_gone)
    = (Raise (SystemExit (ExitCode 1)), w')
    /\ gists_toml w' = gists_toml Sample.tracked_a_gone.
Proof.
  destruct (failed_sync_ends_the_run
              Sample.path_match Sample.unified_diff
              "a.py" (Some "X") "print(1)"
              (Sample.with_service [Sample.gist_X "a.py" "print(0)"]
                                   [Some (GitHub.Status 403 "Forbidden")]
                                   Sample.tracked_a_gone)
              (GitHub.answer (gist_url "X") 403 "Forbidden" None)
              (GitHub.with_faults
                 []
                 (github (Sample.with_service [Sample.gist_X "a.py" "print(0)"]
                                              [Some (GitHub.Status 403 "Forbidden")]
                                              Sample.tracked_a_gone))))
    as (e & w' & Hrun & H403 & _ & _ & Htoml & _);
    [reflexivity..|].
  destruct (H403 eq_refl) as (-> & _).
  exists w'. split; [exact Hrun|exact Htoml].
Defined.

Lemma quit_stops_the_loop_witness :
  exists w' : world,
    sync_files_to_gists Sample.path_match Sample.unified_diff
                        ["a.py"; "b.py"; "c.py"] ∅ true false true false
                        Sample.three_new
    = (Ok tt, w')
    /\ List.filter (fun e => if e is Http _ then true else false) (trace w')
       = [Http (GitHub.POST GIST_API_URL
                  {| GitHub.d_description := "Auto-synced gist for a.py";
                     GitHub.d_public := false;
                     GitHub.d_file_name := "a.py";
                     GitHub.d_content := "A" |})]
    /\ map GitHub.g_first (GitHub.gists (github w')) = [("a.py", "A")].
Proof.
  destruct (proj2 (quit_stops_the_loop Sample.path_match Sample.unified_diff)
                  ∅ false "a.py" "b.py" "c.py" "A" Sample.three_new
                  "u"%char "q"%char ""
                  (GitHub.answer GIST_API_URL 201 "Created"
                     (Some (GitHub.JGist
                              (GitHub.created
                                 {| GitHub.d_description := "Auto-synced gist for a.py";
                                    GitHub.d_public := false;
                                    GitHub.d_file_name := "a.py";
                                    GitHub.d_content := "A" |} 1))))
                  (snd (GitHub.exchange
                          (GitHub.POST GIST_API_URL
                             {| GitHub.d_description := "Auto-synced gist for a.py";
                                GitHub.d_public := false;
                                GitHub.d_file_name := "a.py";
                                GitHub.d_content := "A" |})
                          (github Sample.three_new)))
                  (GitHub.created
                     {| GitHub.d_description := "Auto-synced gist for a.py";
                        GitHub.d_public := false;
                        GitHub.d_file_name := "a.py";
                        GitHub.d_content := "A" |} 1))
    as (w' & Hrun & Htrace & Hgithub & _);
    [reflexivity|eexists; reflexivity|reflexivity..|].
  exists w'. split; [exact Hrun|]. rewrite Htrace, Hgithub.
  split; reflexivity.
Defined.

(** C8, as the claim has it, fails when two files of a run have the same
    base name.  The first run creates a gist for [a/x.py] and another for
    [b/x.py], and the mapping of [x.py] ends on the second.  The second
    run then updates that gist with the text of [a/x.py], which is not
    the text it holds. *)
Lemma same_name_second_run_changes_gist :
  exists w1 : world,
    synced_by_run Sample.path_match Sample.unified_diff
                  (Sample.create_all ["a/x.py"; "b/x.py"]) Sample.same_name w1
                  [] "a/x.py" ["b/x.py"]
    /\ main Sample.path_match Sample.unified_diff
            (Sample.create_all ["a/x.py"; "b/x.py"]) Sample.same_name
       = (Ok tt, w1)
    /\ exists (m : gmap string string) (ws w : world),
         comes_to Sample.path_match Sample.unified_diff
                  (Sample.create_all ["a/x.py"; "b/x.py"]) w1
                  [] "a/x.py" ["b/x.py"] m ws w
         /\ changes_nothing
              "a/x.py" w
              (snd (loop_body Sample.path_match Sample.unified_diff
                              (Sample.create_all ["a/x.py"; "b/x.py"]) m ws
                              "a/x.py" w))
            = false.
Proof.
  eexists. split; [|split].
  - unfold synced_by_run, comes_to.
    do 3 eexists. exists (snd (merged_gists ∅ Sample.same_name)).
    do 2 eexists. exists None. eexists.
    split; [do 2 eexists; repeat split; try reflexivity; eexists; reflexivity|].
    split; [vm_compute; reflexivity|].
    split; [vm_compute; reflexivity|].
    split; [vm_compute; reflexivity|].
    reflexivity.
  - vm_compute. reflexivity.
  - do 3 eexists. split.
    + unfold comes_to. do 2 eexists.
      repeat split; try reflexivity. eexists; reflexivity.
    + vm_compute. reflexivity.
Qed.

Lemma second_run_changes_nothing_witness :
  exists w1 : world,
    main Sample.path_match Sample.unified_diff
         (Sample.create_all ["a.py"]) Sample.one_new = (Ok tt, w1)
    /\ (forall (m : gmap string string) (ws w : world),
           comes_to Sample.path_match Sample.unified_diff
                    (Sample.create_all ["a.py"]) w1 [] "a.py" [] m ws w ->
           changes_nothing
             "a.py" w
             (snd (loop_body Sample.path_match Sample.unified_diff
                             (Sample.create_all ["a.py"]) m ws "a.py" w))
           = true).
Proof.
  eexists.
  apply (second_run_changes_nothing
           Sample.path_match Sample.unified_diff
           (Sample.create_all ["a.py"]) Sample.one_new _ [] [] "a.py").
  - exact sample_diff_is_not_empty.
  - reflexivity.
  - constructor.
  - intros g n [].
  - unfold synced_by_run, comes_to.
    do 3 eexists. exists (snd (merged_gists ∅ Sample.one_new)).
    do 2 eexists. exists None. eexists.
    split; [do 2 eexists; repeat split; try reflexivity; eexists; reflexivity|].
    split; [vm_compute; reflexivity|].
    split; [vm_compute; reflexivity|].
    split; [vm_compute; reflexivity|].
    reflexivity.
Defined.

(** The listing cannot be fetched, [a.py] is tracked as gist [X]: the run
    warns, falls back on the local mapping and updates gist [X]. *)
Example mapping_precedence_when_unreachable :
  let w := Sample.with_service [Sample.gist_X "a.py" "print(0)"]
                               [Some (GitHub.Unreachable "Connection refused")]
                               Sample.tracked_a_gone in
  let '(r, w') := main Sample.path_match Sample.unified_diff
                       {| a_files := ["a.py"]; a_dry_run := false;
                          a_create_new := false; a_interactive := false;
                          a_diff := false |} w in
  r = Ok tt
  /\ List.filter (fun e => if e is Http _ then true else false) (trace w')
     = [Http (GitHub.GET GIST_API_URL);
        Http (GitHub.PATCH (gist_url "X")
                {| GitHub.d_description := "Auto-synced gist for a.py";
                   GitHub.d_public := false;
                   GitHub.d_file_name := "a.py";
                   GitHub.d_content := "print(1)" |})]
  /\ map GitHub.g_first (GitHub.gists (github w')) = [("a.py", "print(1)")].
Proof. vm_compute. repeat split. Qed.

(** The operator excludes [b.sh]: its name goes to [.gistignore] and
    nothing is sent for it. *)
Example exclude_adds_to_gistignore :
  let w := with_stdin "x" (Sample.with_disk [("b.sh", "echo")] Sample.blank) in
  let '(r, w') := sync_files_to_gists Sample.path_match Sample.unified_diff
                                      ["b.sh"] ∅ true false true false w in
  r = Ok tt
  /\ gistignore w' = Some ("b.sh" +:+ NL)
  /\ List.filter (fun e => if e is Http _ then true else false) (trace w') = [].
Proof. vm_compute. repeat split. Qed.

(** Once the keys have run out the prompt never returns. *)
Example prompt_without_keys_hangs :
  fst (interactive_sync "b.sh" false
                        (Sample.with_disk [("b.sh", "echo")] Sample.blank))
  = Hang.
Proof. reflexivity. Qed.

(** * Further properties of the script *)

(** ** The ignore file *)

Lemma lstrip_head (s : string) :
  Py.lstrip s = ""
  \/ exists (c : ascii) (r : string), Py.lstrip s = String c r /\ Py.isspace c = false.
Proof.
  induction s as [|c s IH]; [now left|].
  cbn [Py.lstrip]. destruct (Py.isspace c) eqn:E; [exact IH|].
  right. now exists c, s.
Qed.

Lemma rstrip_cons (c : ascii) (s : string) :
  Py.rstrip (String c s)
  = match Py.rstrip s with
    | EmptyString => if Py.isspace c then "" else String c ""
    | kept => String c kept
    end.
Proof. reflexivity. Qed.

Lemma rstrip_rstrip (s : string) : Py.rstrip (Py.rstrip s) = Py.rstrip s.
Proof.
  induction s as [|c s IH]; [reflexivity|].
  rewrite rstrip_cons. destruct (Py.rstrip s) as [|k ks] eqn:E.
  - destruct (Py.isspace c) eqn:Ec; [reflexivity|].
    rewrite rstrip_cons. cbn [Py.rstrip]. now rewrite Ec.
  - rewrite rstrip_cons. now rewrite IH.
Qed.

Lemma lstrip_rstrip (c : ascii) (r : string) :
  Py.isspace c = false ->
  Py.lstrip (Py.rstrip (String c r)) = Py.rstrip (String c r).
Proof.
  intros Hc. rewrite rstrip_cons.
  destruct (Py.rstrip r) as [|k ks]; rewrite ?Hc; cbn [Py.lstrip]; now rewrite Hc.
Qed.

(** Stripping twice is stripping once. *)
Lemma strip_strip (s : string) : Py.strip (Py.strip s) = Py.strip s.
Proof.
  unfold Py.strip.
  destruct (lstrip_head s) as [-> | (c & r & -> & Hc)]; [reflexivity|].
  now rewrite lstrip_rstrip, rstrip_rstrip.
Qed.

(** X1. The patterns read from [.gistignore] are stripped and none of
    them is empty: blank lines and the white space around a pattern do
    not count.  Without the file there is no pattern. *)
Theorem excluded_patterns_are_stripped (w : world) :
  exists patterns : gset string,
    get_excluded_patterns w = (Ok patterns, w)
    /\ (gistignore w = None -> patterns = ∅)
    /\ (forall pattern : string,
          pattern ∈ patterns ->
          pattern <> "" /\ Py.strip pattern = pattern
          /\ exists (text l : string),
               gistignore w = Some text
               /\ In l (Py.splitlines false text) /\ pattern = Py.strip l).
Proof.
  unfold get_excluded_patterns.
  destruct (gistignore w) as [text|].
  - eexists. split; [reflexivity|]. split; [discriminate|].
    intros pattern Hin.
    apply elem_of_list_to_set, list_elem_of_In, in_map_iff in Hin
      as (l & <- & Hl).
    apply filter_In in Hl as [Hl Htruthy].
    split; [|split].
    + now destruct (Py.strip l).
    + apply strip_strip.
    + now exists text, l.
  - exists ∅. split; [reflexivity|]. split; [reflexivity|].
    intros pattern Hin. now apply not_elem_of_empty in Hin.
Qed.

Lemma excluded_patterns_are_stripped_witness :
  exists patterns : gset string,
    get_excluded_patterns
      (with_gistignore ("  *.tmp " +:+ NL +:+ NL +:+ "b.sh" +:+ NL) Sample.blank)
    = (Ok patterns, with_gistignore ("  *.tmp " +:+ NL +:+ NL +:+ "b.sh" +:+ NL) Sample.blank)
    /\ "*.tmp" ∈ patterns
    /\ Py.strip "*.tmp" = "*.tmp".
Proof.
  destruct (excluded_patterns_are_stripped
              (with_gistignore ("  *.tmp " +:+ NL +:+ NL +:+ "b.sh" +:+ NL) Sample.blank))
    as (patterns & Hrun & _ & Hall).
  assert (Hin : "*.tmp" ∈ patterns).
  { injection Hrun as <-. change (Py.strip "  *.tmp ") with "*.tmp". set_solver. }
  exists patterns. split; [exact Hrun|]. split; [exact Hin|].
  now destruct (Hall "*.tmp" Hin) as (_ & Hstrip & _).
Defined.

Lemma splitlines_not_nil (keepends : bool) (c : ascii) (s : string) :
  Py.splitlines keepends (String c s) <> [].
Proof.
  cbn [Py.splitlines].
  destruct (Py.is_linebreak c).
  - destruct (bool_decide (c = Py.CR) && Py.starts_with_LF s);
      [destruct (Py.splitlines keepends s)|]; discriminate.
  - destruct (Py.splitlines keepends s); discriminate.
Qed.

Lemma splitlines_cons (keepends : bool) (c : ascii) (rest : string) :
  Py.splitlines keepends (String c rest)
  = let lines := Py.splitlines keepends rest in
    if Py.is_linebreak c then
      if bool_decide (c = Py.CR) && Py.starts_with_LF rest then
        match lines with
        | l :: tl => (if keepends then String c l else l) :: tl
        | [] => [if keepends then String c "" else ""]
        end
      else (if keepends then String c "" else "") :: lines
    else
      match lines with
      | l :: tl => String c l :: tl
      | [] => [String c ""]
      end.
Proof. reflexivity. Qed.

(** A text that ends with a line ending splits apart from what follows
    it, unless the two meet in a CR LF pair. *)
Lemma splitlines_app (keepends : bool) (a b : string) (c : ascii) :
  Py.is_linebreak c = true ->
  Py.starts_with_LF b = false ->
  Py.splitlines keepends ((a +:+ String c "") +:+ b)
  = Py.splitlines keepends (a +:+ String c "") ++ Py.splitlines keepends b.
Proof.
  intros Hc Hb. induction a as [|d a IH].
  - rewrite !append_empty_l, append_cons, append_empty_l.
    rewrite !splitlines_cons. cbv zeta. rewrite Hc, Hb.
    rewrite !andb_false_r. reflexivity.
  - rewrite !append_cons. rewrite (splitlines_cons _ d), (splitlines_cons _ d (a +:+ _)).
    cbv zeta. rewrite IH.
    assert (Hstart : Py.starts_with_LF ((a +:+ String c "") +:+ b)
                     = Py.starts_with_LF (a +:+ String c "")).
    { destruct a; reflexivity. }
    rewrite Hstart.
    assert (Hlines : exists l tl, Py.splitlines keepends (a +:+ String c "") = l :: tl).
    { destruct a as [|e a].
      - rewrite append_empty_l.
        pose proof (splitlines_not_nil keepends c "") as H.
        destruct (Py.splitlines keepends (String c "")) as [|l tl]; [contradiction|].
        now exists l, tl.
      - rewrite append_cons.
        pose proof (splitlines_not_nil keepends e (a +:+ String c "")) as H.
        destruct (Py.splitlines keepends (String e (a +:+ String c ""))) as [|l tl];
          [contradiction|].
        now exists l, tl. }
    destruct Hlines as (l & tl & ->). cbn [app].
    destruct (Py.is_linebreak d); [|reflexivity].
    destruct (bool_decide (d = Py.CR) && Py.starts_with_LF (a +:+ String c ""));
      reflexivity.
Qed.

(** A text without a line ending in it is one line. *)
Lemma splitlines_one_line (c : ascii) (s : string) :
  Forall (fun x => Py.is_linebreak x = false) (String.list_ascii_of_string (String c s)) ->
  Py.splitlines false (String c s +:+ NL) = [String c s].
Proof.
  revert c. induction s as [|d s IH]; intros c Hall.
  - apply Forall_cons_1 in Hall as [Hc _].
    rewrite append_cons, append_empty_l. unfold NL.
    rewrite !splitlines_cons. cbv zeta. rewrite Hc. reflexivity.
  - apply Forall_cons_1 in Hall as [Hc Hall].
    rewrite append_cons, splitlines_cons. cbv zeta.
    rewrite (IH d Hall), Hc. reflexivity.
Qed.

Lemma get_excluded_patterns_value (w : world) :
  get_excluded_patterns w = (Ok (patterns_of true w), w).
Proof.
  unfold get_excluded_patterns, patterns_of. now destruct (gistignore w).
Qed.

(** The patterns of the ignore file with one more line. *)
Lemma patterns_of_added (pattern : string) (w : world) :
  (gistignore w = None
   \/ gistignore w = Some ""
   \/ exists (a : string) (c : ascii),
        gistignore w = Some (a +:+ String c "") /\ Py.is_linebreak c = true) ->
  Py.strip pattern <> "" ->
  Forall (fun x => Py.is_linebreak x = false) (String.list_ascii_of_string pattern) ->
  patterns_of true (with_gistignore (default "" (gistignore w) +:+ pattern +:+ NL) w)
  = patterns_of true w ∪ {[Py.strip pattern]}.
Proof.
  intros Hfile Hstrip Hline.
  destruct pattern as [|p0 pattern]; [contradiction|].
  assert (Hnew : list_to_set
                   (map Py.strip
                        (List.filter (fun l => Py.truthy (Py.strip l))
                                     (Py.splitlines false (String p0 pattern +:+ NL))))
                 = ({[Py.strip (String p0 pattern)]} : gset string)).
  { rewrite (splitlines_one_line p0 pattern Hline). cbn [List.filter].
    remember (Py.strip (String p0 pattern)) as stripped eqn:E.
    destruct stripped; [contradiction|].
    cbn [Py.truthy map]. rewrite <- E.
    now rewrite list_to_set_cons, list_to_set_nil, (right_id_L ∅ (∪)). }
  unfold patterns_of. cbn [gistignore with_gistignore].
  destruct Hfile as [-> | [-> | (a & c & -> & Hc)]]; cbn [default from_option id].
  - change ("" +:+ String p0 pattern +:+ NL) with (String p0 pattern +:+ NL).
    rewrite Hnew. now rewrite (left_id_L ∅ (∪)).
  - change ("" +:+ String p0 pattern +:+ NL) with (String p0 pattern +:+ NL).
    rewrite Hnew. cbn. now rewrite (left_id_L ∅ (∪)).
  - assert (Hstart : Py.starts_with_LF (String p0 pattern +:+ NL) = false).
    { rewrite append_cons. cbn [Py.starts_with_LF].
      apply bool_decide_eq_false_2. intros ->.
      apply Forall_cons_1 in Hline as [Hp0 _]. discriminate. }
    rewrite splitlines_app by assumption.
    rewrite List.filter_app, map_app, list_to_set_app_L. now rewrite Hnew.
Qed.

(** X2. What [add_to_gistignore] appends is read back: when the ignore
    file is missing, or ends with a line ending, and the pattern has a
    character other than white space and no line ending in it, the
    patterns read after [add_to_gistignore] are the patterns read before
    and the pattern, stripped. *)
Theorem added_pattern_is_read_back (pattern : string) (w : world) :
  (gistignore w = None
   \/ gistignore w = Some ""
   \/ exists (a : string) (c : ascii),
        gistignore w = Some (a +:+ String c "") /\ Py.is_linebreak c = true) ->
  Py.strip pattern <> "" ->
  Forall (fun x => Py.is_linebreak x = false) (String.list_ascii_of_string pattern) ->
  exists (before after : gset string) (w' : world),
    get_excluded_patterns w = (Ok before, w)
    /\ add_to_gistignore pattern w = (Ok tt, w')
    /\ get_excluded_patterns w' = (Ok after, w')
    /\ after = before ∪ {[Py.strip pattern]}.
Proof.
  intros Hfile Hstrip Hline.
  exists (patterns_of true w),
         (patterns_of true
            (with_gistignore (default "" (gistignore w) +:+ pattern +:+ NL) w)),
         (with_gistignore (default "" (gistignore w) +:+ pattern +:+ NL) w).
  split; [apply get_excluded_patterns_value|].
  split; [reflexivity|].
  split; [apply get_excluded_patterns_value|].
  now apply patterns_of_added.
Qed.

Lemma added_pattern_is_read_back_witness :
  exists (before after : gset string) (w' : world),
    get_excluded_patterns Sample.ignored_b = (Ok before, Sample.ignored_b)
    /\ add_to_gistignore "c.py" Sample.ignored_b = (Ok tt, w')
    /\ get_excluded_patterns w' = (Ok after, w')
    /\ after = before ∪ {["c.py"]}.
Proof.
  apply (added_pattern_is_read_back "c.py" Sample.ignored_b).
  - right. right. exists "b.sh", Py.LF. split; reflexivity.
  - discriminate.
  - vm_compute. repeat constructor.
Defined.

(** ** The listing *)

Lemma listing_fold_lookup (gs : list GitHub.gist) (name : string) :
  fold_left
    (fun (d : gmap string string) gist =>
       if negb (GitHub.g_public gist)
       then <[fst (GitHub.g_first gist) := GitHub.g_id gist]> d
       else d)
    gs ∅ !! name
  = GitHub.g_id
      <$> List.find (fun g => negb (GitHub.g_public g)
                              && bool_decide (fst (GitHub.g_first g) = name))
                    (rev gs).
Proof.
  induction gs as [|g gs IH] using rev_ind; [apply lookup_empty|].
  rewrite fold_left_app, rev_app_distr. cbn [fold_left rev app List.find].
  destruct (GitHub.g_public g); cbn [negb andb]; [exact IH|].
  destruct (bool_decide (fst (GitHub.g_first g) = name)) eqn:E.
  - apply bool_decide_eq_true_1 in E. rewrite E. apply lookup_insert_eq.
  - apply bool_decide_eq_false_1 in E. rewrite lookup_insert_ne by exact E.
    exact IH.
Qed.

(** X3. When the listing is answered with the gists [gs],
    [get_existing_gists] maps a name to the id of the last gist of [gs]
    that is not public and has a file of that name as its first file.
    So a public gist is never in the map, and a gist is only known by
    its first file. *)
Theorem get_existing_gists_lookup (w : world) (response : GitHub.response)
        (s : GitHub.state) (gs : list GitHub.gist) :
  GitHub.exchange (GitHub.GET GIST_API_URL) (github w) = (inr response, s) ->
  is_error_status (GitHub.status_code response) = false ->
  GitHub.body response = Some (GitHub.JList gs) ->
  exists api : gmap string string,
    get_existing_gists w
    = (Ok api,
       with_github s (with_trace (trace w ++ [Http (GitHub.GET GIST_API_URL)]) w))
    /\ (forall name : string,
          api !! name
          = GitHub.g_id
              <$> List.find (fun g => negb (GitHub.g_public g)
                                      && bool_decide (fst (GitHub.g_first g) = name))
                            (rev gs))
    /\ (forall name i : string,
          api !! name = Some i ->
          exists g : GitHub.gist,
            In g gs /\ GitHub.g_public g = false
            /\ fst (GitHub.g_first g) = name /\ GitHub.g_id g = i).
Proof.
  intros Hex Hstatus Hbody.
  eexists. split; [|split].
  - unfold get_existing_gists.
    unfold bind at 1. unfold requests_get, requests_send.
    unfold bind at 1. unfold emit at 1. cbn [github with_trace].
    rewrite Hex.
    unfold bind at 1. rewrite (raise_for_status_ok _ _ Hstatus).
    unfold bind at 1. unfold json_gists. rewrite Hbody.
    reflexivity.
  - intros name. apply listing_fold_lookup.
  - intros name i Hi. rewrite listing_fold_lookup in Hi.
    destruct (List.find _ (rev gs)) as [g|] eqn:Hfind; [|discriminate].
    injection Hi as <-. apply find_some in Hfind as [Hin Hg].
    apply andb_true_iff in Hg as [Hprivate Hname].
    exists g. split; [now apply in_rev|]. split; [now destruct (GitHub.g_public g)|].
    split; [now apply bool_decide_eq_true_1 in Hname|reflexivity].
Qed.

Lemma get_existing_gists_lookup_witness :
  exists api : gmap string string,
    fst (get_existing_gists (Sample.tracked_a "print(0)")) = Ok api
    /\ api !! "a.py" = Some "X"
    /\ api !! "b.sh" = None.
Proof.
  destruct (get_existing_gists_lookup
              (Sample.tracked_a "print(0)")
              (GitHub.answer GIST_API_URL 200 "OK"
                 (Some (GitHub.JList [Sample.gist_X "a.py" "print(0)"])))
              (github (Sample.tracked_a "print(0)"))
              [Sample.gist_X "a.py" "print(0)"])
    as (api & Hrun & Hlookup & _); [reflexivity..|].
  exists api. rewrite Hrun. split; [reflexivity|].
  rewrite !Hlookup. split; reflexivity.
Defined.


(** ** The prompt *)

Lemma prompt_loop_other_key (file_path : Path) (dry_run : bool)
      (ch : ascii) (keys : string) (w : world) :
  is_choice ch = false ->
  prompt_loop file_path dry_run (String ch keys) w
  = prompt_loop file_path dry_run keys (answered file_path (choice_of ch) keys w).
Proof.
  intros Hch. unfold is_choice in Hch. apply bool_decide_eq_false_1 in Hch.
  cbn [prompt_loop]. fold (choice_of ch).
  rewrite !bool_decide_eq_false_2
    by (intros E; apply Hch; rewrite E, !elem_of_cons; tauto).
  unfold answered, prompt, line.
  unfold bind at 1, print at 1, emit at 1.
  unfold bind at 1, print_end at 1, emit at 1.
  unfold bind at 1. unfold bind at 1, print at 1, emit at 1.
  cbn [trace with_trace with_stdin]. rewrite <- !app_assoc. reflexivity.
Qed.

Lemma prompt_loop_skips (file_path : Path) (dry_run : bool)
      (junk rest : string) (w : world) :
  no_choice junk = true ->
  stdin w = junk +:+ rest ->
  prompt_loop file_path dry_run (junk +:+ rest) w
  = prompt_loop file_path dry_run rest
      (with_stdin rest (with_trace (trace w ++ asked file_path junk) w)).
Proof.
  revert w. induction junk as [|j junk IH]; intros w Hjunk Hkeys.
  - rewrite append_empty_l in *. cbn [asked]. rewrite app_nil_r.
    rewrite <- Hkeys. now destruct w.
  - cbn [no_choice] in Hjunk. apply andb_true_iff in Hjunk as [Hj Hjunk].
    apply negb_true_iff in Hj.
    rewrite append_cons, (prompt_loop_other_key _ _ _ _ _ Hj).
    rewrite (IH (answered file_path (choice_of j) (junk +:+ rest) w) Hjunk eq_refl).
    cbn [asked answered trace with_trace with_stdin]. unfold answered.
    cbn [trace with_trace with_stdin]. rewrite <- !app_assoc. reflexivity.
Qed.

Lemma prompt_loop_choice (file_path : Path) (dry_run : bool)
      (ch : ascii) (keys : string) (w : world) :
  is_choice ch = true ->
  let w1 := answered file_path (choice_of ch) keys w in
  prompt_loop file_path dry_run (String ch keys) w
  = if bool_decide (choice_of ch = "q") then (Ok false, w1)
    else if bool_decide (choice_of ch = "s") then
      (Ok true,
       with_trace (trace w1 ++ [line "Skipped. Will ask again next time."]) w1)
    else if bool_decide (choice_of ch = "x") then
      (Ok true,
       with_trace
         (trace w1 ++ [line ("Added " +:+ Path_name file_path +:+ " to .gistignore")])
         (with_gistignore
            (default "" (gistignore w) +:+ Path_name file_path +:+ NL) w1))
    else (sync_to_gist file_path None dry_run ;; ret true) w1.
Proof.
  intros Hch w1. unfold is_choice in Hch. apply bool_decide_eq_true_1 in Hch.
  cbn [prompt_loop]. fold (choice_of ch).
  unfold bind at 1, print at 1, emit at 1.
  unfold bind at 1, print_end at 1, emit at 1.
  unfold bind at 1. unfold bind at 1, print at 1, emit at 1.
  cbn [trace with_trace with_stdin].
  assert (Hw : with_stdin keys
                 (with_trace
                    (((trace w ++ [Print ((NL +:+ "File: " +:+ file_path) +:+ NL)])
                      ++ [Print "[u]pload as gist, [x]clude (add to .gistignore), [s]kip (ask again next time), [q]uit? "])
                     ++ [Print (choice_of ch +:+ NL)]) w)
               = w1).
  { unfold w1, answered, prompt, line. now rewrite <- !app_assoc. }
  destruct (bool_decide (choice_of ch = "q")) eqn:Eq; [now rewrite <- Hw|].
  destruct (bool_decide (choice_of ch = "s")) eqn:Es; [now rewrite <- Hw|].
  destruct (bool_decide (choice_of ch = "x")) eqn:Ex; [now rewrite <- Hw|].
  destruct (bool_decide (choice_of ch = "u")) eqn:Eu; [now rewrite <- Hw|].
  exfalso. rewrite !elem_of_cons in Hch.
  destruct Hch as [H|[H|[H|[H|H]]]];
    [rewrite H in Eq|rewrite H in Es|rewrite H in Ex|rewrite H in Eu
     |now apply elem_of_nil in H];
    discriminate.
Qed.

(** X4. [interactive_sync] acts on the first key that is one of [q],
    [s], [x], [u], in either case; for every key before it the prompt is
    only printed again.  [q] answers [False]; [s] answers [True] and
    changes nothing; [x] appends the name of the file to [.gistignore];
    [u] creates the gist. *)
Theorem first_choice_decides (file_path : Path) (dry_run : bool)
        (junk : string) (ch : ascii) (keys : string) (w : world) :
  stdin w = junk +:+ String ch keys ->
  no_choice junk = true ->
  is_choice ch = true ->
  let w1 := with_stdin keys
              (with_trace (trace w ++ asked file_path junk ++ prompt file_path
                                   ++ [line (choice_of ch)]) w) in
  interactive_sync file_path dry_run w
  = if bool_decide (choice_of ch = "q") then (Ok false, w1)
    else if bool_decide (choice_of ch = "s") then
      (Ok true,
       with_trace (trace w1 ++ [line "Skipped. Will ask again next time."]) w1)
    else if bool_decide (choice_of ch = "x") then
      (Ok true,
       with_trace
         (trace w1 ++ [line ("Added " +:+ Path_name file_path +:+ " to .gistignore")])
         (with_gistignore
            (default "" (gistignore w) +:+ Path_name file_path +:+ NL) w1))
    else (sync_to_gist file_path None dry_run ;; ret true) w1.
Proof.
  intros Hkeys Hjunk Hch w1.
  unfold interactive_sync. rewrite Hkeys.
  rewrite (prompt_loop_skips _ _ _ _ _ Hjunk Hkeys).
  rewrite (prompt_loop_choice _ _ _ _ _ Hch). cbv zeta.
  assert (Hw : answered file_path (choice_of ch) keys
                        (with_stdin (String ch keys)
                           (with_trace (trace w ++ asked file_path junk) w))
               = w1).
  { unfold w1, answered. cbn [trace with_trace with_stdin].
    now rewrite <- !app_assoc. }
  rewrite Hw. reflexivity.
Qed.

Lemma first_choice_decides_witness :
  interactive_sync "b.sh" false
                   (with_stdin "?yX" (Sample.with_disk [("b.sh", "echo")] Sample.blank))
  = (Ok true,
     with_trace
       (asked "b.sh" "?y" ++ prompt "b.sh"
        ++ [line "x"; line "Added b.sh to .gistignore"])
       (with_gistignore ("b.sh" +:+ NL)
          (with_stdin "" (Sample.with_disk [("b.sh", "echo")] Sample.blank)))).
Proof.
  rewrite (first_choice_decides
             "b.sh" false "?y" "X" ""
             (with_stdin "?yX" (Sample.with_disk [("b.sh", "echo")] Sample.blank)));
    reflexivity.
Defined.

(** X5. When none of the keys to come is a choice, [interactive_sync]
    does not return: the prompt is printed for each key and once more, and
    nothing is sent or written. *)
Theorem prompt_without_choice_hangs (file_path : Path) (dry_run : bool) (w : world) :
  no_choice (stdin w) = true ->
  interactive_sync file_path dry_run w
  = (Hang,
     with_stdin ""
       (with_trace (trace w ++ asked file_path (stdin w) ++ prompt file_path) w)).
Proof.
  intros Hjunk. unfold interactive_sync.
  rewrite <- (append_empty_r (stdin w)) at 1.
  rewrite (prompt_loop_skips _ _ (stdin w) "" w Hjunk)
    by now rewrite append_empty_r.
  cbn [prompt_loop]. unfold prompt, line.
  unfold bind at 1, print at 1, emit at 1.
  unfold bind at 1, print_end at 1, emit at 1.
  cbn [trace with_trace with_stdin]. rewrite <- !app_assoc. reflexivity.
Qed.

Lemma prompt_without_choice_hangs_witness :
  fst (interactive_sync "b.sh" false
                        (with_stdin "yn?" (Sample.with_disk [("b.sh", "echo")] Sample.blank)))
  = Hang.
Proof.
  rewrite (prompt_without_choice_hangs
             "b.sh" false
             (with_stdin "yn?" (Sample.with_disk [("b.sh", "echo")] Sample.blank)));
    reflexivity.
Defined.

(** ** The mapping file, read back *)




(** ** The start of [main] *)

(** X7. Without a token ([GITHUB_TOKEN] unset or empty) [main] ends at
    once with the message as its exit argument, which makes exit status
    1: the mapping file is not read, nothing is sent, nothing is
    printed. *)
Theorem no_token_no_run (path_match : Path -> string -> bool)
        (unified_diff : list string -> list string -> string -> string -> list string)
        (a : args) (w : world) :
  GITHUB_TOKEN w = None \/ GITHUB_TOKEN w = Some "" ->
  main path_match unified_diff a w
  = (Raise (SystemExit
              (ExitMessage "Error: GITHUB_TOKEN environment variable not set")), w)
  /\ exit_status (ExitMessage "Error: GITHUB_TOKEN environment variable not set") = 1.
Proof.
  intros Htoken. split; [|reflexivity].
  unfold main. unfold bind at 1.
  now destruct Htoken as [-> | ->].
Qed.

Lemma no_token_no_run_witness :
  fst (main Sample.path_match Sample.unified_diff (Sample.create_all ["a.py"])
            {| disk := disk Sample.one_new; gists_toml := None; gistignore := None;
               github := Sample.no_gists; GITHUB_TOKEN := Some ""; stdin := "";
               utcnow := ""; trace := [] |})
  = Raise (SystemExit
             (ExitMessage "Error: GITHUB_TOKEN environment variable not set")).
Proof.
  rewrite (proj1 (no_token_no_run
                    Sample.path_match Sample.unified_diff (Sample.create_all ["a.py"])
                    {| disk := disk Sample.one_new; gists_toml := None;
                       gistignore := None; github := Sample.no_gists;
                       GITHUB_TOKEN := Some ""; stdin := ""; utcnow := "";
                       trace := [] |}
                    (or_intror eq_refl))).
  reflexivity.
Defined.

(** ** What a sync leaves behind *)

(** X8. A call of [sync_to_gist] outside dry-run mode that ends well
    leaves the file in step with a gist [i] of the service.  With an id
    given, [i] is that id, and the gist was there before; with none, [i]
    is the id the service handed out, and the gist is new, secret, and
    holds the one file.  The call does not touch the files or the ignore
    file. *)
Theorem successful_sync_is_recorded (p : Path) (gist_id : option string)
        (w w' : world) :
  sync_to_gist p gist_id false w = (Ok tt, w') ->
  exists (i : string) (g : GitHub.gist),
    in_sync p i w'
    /\ GitHub.find i (GitHub.gists (github w')) = Some g
    /\ tracked_rows w' !! Path_name p
       = Some {| gist_id := i; url := GitHub.g_html_url g |}
    /\ match truthy_id gist_id with
       | Some j => i = j /\ is_Some (GitHub.find j (GitHub.gists (github w)))
       | None =>
           i = GitHub.fresh_id (GitHub.next_id (github w))
           /\ GitHub.g_public g = false
           /\ (exists text : string,
                  disk w !! p = Some text
                  /\ GitHub.g_files g = [(Path_name p, text)])
           /\ GitHub.gists (github w') = g :: GitHub.gists (github w)
       end
    /\ disk w' = disk w
    /\ gistignore w' = gistignore w.
Proof.
  intros H.
  destruct (sync_to_gist_in_sync p gist_id w w' H) as [i0 Hsync0].
  destruct (disk w !! p) as [text|] eqn:Hdisk.
  2: { unfold sync_to_gist, bind, read_text in H. rewrite Hdisk in H. discriminate. }
  rewrite (sync_to_gist_sends p gist_id text w Hdisk) in H.
  destruct (GitHub.exchange _ _) as [[msg|response] s] eqn:Hex; [discriminate|].
  apply settle_ok in H as (g & Hbody & ->).
  destruct (exchange_answer _ _ _ _ _ Hex Hbody) as (s0 & Hgists & Hnext & Hserve).
  assert (Hrow : tracked_rows
                   (saved p (GitHub.g_id g) (GitHub.g_html_url g)
                      (with_trace
                         (trace (sent p gist_id text s w) ++ [Print ("done" +:+ NL)]
                            ++ [Print ("  URL: " +:+ GitHub.g_html_url g +:+ NL)])
                         (sent p gist_id text s w))) !! Path_name p
                 = Some {| gist_id := GitHub.g_id g; url := GitHub.g_html_url g |})
    by apply saved_row.
  pose proof Hsync0 as Hkeep.
  destruct Hsync0 as (url0 & g0 & text0 & Hrow0 & Hne0 & Hfind0 & Hcontent0 & Hdisk0).
  rewrite Hrow in Hrow0. injection Hrow0 as <- <-.
  exists (GitHub.g_id g), g0.
  assert (Hg0 : GitHub.g_id g0 = GitHub.g_id g) by apply (find_Some _ _ _ Hfind0).
  unfold sync_request in Hserve.
  destruct (truthy_id gist_id) as [j|] eqn:Hid.
  - fold (gist_url j) in Hserve. rewrite serve_patch in Hserve.
    destruct (GitHub.find j (GitHub.gists s0)) as [g1|] eqn:Hfind.
    2: { injection Hserve as <- <-. discriminate. }
    injection Hserve as <- <-. cbn in Hbody. injection Hbody as <-.
    pose proof (find_Some _ _ _ Hfind) as [_ Hg1].
    rewrite patched_id, Hg1 in *.
    assert (g0 = GitHub.patched
                   {| GitHub.d_description := "Auto-synced gist for " +:+ Path_name p;
                      GitHub.d_public := false;
                      GitHub.d_file_name := Path_name p;
                      GitHub.d_content := text |} g1) as ->.
    { unfold saved, save_gist_mapping, sent in Hfind0.
      cbn [snd github with_gists_toml with_trace with_github
           GitHub.gists GitHub.with_gists] in Hfind0.
      rewrite (find_replace_same j g1) in Hfind0;
        [congruence|exact Hfind|now rewrite patched_id]. }
    split; [exact Hkeep|].
    split; [exact Hfind0|].
    split; [exact Hrow|].
    split; [|split; reflexivity].
    split; [reflexivity|]. rewrite <- Hgists. now rewrite Hfind.
  - cbn in Hserve. injection Hserve as <- <-. cbn in Hbody. injection Hbody as <-.
    unfold saved, save_gist_mapping, sent in Hfind0.
    cbn [snd github with_gists_toml with_trace with_github
         GitHub.gists GitHub.find List.find GitHub.created GitHub.g_id] in Hfind0.
    rewrite bool_decide_eq_true_2 in Hfind0 by reflexivity.
    injection Hfind0 as <-.
    split; [exact Hkeep|].
    split; [cbn; now rewrite bool_decide_eq_true_2|].
    split; [exact Hrow|].
    split; [|split; reflexivity].
    split; [cbn; now rewrite Hnext|].
    split; [reflexivity|].
    split; [exists text; split; reflexivity|].
    cbn. now rewrite Hgists, Hnext.
Qed.

Lemma successful_sync_is_recorded_witness :
  exists w' : world,
    sync_to_gist "a.py" None false Sample.one_new = (Ok tt, w')
    /\ in_sync "a.py" "g1" w'.
Proof.
  exists (snd (sync_to_gist "a.py" None false Sample.one_new)).
  assert (Hrun : sync_to_gist "a.py" None false Sample.one_new
                 = (Ok tt, snd (sync_to_gist "a.py" None false Sample.one_new)))
    by (vm_compute; reflexivity).
  split; [exact Hrun|].
  destruct (successful_sync_is_recorded "a.py" None Sample.one_new _ Hrun)
    as (i & g & Hsync & _ & _ & Hcase & _).
  cbn [truthy_id] in Hcase. destruct Hcase as (-> & _).
  exact Hsync.
Defined.

(** ** The loop body and the map of known gists *)

Lemma bind_ext {A B} (m : M A) (k k' : A -> M B) (w : world) :
  (forall (a : A) (w' : world), k a w' = k' a w') ->
  bind m k w = bind m k' w.
Proof.
  intros H. unfold bind. destruct (m w) as [[a| |] w']; [apply H|reflexivity..].
Qed.

(** X9. The loop body reads one row of the map of known gists, that of
    the base name of the file, and reads it for its truth value: two maps
    that agree there up to an empty id give the same step.  A file whose
    row holds the empty id is dealt with as a file without a row. *)
Theorem sync_file_reads_one_row
        (path_match : Path -> string -> bool)
        (unified_diff : list string -> list string -> string -> string -> list string)
        (m m' : gmap string string) (excluded : gset string)
        (create_new dry_run interactive show_diffs : bool) (p : Path) (w : world) :
  truthy_id (m !! Path_name p) = truthy_id (m' !! Path_name p) ->
  sync_file path_match unified_diff m excluded
            create_new dry_run interactive show_diffs p w
  = sync_file path_match unified_diff m' excluded
              create_new dry_run interactive show_diffs p w.
Proof.
  intros H. unfold sync_file. apply bind_ext. intros isf w0.
  destruct (negb isf); [reflexivity|].
  rewrite <- H.
  destruct (truthy_id (m !! Path_name p)) as [i|] eqn:Hm; [|reflexivity].
  symmetry in H.
  apply truthy_id_inv in Hm as [Hm _]. apply truthy_id_inv in H as [H _].
  now rewrite Hm, H.
Qed.

Lemma sync_file_reads_one_row_witness :
  sync_file Sample.path_match Sample.unified_diff {["a.py" := ""]} ∅
            true false false false "a.py" Sample.one_new
  = sync_file Sample.path_match Sample.unified_diff ∅ ∅
              true false false false "a.py" Sample.one_new.
Proof.
  apply (sync_file_reads_one_row
           Sample.path_match Sample.unified_diff {["a.py" := ""]} ∅ ∅
           true false false false "a.py" Sample.one_new).
  reflexivity.
Defined.

(** ** Fetching a gist *)

(** X10. [show_diff], once the gist is fetched, answers [True] exactly when
    the text of the file is not the text of the first file of the gist
    and the diff of the two is not empty.  It compares the lists of
    lines, which are equal only for equal texts.  In every case the row
    of the file holds the id and the address of the answer.  For equal
    texts the one line printed says so; for texts that differ with an
    empty diff nothing is printed at all. *)
Theorem show_diff_compares_texts
        (unified_diff : list string -> list string -> string -> string -> list string)
        (p : Path) (i text : string) (w : world)
        (response : GitHub.response) (s : GitHub.state) (g : GitHub.gist) :
  disk w !! p = Some text ->
  GitHub.exchange (GitHub.GET (gist_url i)) (github w) = (inr response, s) ->
  is_error_status (GitHub.status_code response) = false ->
  GitHub.body response = Some (GitHub.JGist g) ->
  let remote := snd (GitHub.g_first g) in
  let diff_text :=
    Py.join (unified_diff (Py.splitlines true remote) (Py.splitlines true text)
                          (p +:+ " (gist)") (p +:+ " (local)")) in
  let w' := snd (show_diff unified_diff p i w) in
  fst (show_diff unified_diff p i w)
  = Ok (negb (bool_decide (text = remote)) && Py.truthy diff_text)
  /\ tracked_rows w' !! Path_name p
     = Some {| gist_id := GitHub.g_id g; url := GitHub.g_html_url g |}
  /\ (text = remote ->
      trace w' = trace w ++ [Http (GitHub.GET (gist_url i)); line (p +:+ ": No changes")])
  /\ (text <> remote -> diff_text = "" ->
      trace w' = trace w ++ [Http (GitHub.GET (gist_url i))]).
Proof.
  intros Hdisk Hex Hstatus Hbody remote diff_text w'.
  pose proof (show_diff_fetched unified_diff _ _ _ _ _ _ _ Hdisk Hex Hstatus Hbody)
    as Hshow.
  cbv zeta in Hshow. fold remote in Hshow. fold diff_text in Hshow.
  subst w'. rewrite Hshow. clear Hshow.
  assert (Hrow : tracked_rows (fetched p i g s w) !! Path_name p
                 = Some {| gist_id := GitHub.g_id g; url := GitHub.g_html_url g |})
    by apply saved_row.
  destruct (bool_decide (Py.splitlines true text = Py.splitlines true remote)) eqn:Hsame.
  - apply bool_decide_eq_true_1, splitlines_inj in Hsame.
    rewrite (bool_decide_eq_true_2 _ Hsame). cbn [negb andb].
    split; [reflexivity|]. split; [exact Hrow|]. split; [|contradiction].
    intros _. cbn. now rewrite <- app_assoc.
  - apply bool_decide_eq_false_1 in Hsame.
    assert (Hne : text <> remote) by (intros ->; now apply Hsame).
    rewrite (bool_decide_eq_false_2 _ Hne). cbn [negb andb].
    destruct (Py.truthy diff_text) eqn:Htruthy.
    + split; [reflexivity|]. split; [exact Hrow|]. split; [contradiction|].
      intros _ Hempty. rewrite Hempty in Htruthy. discriminate.
    + split; [reflexivity|]. split; [exact Hrow|]. split; [contradiction|].
      reflexivity.
Qed.

Lemma show_diff_compares_texts_witness :
  fst (show_diff Sample.unified_diff "a.py" "X" (Sample.tracked_a "print(0)"))
  = Ok true.
Proof.
  destruct (show_diff_compares_texts
              Sample.unified_diff "a.py" "X" "print(1)" (Sample.tracked_a "print(0)")
              (GitHub.answer (gist_url "X") 200 "OK"
                             (Some (GitHub.JGist (Sample.gist_X "a.py" "print(0)"))))
              (github (Sample.tracked_a "print(0)"))
              (Sample.gist_X "a.py" "print(0)"))
    as (Hanswer & _); [reflexivity..|].
  rewrite Hanswer. reflexivity.
Defined.

Lemma get_gist_content_run (gist_id : string) (w : world) :
  get_gist_content gist_id w
  = match GitHub.exchange (GitHub.GET (gist_url gist_id)) (github w) with
    | (inl msg, s) =>
        (Raise (RequestException msg),
         with_github s
           (with_trace (trace w ++ [Http (GitHub.GET (gist_url gist_id))]) w))
    | (inr response, s) =>
        (raise_for_status response ;;
         gist <- json_gist response ;;
         ret (snd (GitHub.g_first gist)))
          (with_github s
             (with_trace (trace w ++ [Http (GitHub.GET (gist_url gist_id))]) w))
    end.
Proof.
  unfold get_gist_content. unfold bind at 1.
  unfold requests_get, requests_send. unfold bind at 1. unfold emit at 1.
  cbn [github with_trace]. fold (gist_url gist_id).
  now destruct (GitHub.exchange _ _) as [[msg|response] s].
Qed.

(** X11. [get_gist_content] sends the one request for the gist and
    touches nothing else: not the files, not the mapping file (which the
    fetch of [show_diff] writes), not the gists of the service.  It
    returns the text of the first file of the gist [gist_id] of the
    service; when it does not return it raises a request exception. *)
Theorem get_gist_content_contract (gist_id : string) (w : world) :
  let w' := snd (get_gist_content gist_id w) in
  trace w' = trace w ++ [Http (GitHub.GET (gist_url gist_id))]
  /\ disk w' = disk w
  /\ gists_toml w' = gists_toml w
  /\ gistignore w' = gistignore w
  /\ stdin w' = stdin w
  /\ GitHub.gists (github w') = GitHub.gists (github w)
  /\ match fst (get_gist_content gist_id w) with
     | Ok text =>
         exists g : GitHub.gist,
           GitHub.find gist_id (GitHub.gists (github w)) = Some g
           /\ text = snd (GitHub.g_first g)
     | Raise e => is_RequestException e = true
     | Hang => False
     end.
Proof.
  intros w'. subst w'. rewrite get_gist_content_run.
  pose proof (exchange_gists (GitHub.GET (gist_url gist_id)) (github w)) as Hgists.
  cbv zeta in Hgists.
  destruct (GitHub.exchange (GitHub.GET (gist_url gist_id)) (github w))
    as [[msg|response] s] eqn:Hex; cbn [snd] in Hgists.
  { cbn. repeat split; try reflexivity.
    destruct Hgists as [[H _] | [(u & i & d & g & H & _) | (u & d & H & _)]];
      [exact H|discriminate..]. }
  assert (Hs : GitHub.gists s = GitHub.gists (github w)).
  { destruct Hgists as [[H _] | [(u & i & d & g & H & _) | (u & d & H & _)]];
      [exact H|discriminate..]. }
  destruct (is_error_status (GitHub.status_code response)) eqn:Hstatus.
  { destruct (raise_for_status_error
                response
                (with_github s
                   (with_trace (trace w ++ [Http (GitHub.GET (gist_url gist_id))]) w))
                Hstatus) as [msg E].
    unfold bind. rewrite E. cbn. repeat split; try reflexivity. exact Hs. }
  unfold bind. rewrite (raise_for_status_ok _ _ Hstatus).
  unfold json_gist.
  destruct (GitHub.body response) as [[gs|g]|] eqn:Hbody.
  - exfalso. exact (exchange_get_no_list _ _ _ _ gs Hex Hbody).
  - cbn. repeat split; try reflexivity; [exact Hs|].
    destruct (exchange_answer _ _ _ _ _ Hex Hbody) as (s0 & Hg0 & _ & Hserve).
    rewrite serve_get, Hg0 in Hserve.
    destruct (GitHub.find gist_id (GitHub.gists (github w))) as [g1|];
      [|injection Hserve as <- <-; discriminate].
    injection Hserve as <- <-. cbn in Hbody. injection Hbody as ->.
    now exists g.
  - cbn. repeat split; try reflexivity. exact Hs.
Qed.

(** ** Which files are scripts *)

Lemma startswith_app (s p q : string) :
  Py.startswith s (p +:+ q) = true -> Py.startswith s p = true.
Proof.
  unfold Py.startswith. revert s.
  induction p as [|a p IH]; intros s; [reflexivity|].
  rewrite append_cons. destruct s as [|b s]; [discriminate|].
  cbn [Py.after_prefix]. destruct (bool_decide (a = b)); [apply IH|discriminate].
Qed.

(** X12. [is_script] always answers, and leaves the world as it is.  Its
    answer: the suffix of the name is, in lower case, one of [.py], [.sh]
    and [.rb]; or the file is executable; or its first line, stripped,
    starts with [#!].  The test for [#!/usr/bin/env] never decides, and a
    file that cannot be read is no script. *)
Theorem is_script_answer (access_X_OK : Path -> bool) (path : Path) (w : world) :
  is_script access_X_OK path w
  = (Ok (bool_decide (Py.lower_str (Path_suffix path) ∈ [".py"; ".sh"; ".rb"])
         || access_X_OK path
         || match disk w !! path with
            | Some text => Py.startswith (Py.strip (Py.readline text)) "#!"
            | None => false
            end), w).
Proof.
  unfold is_script.
  destruct (bool_decide _); [reflexivity|].
  destruct (access_X_OK path); [reflexivity|].
  cbn [orb]. unfold try, bind, read_text.
  destruct (disk w !! path) as [text|]; [|reflexivity].
  unfold ret. do 2 f_equal.
  destruct (Py.startswith (Py.strip (Py.readline text)) "#!/usr/bin/env") eqn:Henv;
    [|reflexivity].
  cbn [orb]. symmetry.
  apply (startswith_app _ "#!" "/usr/bin/env"). exact Henv.
Qed.

Lemma no_dot_in_lower (s : string) :
  from_last_dot (Py.lower_str s) = None -> from_last_dot s = None.
Proof.
  induction s as [|c s IH]; [reflexivity|].
  cbn [Py.lower_str from_last_dot].
  destruct (from_last_dot (Py.lower_str s)); [discriminate|].
  rewrite IH by reflexivity.
  destruct (bool_decide (c = "."%char)) eqn:Hc; [|reflexivity].
  apply bool_decide_eq_true_1 in Hc. subst c. discriminate.
Qed.

Lemma from_last_dot_app (stem ext : string) :
  from_last_dot ext = None ->
  from_last_dot (stem +:+ String "." ext) = Some (String "." ext).
Proof.
  intros Hext. induction stem as [|c stem IH].
  - rewrite append_empty_l. cbn [from_last_dot]. now rewrite Hext.
  - rewrite append_cons. cbn [from_last_dot]. now rewrite IH.
Qed.

(** X13. A file named [stem.ext], with a stem that is not empty and an
    extension that is [py], [sh] or [rb] in any mix of upper and lower
    case, is a script: whatever it holds, executable or not, even when it
    is not there to be read. *)
Theorem script_by_extension (access_X_OK : Path -> bool) (path : Path)
        (stem ext : string) (w : world) :
  Path_name path = stem +:+ "." +:+ ext ->
  stem <> "" ->
  Py.lower_str ext ∈ ["py"; "sh"; "rb"] ->
  Path_suffix path = "." +:+ ext
  /\ is_script access_X_OK path w = (Ok true, w).
Proof.
  intros Hname Hstem Hext.
  assert (Hdot : from_last_dot ext = None).
  { apply no_dot_in_lower.
    rewrite !elem_of_cons in Hext.
    destruct Hext as [-> | [-> | [-> | Hnil]]]; [reflexivity..|].
    now apply elem_of_nil in Hnil. }
  assert (Hsuffix : Path_suffix path = String "." ext).
  { unfold Path_suffix. rewrite Hname.
    destruct stem as [|c0 stem]; [contradiction|].
    rewrite append_cons, (append_cons "." "" ext), append_empty_l.
    rewrite (from_last_dot_app stem ext Hdot).
    destruct ext as [|c t]; [|reflexivity].
    rewrite !elem_of_cons in Hext.
    destruct Hext as [H | [H | [H | H]]]; [discriminate..|].
    now apply elem_of_nil in H. }
  split; [now rewrite Hsuffix, append_cons, append_empty_l|].
  unfold is_script. rewrite Hsuffix. cbn [Py.lower_str].
  change (Py.lower ".") with "."%char.
  rewrite bool_decide_eq_true_2; [reflexivity|].
  rewrite !elem_of_cons in Hext. rewrite !elem_of_cons.
  destruct Hext as [-> | [-> | [-> | Hnil]]]; [auto..|].
  now apply elem_of_nil in Hnil.
Qed.

Lemma script_by_extension_witness :
  is_script (fun _ => false) "bin/Tool.PY" Sample.blank = (Ok true, Sample.blank).
Proof.
  apply (script_by_extension (fun _ => false) "bin/Tool.PY" "Tool" "PY" Sample.blank).
  - reflexivity.
  - discriminate.
  - rewrite !elem_of_cons. left. reflexivity.
Defined.

(** ** What a run may touch

    A property of the world is kept by a whole run when it is kept by the
    steps the options of the run allow: printing; the listing; the fetch
    of a gist, in diff mode; the write for a candidate file, outside a
    dry run; the save of a row, outside a dry run or in diff mode; the
    reading of a key and the writing of the ignore file, when both
    [--create-new] and [--interactive] are given. *)

Section Footprint.

Variable path_match : Path -> string -> bool.
Variable unified_diff :
  list string -> list string -> string -> string -> list string.

Variable a : args.
Variable I : world -> Prop.

(** The maps of known gists the loop may be given, and the ids
    [sync_to_gist] may then be called with for a file. *)
Variable maps : gmap string string -> Prop.
Variable allowed : Path -> option string -> Prop.

Hypothesis allowed_known :
  forall (m : gmap string string) (q : Path) (i : string),
    maps m -> q ∈ a_files a ->
    truthy_id (m !! Path_name q) = Some i -> allowed q (m !! Path_name q).
Hypothesis allowed_new :
  forall (m : gmap string string) (q : Path),
    maps m -> q ∈ a_files a ->
    truthy_id (m !! Path_name q) = None -> a_create_new a = true ->
    allowed q None.

Hypothesis I_print :
  forall (text : string) (w : world),
    I w -> I (with_trace (trace w ++ [Print text]) w).
Hypothesis I_list :
  forall w : world, I w -> I (snd (requests_send (GitHub.GET GIST_API_URL) w)).
Hypothesis I_fetch :
  a_diff a = true ->
  forall (q : Path) (i : string) (w : world),
    q ∈ a_files a -> allowed q (Some i) -> i <> "" ->
    I w -> I (snd (requests_send (GitHub.GET (gist_url i)) w)).
Hypothesis I_write :
  a_dry_run a = false ->
  forall (q : Path) (gist_id : option string) (text : string) (w : world),
    q ∈ a_files a -> disk w !! q = Some text ->
    allowed q gist_id ->
    I w -> I (snd (requests_send (sync_request q gist_id text) w)).
Hypothesis I_saved :
  a_dry_run a = false \/ a_diff a = true ->
  forall (q : Path) (i u : string) (w : world),
    q ∈ a_files a -> I w -> I (saved q i u w).
Hypothesis I_key :
  a_create_new a = true -> a_interactive a = true ->
  forall (keys : string) (w : world), I w -> I (with_stdin keys w).
Hypothesis I_ignore :
  a_create_new a = true -> a_interactive a = true ->
  forall (q : Path) (w : world),
    q ∈ a_files a ->
    I w -> I (with_gistignore (default "" (gistignore w) +:+ Path_name q +:+ NL) w).

Lemma step_bind {A B} (m : M A) (k : A -> M B) (w : world) :
  I (snd (m w)) ->
  (forall (x : A) (w' : world), m w = (Ok x, w') -> I w' -> I (snd (k x w'))) ->
  I (snd (bind m k w)).
Proof.
  intros Hm Hk. unfold bind.
  destruct (m w) as [[x|e|] w'] eqn:E; cbn [snd] in *;
    [now apply (Hk x w')|assumption..].
Qed.

Lemma footprint_print (text : string) : keeps I (print text).
Proof. intros w H. exact (I_print _ w H). Qed.

Lemma footprint_print_end (text : string) : keeps I (print_end text).
Proof. intros w H. exact (I_print _ w H). Qed.

Lemma footprint_sync_to_gist (q : Path) (gist_id : option string) :
  q ∈ a_files a ->
  allowed q gist_id ->
  keeps I (sync_to_gist q gist_id (a_dry_run a)).
Proof.
  intros Hq Hnew w HI. unfold sync_to_gist.
  apply step_bind. { unfold read_text. now destruct (disk w !! q). }
  intros content w0 Hread _. unfold read_text in Hread.
  destruct (disk w !! q) as [text|] eqn:Hdisk; [|discriminate].
  injection Hread as <- <-.
  case_eq (a_dry_run a); intros Hdry; [now apply footprint_print|].
  apply step_bind; [now apply footprint_print_end|].
  intros [] w1 Hp HI1. injection Hp as <-.
  apply step_bind.
  { pose proof (fun Hd => I_write Hdry q gist_id text _ Hq Hd Hnew HI1) as H.
    specialize (H Hdisk).
    unfold sync_request in H. now destruct (truthy_id gist_id). }
  intros response w2 _ HI2. revert w2 HI2. apply keeps_try.
  - apply keeps_bind; [apply keeps_raise_for_status|]. intros _.
    apply keeps_bind; [apply keeps_json_gist|]. intros result.
    apply keeps_bind; [apply footprint_print|]. intros _.
    apply keeps_bind; [apply footprint_print|]. intros _.
    cbn [negb]. intros w2 HI2. apply I_saved; auto.
  - intros e h. destruct e; try discriminate. intros [= <-].
    apply keeps_bind; [apply footprint_print|]. intros _.
    destruct (status =? 403); [|apply keeps_raise].
    repeat (apply keeps_bind; [apply footprint_print|]; intros _).
    apply keeps_raise.
Qed.

Lemma footprint_prompt_loop (q : Path) (keys : string) :
  a_create_new a = true -> a_interactive a = true ->
  q ∈ a_files a -> allowed q None ->
  keeps I (prompt_loop q (a_dry_run a) keys).
Proof.
  intros Hnew Hint Hq Hnone. induction keys as [|ch keys IH]; cbn [prompt_loop].
  - apply keeps_bind; [apply footprint_print|]. intros _.
    apply keeps_bind; [apply footprint_print_end|]. intros _.
    now intros w H.
  - apply keeps_bind; [apply footprint_print|]. intros _.
    apply keeps_bind; [apply footprint_print_end|]. intros _.
    apply keeps_bind; [intros w H; now apply I_key|]. intros _.
    apply keeps_bind; [apply footprint_print|]. intros _.
    destruct (bool_decide _); [apply keeps_ret|].
    destruct (bool_decide _).
    { apply keeps_bind; [apply footprint_print|]. intros _. apply keeps_ret. }
    destruct (bool_decide _).
    { apply keeps_bind; [intros w H; now apply I_ignore|]. intros _.
      apply keeps_bind; [apply footprint_print|]. intros _. apply keeps_ret. }
    destruct (bool_decide _); [|exact IH].
    apply keeps_bind; [now apply footprint_sync_to_gist|]. intros _. apply keeps_ret.
Qed.

Lemma footprint_show_diff (q : Path) (i : string) :
  a_diff a = true -> i <> "" -> q ∈ a_files a -> allowed q (Some i) ->
  keeps I (show_diff unified_diff q i).
Proof.
  intros Hdiff Hi Hq Hknown. unfold show_diff.
  apply keeps_bind; [apply keeps_read_text|]. intros text.
  apply keeps_bind.
  - apply keeps_try.
    + apply keeps_bind; [intros w H; now apply (I_fetch Hdiff q)|]. intros response.
      apply keeps_bind; [apply keeps_raise_for_status|]. intros _.
      apply keeps_bind; [apply keeps_json_gist|]. intros gist.
      apply keeps_bind; [intros w H; apply I_saved; auto|]. intros _.
      apply keeps_ret.
    + intros e h. destruct (is_RequestException e); [|discriminate].
      intros [= <-].
      apply keeps_bind; [apply footprint_print|]. intros _. apply keeps_ret.
  - intros [remote_content|]; [|apply keeps_ret].
    destruct (bool_decide _).
    { apply keeps_bind; [apply footprint_print|]. intros _. apply keeps_ret. }
    destruct (Py.truthy _); [|apply keeps_ret].
    apply keeps_bind; [apply footprint_print|]. intros _.
    apply keeps_bind; [apply footprint_print|]. intros _. apply keeps_ret.
Qed.

Lemma footprint_sync_file (existing_gists : gmap string string)
      (excluded : gset string) (q : Path) :
  maps existing_gists ->
  q ∈ a_files a ->
  keeps I (sync_file path_match unified_diff existing_gists excluded
                     (a_create_new a) (a_dry_run a) (a_interactive a) (a_diff a) q).
Proof.
  intros Hmap Hq. unfold sync_file.
  apply keeps_bind; [apply keeps_pure|]. intros isf.
  destruct (negb isf).
  { apply keeps_bind; [apply footprint_print|]. intros _. apply keeps_ret. }
  destruct (truthy_id _) as [i|] eqn:Hid.
  - assert (Hupdate : keeps I (sync_to_gist q (existing_gists !! Path_name q)
                                            (a_dry_run a) ;; ret Next)).
    { apply keeps_bind; [|intros _; apply keeps_ret].
      apply footprint_sync_to_gist; [exact Hq|].
      now apply (allowed_known existing_gists q i). }
    case_eq (a_diff a); intros Hdiff; [|exact Hupdate].
    apply keeps_bind.
    { pose proof (allowed_known existing_gists q i Hmap Hq Hid) as Hknown.
      apply truthy_id_inv in Hid as [Hrow Hne]. rewrite Hrow in Hknown.
      now apply footprint_show_diff. }
    intros has_changes. destruct (negb has_changes); [apply keeps_ret|exact Hupdate].
  - case_eq (a_create_new a); intros Hnew.
    + destruct (should_sync_file _ _ _); [|apply keeps_ret].
      case_eq (a_interactive a); intros Hint.
      * apply keeps_bind.
        { intros w H. unfold interactive_sync.
          apply footprint_prompt_loop; try assumption.
          now apply (allowed_new existing_gists q). }
        intros go_on. destruct (negb go_on); [|apply keeps_ret].
        apply keeps_bind; [apply footprint_print|]. intros _. apply keeps_ret.
      * apply keeps_bind; [|intros _; apply keeps_ret].
        apply footprint_sync_to_gist; [exact Hq|].
        now apply (allowed_new existing_gists q).
    + apply keeps_bind; [apply footprint_print|]. intros _. apply keeps_ret.
Qed.

Lemma footprint_for_each (body : Path -> M signal) (files : list Path) :
  (forall q : Path, q ∈ files -> keeps I (body q)) ->
  keeps I (for_each body files).
Proof.
  induction files as [|q files IH]; intros Hbody; cbn [for_each].
  - apply keeps_ret.
  - apply keeps_bind; [apply Hbody; left|].
    intros [|]; [|apply keeps_ret].
    apply IH. intros q' Hq'. apply Hbody. now right.
Qed.

Lemma footprint_load : keeps I load_gist_mappings.
Proof.
  intros w H. unfold load_gist_mappings.
  destruct (gists_toml w) as [data|]; [|exact H].
  revert w H. apply keeps_bind; [|intros _; apply keeps_ret].
  destruct (bool_decide _); [apply keeps_ret|apply footprint_print].
Qed.

Lemma footprint_merged_gists (tracked : gmap string string) :
  keeps I (merged_gists tracked).
Proof.
  unfold merged_gists. apply keeps_try.
  - apply keeps_bind; [|intros api; apply keeps_ret].
    unfold get_existing_gists.
    apply keeps_bind; [intros w H; now apply I_list|]. intros response.
    apply keeps_bind; [apply keeps_raise_for_status|]. intros _.
    apply keeps_bind; [apply keeps_json_gists|]. intros gists.
    apply keeps_ret.
  - intros e h. destruct (is_RequestException e); [|discriminate].
    intros [= <-].
    apply keeps_bind; [apply footprint_print|]. intros _. apply keeps_ret.
Qed.

Lemma footprint_loop (existing_gists : gmap string string) :
  maps existing_gists ->
  keeps I (sync_files_to_gists path_match unified_diff (a_files a) existing_gists
                               (a_create_new a) (a_dry_run a) (a_interactive a)
                               (a_diff a)).
Proof.
  intros Hmap. unfold sync_files_to_gists.
  apply keeps_bind.
  { case_eq (a_create_new a); intros _; [|apply keeps_ret].
    intros w H. unfold get_excluded_patterns. now destruct (gistignore w). }
  intros excluded.
  apply keeps_bind; [|intros _; apply keeps_ret].
  apply footprint_for_each. intros q Hq. now apply footprint_sync_file.
Qed.

Lemma footprint_main :
  (forall m : gmap string string, maps m) ->
  keeps I (main path_match unified_diff a).
Proof.
  intros Hmaps. unfold main.
  apply keeps_bind; [apply keeps_pure|]. intros github_token.
  destruct (truthy_id github_token); [|apply keeps_raise].
  apply keeps_bind; [apply footprint_load|]. intros tracked.
  apply keeps_bind; [apply footprint_merged_gists|]. intros existing.
  apply keeps_bind; [now apply footprint_loop|].
  intros _. case_eq (negb (a_dry_run a)); intros _;
    [apply footprint_print|apply keeps_ret].
Qed.

End Footprint.

(** The same for a property that does not depend on the map of known
    gists: a write without an id needs [--create-new]. *)
Lemma footprint_run
      (path_match : Path -> string -> bool)
      (unified_diff : list string -> list string -> string -> string -> list string)
      (a : args) (I : world -> Prop) :
  (forall (text : string) (w : world),
      I w -> I (with_trace (trace w ++ [Print text]) w)) ->
  (forall w : world, I w -> I (snd (requests_send (GitHub.GET GIST_API_URL) w))) ->
  (a_diff a = true ->
   forall (i : string) (w : world),
     i <> "" -> I w -> I (snd (requests_send (GitHub.GET (gist_url i)) w))) ->
  (a_dry_run a = false ->
   forall (q : Path) (gist_id : option string) (text : string) (w : world),
     q ∈ a_files a -> disk w !! q = Some text ->
     (truthy_id gist_id = None -> a_create_new a = true) ->
     I w -> I (snd (requests_send (sync_request q gist_id text) w))) ->
  (a_dry_run a = false \/ a_diff a = true ->
   forall (q : Path) (i u : string) (w : world),
     q ∈ a_files a -> I w -> I (saved q i u w)) ->
  (a_create_new a = true -> a_interactive a = true ->
   forall (keys : string) (w : world), I w -> I (with_stdin keys w)) ->
  (a_create_new a = true -> a_interactive a = true ->
   forall (q : Path) (w : world),
     q ∈ a_files a ->
     I w -> I (with_gistignore (default "" (gistignore w) +:+ Path_name q +:+ NL) w)) ->
  keeps I (main path_match unified_diff a).
Proof.
  intros Hprint Hlist Hfetch Hwrite Hsaved Hkey Hignore.
  apply (footprint_main
           path_match unified_diff a I (fun _ => True)
           (fun _ gist_id => truthy_id gist_id = None -> a_create_new a = true));
    try assumption.
  - intros m q i _ _ Hid Hnone. congruence.
  - intros m q _ _ _ Hnew _. exact Hnew.
  - intros Hdiff q i w _ _. now apply Hfetch.
  - intros m. exact Logic.I.
Qed.

Lemma requests_send_world (r : GitHub.request) (w : world) :
  snd (requests_send r w)
  = with_github (snd (GitHub.exchange r (github w)))
                (with_trace (trace w ++ [Http r]) w).
Proof.
  unfold requests_send, bind, emit. cbn [github with_trace].
  now destruct (GitHub.exchange r (github w)) as [[msg|response] s].
Qed.

Lemma exchange_get_gists (u : string) (s : GitHub.state) :
  GitHub.gists (snd (GitHub.exchange (GitHub.GET u) s)) = GitHub.gists s
  /\ GitHub.next_id (snd (GitHub.exchange (GitHub.GET u) s)) = GitHub.next_id s.
Proof.
  destruct (exchange_gists (GitHub.GET u) s)
    as [H | [(u' & i & d & g & H & _) | (u' & d & H & _)]];
    [exact H|discriminate..].
Qed.

Lemma exchange_patch_ids (u : string) (d : GitHub.gist_data) (s : GitHub.state) :
  map GitHub.g_id (GitHub.gists (snd (GitHub.exchange (GitHub.PATCH u d) s)))
  = map GitHub.g_id (GitHub.gists s)
  /\ GitHub.next_id (snd (GitHub.exchange (GitHub.PATCH u d) s)) = GitHub.next_id s.
Proof.
  destruct (exchange_gists (GitHub.PATCH u d) s)
    as [[Hg Hn] | [(u' & i & d' & g & _ & Hfind & Hg & Hn) | (u' & d' & H & _)]];
    cbv zeta in *; [now rewrite Hg| |discriminate].
  split; [|exact Hn]. rewrite Hg. apply replace_ids.
  rewrite patched_id. now apply find_Some in Hfind.
Qed.

Lemma trace_grows (P : event -> Prop) (w x : world) (e : event) :
  (exists more : list event, trace x = trace w ++ more /\ Forall P more) ->
  P e ->
  exists more : list event, (trace x ++ [e]) = trace w ++ more /\ Forall P more.
Proof.
  intros (more & -> & Hall) He. exists (more ++ [e]).
  split; [now rewrite app_assoc|].
  apply Forall_app. split; [exact Hall|]. now constructor.
Qed.

(** X14. A dry run writes no gist.  Whatever the other options, the run
    sends no update and no creation, and the gists of the service are
    what they were.  Without [--diff] the mapping file is left as it was
    as well; with it the rows of the gists fetched are still saved. *)
Theorem dry_run_writes_no_gist
        (path_match : Path -> string -> bool)
        (unified_diff : list string -> list string -> string -> string -> list string)
        (a : args) (w : world) :
  a_dry_run a = true ->
  let w' := snd (main path_match unified_diff a w) in
  (exists more : list event,
      trace w' = trace w ++ more /\ Forall (fun e => is_write e = false) more)
  /\ GitHub.gists (github w') = GitHub.gists (github w)
  /\ GitHub.next_id (github w') = GitHub.next_id (github w)
  /\ (a_diff a = false -> gists_toml w' = gists_toml w).
Proof.
  intros Hdry w'.
  apply (footprint_run
           path_match unified_diff a
           (fun x =>
              (exists more : list event,
                  trace x = trace w ++ more /\ Forall (fun e => is_write e = false) more)
              /\ GitHub.gists (github x) = GitHub.gists (github w)
              /\ GitHub.next_id (github x) = GitHub.next_id (github w)
              /\ (a_diff a = false -> gists_toml x = gists_toml w))).
  - intros text x (Ht & Hrest). split; [|exact Hrest]. now apply trace_grows.
  - intros x (Ht & Hg & Hn & Hm). rewrite requests_send_world.
    destruct (exchange_get_gists GIST_API_URL (github x)) as [Hg' Hn'].
    split; [now apply trace_grows|]. cbn [github with_github gists_toml].
    rewrite Hg', Hn'. now repeat split.
  - intros _ i x _ (Ht & Hg & Hn & Hm). rewrite requests_send_world.
    destruct (exchange_get_gists (gist_url i) (github x)) as [Hg' Hn'].
    split; [now apply trace_grows|]. cbn [github with_github gists_toml].
    rewrite Hg', Hn'. now repeat split.
  - intros Hfalse. congruence.
  - intros [Hfalse | Hdiff]; [congruence|].
    intros q i u x _ (Ht & Hg & Hn & Hm).
    split; [exact Ht|]. split; [exact Hg|]. split; [exact Hn|].
    intros Hno. congruence.
  - intros _ _ keys x H. exact H.
  - intros _ _ q x _ H. exact H.
  - split; [exists []; split; [now rewrite app_nil_r|constructor]|].
    now repeat split.
Qed.

Lemma dry_run_writes_no_gist_witness :
  GitHub.gists
    (github (snd (main Sample.path_match Sample.unified_diff
                       {| a_files := ["a.py"]; a_dry_run := true;
                          a_create_new := true; a_interactive := false;
                          a_diff := true |}
                       (Sample.tracked_a "print(0)"))))
  = GitHub.gists (github (Sample.tracked_a "print(0)")).
Proof.
  destruct (dry_run_writes_no_gist
              Sample.path_match Sample.unified_diff
              {| a_files := ["a.py"]; a_dry_run := true;
                 a_create_new := true; a_interactive := false;
                 a_diff := true |}
              (Sample.tracked_a "print(0)") eq_refl) as (_ & Hgists & _).
  exact Hgists.
Defined.

(** X15. Without [--create-new] a run creates no gist: it sends no
    creation, and the service has the gists it had, by id and in order
    (an update keeps the id of the gist it writes). *)
Theorem no_flag_no_new_gist
        (path_match : Path -> string -> bool)
        (unified_diff : list string -> list string -> string -> string -> list string)
        (a : args) (w : world) :
  a_create_new a = false ->
  let w' := snd (main path_match unified_diff a w) in
  (exists more : list event,
      trace w' = trace w ++ more /\ Forall (fun e => is_creation e = false) more)
  /\ map GitHub.g_id (GitHub.gists (github w'))
     = map GitHub.g_id (GitHub.gists (github w))
  /\ GitHub.next_id (github w') = GitHub.next_id (github w).
Proof.
  intros Hflag w'.
  apply (footprint_run
           path_match unified_diff a
           (fun x =>
              (exists more : list event,
                  trace x = trace w ++ more
                  /\ Forall (fun e => is_creation e = false) more)
              /\ map GitHub.g_id (GitHub.gists (github x))
                 = map GitHub.g_id (GitHub.gists (github w))
              /\ GitHub.next_id (github x) = GitHub.next_id (github w))).
  - intros text x (Ht & Hrest). split; [|exact Hrest]. now apply trace_grows.
  - intros x (Ht & Hg & Hn). rewrite requests_send_world.
    destruct (exchange_get_gists GIST_API_URL (github x)) as [Hg' Hn'].
    split; [now apply trace_grows|]. cbn [github with_github].
    now rewrite Hg', Hn'.
  - intros _ i x _ (Ht & Hg & Hn). rewrite requests_send_world.
    destruct (exchange_get_gists (gist_url i) (github x)) as [Hg' Hn'].
    split; [now apply trace_grows|]. cbn [github with_github].
    now rewrite Hg', Hn'.
  - intros _ q gist_id text x _ _ Hnew (Ht & Hg & Hn).
    unfold sync_request.
    destruct (truthy_id gist_id) as [i|]; [|specialize (Hnew eq_refl); congruence].
    rewrite requests_send_world.
    match goal with
    | |- context [GitHub.exchange (GitHub.PATCH ?u ?d) _] =>
        destruct (exchange_patch_ids u d (github x)) as [Hg' Hn']
    end.
    split; [now apply trace_grows|]. cbn [github with_github].
    now rewrite Hg', Hn'.
  - intros _ q i u x _ H. exact H.
  - intros Htrue. congruence.
  - intros Htrue. congruence.
  - split; [exists []; split; [now rewrite app_nil_r|constructor]|].
    now split.
Qed.

Lemma no_flag_no_new_gist_witness :
  GitHub.next_id
    (github (snd (main Sample.path_match Sample.unified_diff
                       {| a_files := ["a.py"; "b.sh"]; a_dry_run := false;
                          a_create_new := false; a_interactive := true;
                          a_diff := false |}
                       (Sample.tracked_a "print(0)"))))
  = 1%N.
Proof.
  destruct (no_flag_no_new_gist
              Sample.path_match Sample.unified_diff
              {| a_files := ["a.py"; "b.sh"]; a_dry_run := false;
                 a_create_new := false; a_interactive := true;
                 a_diff := false |}
              (Sample.tracked_a "print(0)") eq_refl) as (_ & _ & Hnext).
  exact Hnext.
Defined.

(** X16. The keys of the operator are read, and the ignore file is
    written, only by a run with both [--create-new] and [--interactive]:
    any other run leaves both as they were. *)
Theorem keys_are_read_only_when_asked
        (path_match : Path -> string -> bool)
        (unified_diff : list string -> list string -> string -> string -> list string)
        (a : args) (w : world) :
  a_create_new a && a_interactive a = false ->
  let w' := snd (main path_match unified_diff a w) in
  stdin w' = stdin w /\ gistignore w' = gistignore w.
Proof.
  intros Hflags w'.
  apply (footprint_run
           path_match unified_diff a
           (fun x => stdin x = stdin w /\ gistignore x = gistignore w)).
  - intros text x H. exact H.
  - intros x H. rewrite requests_send_world. exact H.
  - intros _ i x _ H. rewrite requests_send_world. exact H.
  - intros _ q gist_id text x _ _ _ H. rewrite requests_send_world. exact H.
  - intros _ q i u x _ H. exact H.
  - intros Hnew Hint. rewrite Hnew, Hint in Hflags. discriminate.
  - intros Hnew Hint. rewrite Hnew, Hint in Hflags. discriminate.
  - now split.
Qed.

Lemma keys_are_read_only_when_asked_witness :
  stdin (snd (main Sample.path_match Sample.unified_diff
                   (Sample.create_all ["a.py"; "b.py"; "c.py"]) Sample.three_new))
  = "uq".
Proof.
  destruct (keys_are_read_only_when_asked
              Sample.path_match Sample.unified_diff
              (Sample.create_all ["a.py"; "b.py"; "c.py"]) Sample.three_new eq_refl)
    as (Hkeys & _).
  exact Hkeys.
Defined.

(** X17. The traffic of a run.  The files are never written.  Every
    request of the run is the listing, the fetch of a gist, the update
    of a gist or the creation of one; an update and a creation carry one
    file, a candidate of the run, under its base name and with the text
    it has on disk, and ask for a secret gist. *)
Theorem run_traffic
        (path_match : Path -> string -> bool)
        (unified_diff : list string -> list string -> string -> string -> list string)
        (a : args) (w : world) :
  let w' := snd (main path_match unified_diff a w) in
  disk w' = disk w
  /\ exists more : list event,
      trace w' = trace w ++ more /\ Forall (expected (a_files a) (disk w)) more.
Proof.
  intros w'.
  apply (footprint_run
           path_match unified_diff a
           (fun x =>
              disk x = disk w
              /\ exists more : list event,
                  trace x = trace w ++ more
                  /\ Forall (expected (a_files a) (disk w)) more)).
  - intros text x (Hd & Ht). split; [exact Hd|]. now apply trace_grows.
  - intros x (Hd & Ht). rewrite requests_send_world.
    split; [exact Hd|]. apply trace_grows; [exact Ht|]. now left.
  - intros _ i x Hi (Hd & Ht). rewrite requests_send_world.
    split; [exact Hd|]. apply trace_grows; [exact Ht|]. right. now exists i.
  - intros _ q gist_id text x Hq Hdisk _ (Hd & Ht). rewrite requests_send_world.
    split; [exact Hd|]. apply trace_grows; [exact Ht|].
    assert (Hcarries :
              carries (a_files a) (disk w)
                      {| GitHub.d_description := "Auto-synced gist for " +:+ Path_name q;
                         GitHub.d_public := false;
                         GitHub.d_file_name := Path_name q;
                         GitHub.d_content := text |}).
    { split; [reflexivity|]. exists q. rewrite <- Hd. now repeat split. }
    unfold sync_request. destruct (truthy_id gist_id) as [i|] eqn:Hid.
    + split; [|exact Hcarries]. exists i. split; [|reflexivity].
      now apply truthy_id_inv in Hid.
    + now split.
  - intros _ q i u x _ H. exact H.
  - intros _ _ keys x H. exact H.
  - intros _ _ q x _ H. exact H.
  - split; [reflexivity|]. exists []. split; [now rewrite app_nil_r|constructor].
Qed.

(** X18. A run writes, in the mapping file, only rows of its candidates:
    the row of a name that is the base name of no candidate is after the
    run what it was before. *)
Theorem rows_of_other_files_stay
        (path_match : Path -> string -> bool)
        (unified_diff : list string -> list string -> string -> string -> list string)
        (a : args) (w : world) (name : string) :
  (forall q : Path, q ∈ a_files a -> Path_name q <> name) ->
  tracked_rows (snd (main path_match unified_diff a w)) !! name
  = tracked_rows w !! name.
Proof.
  intros Hother.
  apply (footprint_run
           path_match unified_diff a
           (fun x => tracked_rows x !! name = tracked_rows w !! name)).
  - intros text x H. exact H.
  - intros x H. rewrite requests_send_world. exact H.
  - intros _ i x _ H. rewrite requests_send_world. exact H.
  - intros _ q gist_id text x _ _ _ H. rewrite requests_send_world. exact H.
  - intros _ q i u x Hq H. rewrite saved_other_row; [exact H|].
    intros ->. now apply (Hother q).
  - intros _ _ keys x H. exact H.
  - intros _ _ q x _ H. exact H.
  - reflexivity.
Qed.

Lemma rows_of_other_files_stay_witness :
  tracked_rows
    (snd (main Sample.path_match Sample.unified_diff
               {| a_files := ["a.py"]; a_dry_run := false; a_create_new := false;
                  a_interactive := false; a_diff := true |}
               Sample.two_tracked)) !! "b.sh"
  = Some {| gist_id := "Y"; url := "v" |}.
Proof.
  rewrite (rows_of_other_files_stay
             Sample.path_match Sample.unified_diff
             {| a_files := ["a.py"]; a_dry_run := false; a_create_new := false;
                a_interactive := false; a_diff := true |}
             Sample.two_tracked "b.sh").
  - reflexivity.
  - intros q Hq. cbn [a_files] in Hq. rewrite elem_of_cons in Hq.
    destruct Hq as [-> | Hq]; [discriminate|]. now apply elem_of_nil in Hq.
Defined.

(** ** Runs that end *)


















(** ** Candidates that are passed over *)

(** X20. A candidate that is not a file is skipped with a warning, and
    with nothing else: whatever the options, and whether or not a gist is
    known for its name, nothing is sent, nothing is written, and the loop
    goes on. *)
Theorem missing_file_is_skipped
        (path_match : Path -> string -> bool)
        (unified_diff : list string -> list string -> string -> string -> list string)
        (existing_gists : gmap string string) (excluded : gset string)
        (create_new dry_run interactive show_diffs : bool) (p : Path) (w : world) :
  disk w !! p = None ->
  sync_file path_match unified_diff existing_gists excluded
            create_new dry_run interactive show_diffs p w
  = (Ok Next,
     with_trace (trace w ++ [line ("Warning: " +:+ p +:+ " is not a file, skipping")]) w).
Proof.
  intros Hdisk. unfold sync_file. unfold bind at 1. unfold is_file.
  rewrite bool_decide_eq_false_2 by (rewrite Hdisk; apply is_Some_None).
  reflexivity.
Qed.

Lemma missing_file_is_skipped_witness :
  sync_file Sample.path_match Sample.unified_diff {["gone.py" := "X"]} ∅
            true false true true "gone.py" Sample.two_tracked
  = (Ok Next,
     with_trace [line "Warning: gone.py is not a file, skipping"] Sample.two_tracked).
Proof.
  apply (missing_file_is_skipped
           Sample.path_match Sample.unified_diff {["gone.py" := "X"]} ∅
           true false true true "gone.py" Sample.two_tracked).
  reflexivity.
Defined.

(** X21. The choice [x] keeps the file away from the prompt.  After the
    operator has excluded a file, a later pass over it under
    [--create-new], with the patterns read from the ignore file as the
    choice left it, goes on in silence: provided that the ignore file
    ended with a line ending, that the name of the file has no line
    ending in it, and that the file matches its own name, stripped, as a
    pattern. *)
Theorem excluded_file_is_not_asked_again
        (path_match : Path -> string -> bool)
        (unified_diff : list string -> list string -> string -> string -> list string)
        (existing_gists : gmap string string)
        (dry_run dry_run' interactive show_diffs : bool)
        (p : Path) (ch : ascii) (keys : string) (w w2 : world) :
  stdin w = String ch keys ->
  choice_of ch = "x" ->
  (gistignore w = None
   \/ gistignore w = Some ""
   \/ exists (t : string) (c : ascii),
        gistignore w = Some (t +:+ String c "") /\ Py.is_linebreak c = true) ->
  Py.strip (Path_name p) <> "" ->
  Forall (fun x => Py.is_linebreak x = false)
         (String.list_ascii_of_string (Path_name p)) ->
  path_match p (Py.strip (Path_name p)) = true ->
  truthy_id (existing_gists !! Path_name p) = None ->
  gistignore w2 = gistignore (snd (interactive_sync p dry_run w)) ->
  is_Some (disk w2 !! p) ->
  fst (interactive_sync p dry_run w) = Ok true
  /\ sync_file path_match unified_diff existing_gists (patterns_of true w2)
               true dry_run' interactive show_diffs p w2
     = (Ok Next, w2).
Proof.
  intros Hkeys Hx Hfile Hstrip Hline Hmatch Hnone Hignore Hdisk.
  assert (Hch : is_choice ch = true).
  { unfold is_choice. rewrite Hx. apply bool_decide_eq_true_2.
    rewrite !elem_of_cons. tauto. }
  assert (Hrun : interactive_sync p dry_run w
                 = (Ok true,
                    with_trace
                      (trace (answered p "x" keys w)
                         ++ [line ("Added " +:+ Path_name p +:+ " to .gistignore")])
                      (with_gistignore
                         (default "" (gistignore w) +:+ Path_name p +:+ NL)
                         (answered p "x" keys w)))).
  { unfold interactive_sync. rewrite Hkeys.
    rewrite (prompt_loop_choice _ _ _ _ _ Hch). cbv zeta. rewrite Hx. reflexivity. }
  rewrite Hrun in *. cbn [fst snd gistignore with_trace with_gistignore] in Hignore.
  split; [reflexivity|].
  assert (Hin : Py.strip (Path_name p) ∈ patterns_of true w2).
  { pose proof (patterns_of_added (Path_name p) w Hfile Hstrip Hline) as Hadded.
    unfold patterns_of in *. cbn [gistignore with_gistignore] in Hadded.
    rewrite Hignore, Hadded. apply elem_of_union_r, elem_of_singleton. reflexivity. }
  unfold sync_file. unfold bind at 1. unfold is_file.
  rewrite bool_decide_eq_true_2 by assumption. cbn [negb].
  rewrite Hnone.
  assert (Hskip : should_sync_file path_match p (patterns_of true w2) = false).
  { unfold should_sync_file. apply negb_false_iff, existsb_exists.
    exists (Py.strip (Path_name p)). split; [|exact Hmatch].
    apply list_elem_of_In, elem_of_elements, Hin. }
  now rewrite Hskip.
Qed.

Lemma excluded_file_is_not_asked_again_witness :
  sync_file Sample.path_match Sample.unified_diff ∅
            (patterns_of true
               (snd (interactive_sync
                       "b.sh" false
                       (with_stdin "X" (Sample.with_disk [("b.sh", "echo")] Sample.blank)))))
            true false true false "b.sh"
            (snd (interactive_sync
                    "b.sh" false
                    (with_stdin "X" (Sample.with_disk [("b.sh", "echo")] Sample.blank))))
  = (Ok Next,
     snd (interactive_sync
            "b.sh" false
            (with_stdin "X" (Sample.with_disk [("b.sh", "echo")] Sample.blank)))).
Proof.
  apply (excluded_file_is_not_asked_again
           Sample.path_match Sample.unified_diff ∅ false false true false
           "b.sh" "X" ""
           (with_stdin "X" (Sample.with_disk [("b.sh", "echo")] Sample.blank))).
  - reflexivity.
  - reflexivity.
  - left. reflexivity.
  - discriminate.
  - vm_compute. repeat constructor.
  - reflexivity.
  - reflexivity.
  - reflexivity.
  - vm_compute. eexists. reflexivity.
Defined.

(** ** An ignore file that ends in the middle of a line *)

Lemma splitlines_unfinished (pattern t : string) (c : ascii) :
  Py.is_linebreak c = false ->
  Forall (fun x => Py.is_linebreak x = false) (String.list_ascii_of_string pattern) ->
  exists (init : list string) (last : string),
    Py.splitlines false (t +:+ String c "") = init ++ [last]
    /\ Py.splitlines false ((t +:+ String c "") +:+ pattern +:+ NL)
       = init ++ [last +:+ pattern].
Proof.
  intros Hc Hline. induction t as [|d t IH].
  - exists [], (String c ""). rewrite !append_empty_l. split.
    + rewrite splitlines_cons. cbv zeta. now rewrite Hc.
    + rewrite !append_cons, !append_empty_l.
      change (String c (pattern +:+ NL)) with (String c pattern +:+ NL).
      apply splitlines_one_line. cbn. now constructor.
  - destruct IH as (init & last & Hold & Hnew).
    rewrite !append_cons.
    rewrite (splitlines_cons _ d (t +:+ String c "")).
    rewrite (splitlines_cons _ d ((t +:+ String c "") +:+ pattern +:+ NL)).
    cbv zeta. rewrite Hold, Hnew.
    assert (Hstart : Py.starts_with_LF ((t +:+ String c "") +:+ pattern +:+ NL)
                     = Py.starts_with_LF (t +:+ String c "")).
    { destruct t; reflexivity. }
    rewrite Hstart.
    destruct (Py.is_linebreak d).
    + destruct (bool_decide (d = Py.CR) && Py.starts_with_LF (t +:+ String c "")).
      * destruct init as [|i0 init]; cbn [app].
        -- now exists [], last.
        -- now exists (i0 :: init), last.
      * now exists ("" :: init), last.
    + destruct init as [|i0 init]; cbn [app].
      * exists [], (String d last). now rewrite append_cons.
      * now exists (String d i0 :: init), last.
Qed.

(** X22. [add_to_gistignore] does not start a line of its own.  When the
    ignore file ends in the middle of a line, the pattern is written
    onto that line: the file has afterwards the lines it had, but for
    the last, which is the old last line with the pattern after it. *)
Theorem pattern_joins_unfinished_line (pattern : string) (w : world)
        (t : string) (c : ascii) :
  gistignore w = Some (t +:+ String c "") ->
  Py.is_linebreak c = false ->
  Forall (fun x => Py.is_linebreak x = false) (String.list_ascii_of_string pattern) ->
  exists (init : list string) (last text' : string),
    Py.splitlines false (t +:+ String c "") = init ++ [last]
    /\ gistignore (snd (add_to_gistignore pattern w)) = Some text'
    /\ Py.splitlines false text' = init ++ [last +:+ pattern].
Proof.
  intros Hfile Hc Hline.
  destruct (splitlines_unfinished pattern t c Hc Hline) as (init & last & Hold & Hnew).
  exists init, last, ((t +:+ String c "") +:+ pattern +:+ NL).
  split; [exact Hold|]. split; [|exact Hnew].
  unfold add_to_gistignore. cbn [snd gistignore with_gistignore].
  now rewrite Hfile.
Qed.

Lemma pattern_joins_unfinished_line_witness :
  exists text' : string,
    gistignore (snd (add_to_gistignore "b.sh" (with_gistignore "a.py" Sample.blank)))
    = Some text'
    /\ Py.splitlines false text' = ["a.pyb.sh"].
Proof.
  destruct (pattern_joins_unfinished_line
              "b.sh" (with_gistignore "a.py" Sample.blank) "a.p" "y")
    as (init & last & text' & Hold & Hfile & Hnew).
  - reflexivity.
  - reflexivity.
  - vm_compute. repeat constructor.
  - exists text'. split; [exact Hfile|].
    rewrite Hnew.
    change (Py.splitlines false ("a.p" +:+ "y")) with ([] ++ ["a.py"]) in Hold.
    apply app_inj_tail in Hold as [<- <-]. reflexivity.
Defined.

(** ** The map of known gists, against the service *)

Lemma get_existing_gists_run (w : world) :
  get_existing_gists w
  = match GitHub.exchange (GitHub.GET GIST_API_URL) (github w) with
    | (inl msg, s) =>
        (Raise (RequestException msg),
         with_github s (with_trace (trace w ++ [Http (GitHub.GET GIST_API_URL)]) w))
    | (inr response, s) =>
        (raise_for_status response ;;
         gists <- json_gists response ;;
         ret (fold_left
                (fun (d : gmap string string) gist =>
                   if negb (GitHub.g_public gist)
                   then <[fst (GitHub.g_first gist) := GitHub.g_id gist]> d
                   else d)
                gists ∅))
          (with_github s (with_trace (trace w ++ [Http (GitHub.GET GIST_API_URL)]) w))
    end.
Proof.
  unfold get_existing_gists. unfold bind at 1.
  unfold requests_get, requests_send. unfold bind at 1. unfold emit at 1.
  cbn [github with_trace].
  now destruct (GitHub.exchange _ _) as [[msg|response] s].
Qed.

(** The listing is answered with the first page of the gists, or with
    no document at all. *)
Lemma exchange_listing (s s' : GitHub.state) (response : GitHub.response) :
  GitHub.exchange (GitHub.GET GIST_API_URL) s = (inr response, s') ->
  GitHub.body response = None
  \/ GitHub.body response
     = Some (GitHub.JList (take (GitHub.per_page s) (GitHub.gists s))).
Proof.
  unfold GitHub.exchange. intros H.
  destruct (GitHub.faults s) as [|[[msg|code why]|] fs].
  - right. cbn in H. now injection H as <- <-.
  - discriminate.
  - left. now injection H as <- <-.
  - right. cbn in H. now injection H as <- <-.
Qed.

(** X23. The map of known gists is always there.  Whatever the service
    does with the listing, [merged_gists] returns: every row of the
    mapping file is in the map as it stands, and every other entry is a
    gist of the first page of the listing that is not public, under the
    name of its first file.  The gists of the service are left as they
    were. *)
Theorem merged_gists_always_returns (tracked : gmap string string) (w : world) :
  exists (m : gmap string string) (w' : world),
    merged_gists tracked w = (Ok m, w')
    /\ (forall name i : string, tracked !! name = Some i -> m !! name = Some i)
    /\ (forall name i : string,
          m !! name = Some i ->
          tracked !! name = Some i
          \/ exists g : GitHub.gist,
              In g (take (GitHub.per_page (github w)) (GitHub.gists (github w)))
              /\ GitHub.g_public g = false
              /\ fst (GitHub.g_first g) = name
              /\ GitHub.g_id g = i)
    /\ GitHub.gists (github w') = GitHub.gists (github w).
Proof.
  pose proof (exchange_get_gists GIST_API_URL (github w)) as [Hgists _].
  unfold merged_gists, try. unfold bind at 1. rewrite get_existing_gists_run.
  destruct (GitHub.exchange (GitHub.GET GIST_API_URL) (github w))
    as [[msg|response] s] eqn:Hex; cbn [snd] in Hgists.
  { eexists. eexists. split; [reflexivity|]. split; [auto|]. split; [auto|exact Hgists]. }
  destruct (is_error_status (GitHub.status_code response)) eqn:Hstatus.
  { destruct (raise_for_status_error
                response
                (with_github s
                   (with_trace (trace w ++ [Http (GitHub.GET GIST_API_URL)]) w))
                Hstatus) as [msg E].
    unfold bind at 1. rewrite E.
    eexists. eexists. split; [reflexivity|]. split; [auto|]. split; [auto|exact Hgists]. }
  unfold bind at 1. rewrite (raise_for_status_ok _ _ Hstatus).
  unfold bind at 1. unfold json_gists.
  destruct (exchange_listing _ _ _ Hex) as [-> | ->].
  { eexists. eexists. split; [reflexivity|]. split; [auto|]. split; [auto|exact Hgists]. }
  eexists. eexists. split; [reflexivity|]. split; [|split; [|exact Hgists]].
  - intros name i Hi. now rewrite lookup_merged, Hi.
  - intros name i Hi. rewrite lookup_merged in Hi.
    destruct (tracked !! name) as [j|]; [now left|]. right.
    rewrite listing_fold_lookup in Hi.
    destruct (List.find _ (rev _)) as [g|] eqn:Hfind; [|discriminate].
    injection Hi as <-. apply find_some in Hfind as [Hin Hg].
    apply andb_true_iff in Hg as [Hprivate Hname].
    exists g. split; [now apply in_rev|]. split; [now destruct (GitHub.g_public g)|].
    split; [now apply bool_decide_eq_true_1 in Hname|reflexivity].
Qed.

Lemma merged_gists_always_returns_witness :
  exists (m : gmap string string) (w' : world),
    merged_gists {["a.py" := "X"]}
                 (Sample.with_service [Sample.gist_X "a.py" "print(0)"]
                                      [Some (GitHub.Unreachable "timed out")]
                                      Sample.tracked_a_gone)
    = (Ok m, w')
    /\ m !! "a.py" = Some "X".
Proof.
  destruct (merged_gists_always_returns
              {["a.py" := "X"]}
              (Sample.with_service [Sample.gist_X "a.py" "print(0)"]
                                   [Some (GitHub.Unreachable "timed out")]
                                   Sample.tracked_a_gone))
    as (m & w' & Hrun & Hkeeps & _).
  exists m, w'. split; [exact Hrun|]. apply Hkeeps. reflexivity.
Defined.

(** ** The loop and the map of known gists *)

(** X24. The loop writes where the map says.  Every update the loop
    sends for a candidate goes to the gist that the map of known gists
    has for the base name of that candidate, and so does every fetch;
    every creation is for a candidate the map has no id for.  A fetch is
    only sent in diff mode, a write only outside a dry run, a creation
    only under [--create-new]. *)
Theorem writes_follow_the_map
        (path_match : Path -> string -> bool)
        (unified_diff : list string -> list string -> string -> string -> list string)
        (files : list Path) (existing_gists : gmap string string)
        (create_new dry_run interactive show_diffs : bool) (w : world) :
  let w' := snd (sync_files_to_gists path_match unified_diff files existing_gists
                                     create_new dry_run interactive show_diffs w) in
  exists more : list event,
    trace w' = trace w ++ more
    /\ Forall (follows_map files existing_gists create_new dry_run show_diffs) more.
Proof.
  intros w'.
  apply (footprint_loop
           path_match unified_diff
           {| a_files := files; a_dry_run := dry_run; a_create_new := create_new;
              a_interactive := interactive; a_diff := show_diffs |}
           (fun x =>
              exists more : list event,
                trace x = trace w ++ more
                /\ Forall (follows_map files existing_gists
                                       create_new dry_run show_diffs) more)
           (fun m => m = existing_gists)
           (fun q gist_id =>
              match truthy_id gist_id with
              | Some i => existing_gists !! Path_name q = Some i
              | None =>
                  create_new = true
                  /\ truthy_id (existing_gists !! Path_name q) = None
              end)).
  - intros m q i -> _ Hid. rewrite Hid. now apply truthy_id_inv in Hid.
  - intros m q -> _ Hid Hnew. cbn [truthy_id]. now split.
  - intros text x Ht. now apply trace_grows.
  - cbn [a_diff a_files]. intros Hdiff q i x Hq Hknown Hi Ht.
    rewrite requests_send_world. apply trace_grows; [exact Ht|].
    rewrite (truthy_id_Some i Hi) in Hknown.
    split; [exact Hdiff|]. now exists q, i.
  - cbn [a_dry_run a_files]. intros Hdry q gist_id text x Hq _ Hallowed Ht.
    rewrite requests_send_world. apply trace_grows; [exact Ht|].
    unfold sync_request. destruct (truthy_id gist_id) as [i|] eqn:Hid.
    + split; [exact Hdry|]. exists q, i.
      split; [exact Hq|]. split; [exact Hallowed|].
      split; [now apply truthy_id_inv in Hid|]. now split.
    + destruct Hallowed as [Hnew Hnone].
      split; [exact Hdry|]. split; [exact Hnew|]. now exists q.
  - intros _ q i u x _ H. exact H.
  - intros _ _ keys x H. exact H.
  - intros _ _ q x _ H. exact H.
  - reflexivity.
  - exists []. split; [now rewrite app_nil_r|constructor].
Qed.

(** ** Options that play no part *)

Lemma for_each_ext (body body' : Path -> M signal) (files : list Path) (w : world) :
  (forall (q : Path) (x : world), body q x = body' q x) ->
  for_each body files w = for_each body' files w.
Proof.
  intros Hbody. revert w. induction files as [|q files IH]; intros w; [reflexivity|].
  cbn [for_each]. unfold bind. rewrite Hbody.
  destruct (body' q w) as [[[|]| |] w1]; [apply IH|reflexivity..].
Qed.

Lemma bind_cong {A B} (m m' : M A) (k : A -> M B) (w : world) :
  m w = m' w -> bind m k w = bind m' k w.
Proof. intros H. unfold bind. now rewrite H. Qed.

(** X25. [--interactive] alone does nothing: without [--create-new], two
    runs that differ in that option only do the same and end the same,
    from every world. *)
Theorem interactive_needs_create_new
        (path_match : Path -> string -> bool)
        (unified_diff : list string -> list string -> string -> string -> list string)
        (a a' : args) (w : world) :
  a_create_new a = false ->
  a_create_new a' = false ->
  a_files a' = a_files a ->
  a_dry_run a' = a_dry_run a ->
  a_diff a' = a_diff a ->
  main path_match unified_diff a' w = main path_match unified_diff a w.
Proof.
  destruct a as [files dry_run create_new interactive show_diffs].
  destruct a' as [files' dry_run' create_new' interactive' show_diffs'].
  cbn [a_files a_dry_run a_create_new a_interactive a_diff].
  intros -> -> -> -> ->.
  unfold main. cbn [a_files a_dry_run a_create_new a_interactive a_diff].
  apply bind_ext. intros github_token w0.
  destruct (truthy_id github_token); [|reflexivity].
  apply bind_ext. intros tracked w1.
  apply bind_ext. intros existing w2.
  apply bind_cong. unfold sync_files_to_gists.
  apply bind_ext. intros excluded w3.
  apply bind_cong, for_each_ext.
  intros q x. unfold sync_file. apply bind_ext. intros isf x1.
  destruct (negb isf); [reflexivity|].
  now destruct (truthy_id (existing !! Path_name q)).
Qed.

Lemma interactive_needs_create_new_witness :
  main Sample.path_match Sample.unified_diff
       {| a_files := ["a.py"; "b.sh"]; a_dry_run := false; a_create_new := false;
          a_interactive := true; a_diff := false |}
       Sample.two_tracked
  = main Sample.path_match Sample.unified_diff
         {| a_files := ["a.py"; "b.sh"]; a_dry_run := false; a_create_new := false;
            a_interactive := false; a_diff := false |}
         Sample.two_tracked.
Proof.
  apply (interactive_needs_create_new
           Sample.path_match Sample.unified_diff
           {| a_files := ["a.py"; "b.sh"]; a_dry_run := false; a_create_new := false;
              a_interactive := false; a_diff := false |}
           {| a_files := ["a.py"; "b.sh"]; a_dry_run := false; a_create_new := false;
              a_interactive := true; a_diff := false |}
           Sample.two_tracked);
    reflexivity.
Defined.
